(** * CollabVM server: session and coordination engine

    A shallow embedding of [CollabVmServer.hpp] (the request dispatcher,
    the per-socket send pipeline, IP accounting, session minting, the
    recording-preview walk) and of [RecordingController.hpp] (starting
    and stopping a recording, settings changes while recording, the
    two timers and their handlers), with the properties of the
    specification stated and settled over it.

    Conventions of the embedding.
    - A [std::shared_ptr<CollabVmSocket>] is a socket identity [sock]; the
      socket objects live in the store [sockets] of the server, so that two
      references to one socket alias.
    - Every closure handed to a strand ([dispatch], [wrap], [post]) or to
      an asynchronous collaborator is one constructor of [Task] carrying
      the captured values; [exec] is its body.  A handler returns the
      tasks it dispatched, so the interleaving of tasks stays explicit.
    - [std::chrono::steady_clock] time points and durations are integers
      (nanoseconds); a default-constructed time point is [0].  In the
      recording controller they are taken in 64 bits.
    - A wait on a [boost::asio::steady_timer] that is cancelled completes
      with [operation_aborted]; its handler does not run inside
      [cancel()] but is posted to the io_context, and the controller
      carries the handlers that have still to run.
    - Unsigned 32/64-bit counters are [N]/[Z] with the wrap-around written
      out.
    - Calls into collaborators whose bodies are outside the embedded files
      (the transport [TSocket], the VM object) are recorded in call logs. *)

From Stdlib Require Import ZArith Ascii String DecimalString DecimalN.
From stdpp Require Import gmap strings list fin_maps.

Local Open Scope Z_scope.

(** ** Basic data *)

(** Identity of a [CollabVmSocket] object. *)
Abbreviation sock := nat (only parsing).

Definition u32_wrap (n : N) : N := (n mod 2 ^ 32)%N.
Definition u64_wrap (z : Z) : Z := z mod 2 ^ 64.

Inductive UserType := GUEST | REGULAR | ADMIN.

Inductive ChatMessageResponse :=
| USER_NOT_FOUND
| USER_CHAT_LIMIT
| RECIPIENT_CHAT_LIMIT.

(** One entry of a chat room: sender, user kind, text. *)
Record ChatEntry := {
  chat_sender : string;
  chat_user_type : UserType;
  chat_text : string
}.

(** The server-to-client messages built by the embedded code
    ([CollabVmServerMessage]). *)
Inductive ServerMessage :=
| ConnectResponseSuccess (history : list ChatEntry) (username : string)
    (captcha_required : bool)
| ConnectResponseFail
| UsernameTaken
| ChatMessageResponseMsg (result : ChatMessageResponse)
| ChatChannelId (channel : N)
| NewChatChannel (channel : N) (text : string)
| DirectChatMessage (channel : N) (sender : string) (text : string)
| RoomChatMessage (entry : ChatEntry)
| ChangeUsernameMsg (old_username new_username : string)
| UserJoined (username : string)
| UserLeft (username : string)
| LoginSession (session_id : list N) (username : string) (is_admin : bool)
| RecordingPlaybackResult (result : bool)
| RecordingPlaybackPreview (timestamp : Z) (vm_id : N) (png : list N).

(** Calls a socket makes on its transport base class and on the messages
    it frames, in program order. *)
Inductive SocketCall :=
| CreateFrame (m : ServerMessage)
| WriteMessage (buffers : list ServerMessage)
| Close
| BaseOnPreConnect.

Record UserData := {
  ud_username : string;
  ud_user_type : UserType
}.

(** The data members of [CollabVmSocket]; [calls_] is the call log and
    [ip_address_] the remote address held by the transport base class.
    [chat_rooms_] maps a local chat id to the peer socket and the id of
    the chat on the peer's side; [ip_data_] points at the per-IP record
    (by its key in the server's table). *)
Record Socket := {
  send_queue_ : list ServerMessage;
  sending_ : bool;
  calls_ : list SocketCall;
  chat_rooms_ : gmap N (sock * N);
  chat_rooms_id_ : N;
  is_logged_in_ : bool;
  is_admin_ : bool;
  is_viewing_server_config : bool;
  is_viewing_vm_list_ : bool;
  is_in_global_chat_ : bool;
  is_captcha_required_ : bool;
  last_chat_message_ : Z;
  last_username_change_ : Z;
  connected_vm_id_ : N;
  username_ : string;
  ip_data_ : option N;
  ip_address_ : N
}.

(** Member initialisers of the class, for a connection from [ip]. *)
Definition new_socket (ip : N) : Socket := {|
  send_queue_ := [];
  sending_ := false;
  calls_ := [];
  chat_rooms_ := ∅;
  chat_rooms_id_ := 1%N;
  is_logged_in_ := false;
  is_admin_ := false;
  is_viewing_server_config := false;
  is_viewing_vm_list_ := false;
  is_in_global_chat_ := false;
  is_captcha_required_ := false;
  last_chat_message_ := 0;
  last_username_change_ := 0;
  connected_vm_id_ := 0%N;
  username_ := "";
  ip_data_ := None;
  ip_address_ := ip
|}.

(** Field updates. *)
Definition set_pipeline (q : list ServerMessage) (b : bool) (c : list SocketCall) (s : Socket) : Socket :=
  {| send_queue_ := q;
     sending_ := b;
     calls_ := c;
     chat_rooms_ := chat_rooms_ s;
     chat_rooms_id_ := chat_rooms_id_ s;
     is_logged_in_ := is_logged_in_ s;
     is_admin_ := is_admin_ s;
     is_viewing_server_config := is_viewing_server_config s;
     is_viewing_vm_list_ := is_viewing_vm_list_ s;
     is_in_global_chat_ := is_in_global_chat_ s;
     is_captcha_required_ := is_captcha_required_ s;
     last_chat_message_ := last_chat_message_ s;
     last_username_change_ := last_username_change_ s;
     connected_vm_id_ := connected_vm_id_ s;
     username_ := username_ s;
     ip_data_ := ip_data_ s;
     ip_address_ := ip_address_ s |}.

Definition set_chat_rooms (r : gmap N (sock * N)) (next : N) (s : Socket) : Socket :=
  {| send_queue_ := send_queue_ s;
     sending_ := sending_ s;
     calls_ := calls_ s;
     chat_rooms_ := r;
     chat_rooms_id_ := next;
     is_logged_in_ := is_logged_in_ s;
     is_admin_ := is_admin_ s;
     is_viewing_server_config := is_viewing_server_config s;
     is_viewing_vm_list_ := is_viewing_vm_list_ s;
     is_in_global_chat_ := is_in_global_chat_ s;
     is_captcha_required_ := is_captcha_required_ s;
     last_chat_message_ := last_chat_message_ s;
     last_username_change_ := last_username_change_ s;
     connected_vm_id_ := connected_vm_id_ s;
     username_ := username_ s;
     ip_data_ := ip_data_ s;
     ip_address_ := ip_address_ s |}.

Definition set_login (logged_in : bool) (admin : bool) (s : Socket) : Socket :=
  {| send_queue_ := send_queue_ s;
     sending_ := sending_ s;
     calls_ := calls_ s;
     chat_rooms_ := chat_rooms_ s;
     chat_rooms_id_ := chat_rooms_id_ s;
     is_logged_in_ := logged_in;
     is_admin_ := admin;
     is_viewing_server_config := is_viewing_server_config s;
     is_viewing_vm_list_ := is_viewing_vm_list_ s;
     is_in_global_chat_ := is_in_global_chat_ s;
     is_captcha_required_ := is_captcha_required_ s;
     last_chat_message_ := last_chat_message_ s;
     last_username_change_ := last_username_change_ s;
     connected_vm_id_ := connected_vm_id_ s;
     username_ := username_ s;
     ip_data_ := ip_data_ s;
     ip_address_ := ip_address_ s |}.

Definition set_is_viewing_server_config (b : bool) (s : Socket) : Socket :=
  {| send_queue_ := send_queue_ s;
     sending_ := sending_ s;
     calls_ := calls_ s;
     chat_rooms_ := chat_rooms_ s;
     chat_rooms_id_ := chat_rooms_id_ s;
     is_logged_in_ := is_logged_in_ s;
     is_admin_ := is_admin_ s;
     is_viewing_server_config := b;
     is_viewing_vm_list_ := is_viewing_vm_list_ s;
     is_in_global_chat_ := is_in_global_chat_ s;
     is_captcha_required_ := is_captcha_required_ s;
     last_chat_message_ := last_chat_message_ s;
     last_username_change_ := last_username_change_ s;
     connected_vm_id_ := connected_vm_id_ s;
     username_ := username_ s;
     ip_data_ := ip_data_ s;
     ip_address_ := ip_address_ s |}.

Definition set_is_viewing_vm_list (b : bool) (s : Socket) : Socket :=
  {| send_queue_ := send_queue_ s;
     sending_ := sending_ s;
     calls_ := calls_ s;
     chat_rooms_ := chat_rooms_ s;
     chat_rooms_id_ := chat_rooms_id_ s;
     is_logged_in_ := is_logged_in_ s;
     is_admin_ := is_admin_ s;
     is_viewing_server_config := is_viewing_server_config s;
     is_viewing_vm_list_ := b;
     is_in_global_chat_ := is_in_global_chat_ s;
     is_captcha_required_ := is_captcha_required_ s;
     last_chat_message_ := last_chat_message_ s;
     last_username_change_ := last_username_change_ s;
     connected_vm_id_ := connected_vm_id_ s;
     username_ := username_ s;
     ip_data_ := ip_data_ s;
     ip_address_ := ip_address_ s |}.

Definition set_is_in_global_chat (b : bool) (s : Socket) : Socket :=
  {| send_queue_ := send_queue_ s;
     sending_ := sending_ s;
     calls_ := calls_ s;
     chat_rooms_ := chat_rooms_ s;
     chat_rooms_id_ := chat_rooms_id_ s;
     is_logged_in_ := is_logged_in_ s;
     is_admin_ := is_admin_ s;
     is_viewing_server_config := is_viewing_server_config s;
     is_viewing_vm_list_ := is_viewing_vm_list_ s;
     is_in_global_chat_ := b;
     is_captcha_required_ := is_captcha_required_ s;
     last_chat_message_ := last_chat_message_ s;
     last_username_change_ := last_username_change_ s;
     connected_vm_id_ := connected_vm_id_ s;
     username_ := username_ s;
     ip_data_ := ip_data_ s;
     ip_address_ := ip_address_ s |}.

Definition set_is_captcha_required (b : bool) (s : Socket) : Socket :=
  {| send_queue_ := send_queue_ s;
     sending_ := sending_ s;
     calls_ := calls_ s;
     chat_rooms_ := chat_rooms_ s;
     chat_rooms_id_ := chat_rooms_id_ s;
     is_logged_in_ := is_logged_in_ s;
     is_admin_ := is_admin_ s;
     is_viewing_server_config := is_viewing_server_config s;
     is_viewing_vm_list_ := is_viewing_vm_list_ s;
     is_in_global_chat_ := is_in_global_chat_ s;
     is_captcha_required_ := b;
     last_chat_message_ := last_chat_message_ s;
     last_username_change_ := last_username_change_ s;
     connected_vm_id_ := connected_vm_id_ s;
     username_ := username_ s;
     ip_data_ := ip_data_ s;
     ip_address_ := ip_address_ s |}.

Definition set_last_chat_message (t : Z) (s : Socket) : Socket :=
  {| send_queue_ := send_queue_ s;
     sending_ := sending_ s;
     calls_ := calls_ s;
     chat_rooms_ := chat_rooms_ s;
     chat_rooms_id_ := chat_rooms_id_ s;
     is_logged_in_ := is_logged_in_ s;
     is_admin_ := is_admin_ s;
     is_viewing_server_config := is_viewing_server_config s;
     is_viewing_vm_list_ := is_viewing_vm_list_ s;
     is_in_global_chat_ := is_in_global_chat_ s;
     is_captcha_required_ := is_captcha_required_ s;
     last_chat_message_ := t;
     last_username_change_ := last_username_change_ s;
     connected_vm_id_ := connected_vm_id_ s;
     username_ := username_ s;
     ip_data_ := ip_data_ s;
     ip_address_ := ip_address_ s |}.

Definition set_connected_vm_id (id : N) (s : Socket) : Socket :=
  {| send_queue_ := send_queue_ s;
     sending_ := sending_ s;
     calls_ := calls_ s;
     chat_rooms_ := chat_rooms_ s;
     chat_rooms_id_ := chat_rooms_id_ s;
     is_logged_in_ := is_logged_in_ s;
     is_admin_ := is_admin_ s;
     is_viewing_server_config := is_viewing_server_config s;
     is_viewing_vm_list_ := is_viewing_vm_list_ s;
     is_in_global_chat_ := is_in_global_chat_ s;
     is_captcha_required_ := is_captcha_required_ s;
     last_chat_message_ := last_chat_message_ s;
     last_username_change_ := last_username_change_ s;
     connected_vm_id_ := id;
     username_ := username_ s;
     ip_data_ := ip_data_ s;
     ip_address_ := ip_address_ s |}.

Definition set_username (u : string) (s : Socket) : Socket :=
  {| send_queue_ := send_queue_ s;
     sending_ := sending_ s;
     calls_ := calls_ s;
     chat_rooms_ := chat_rooms_ s;
     chat_rooms_id_ := chat_rooms_id_ s;
     is_logged_in_ := is_logged_in_ s;
     is_admin_ := is_admin_ s;
     is_viewing_server_config := is_viewing_server_config s;
     is_viewing_vm_list_ := is_viewing_vm_list_ s;
     is_in_global_chat_ := is_in_global_chat_ s;
     is_captcha_required_ := is_captcha_required_ s;
     last_chat_message_ := last_chat_message_ s;
     last_username_change_ := last_username_change_ s;
     connected_vm_id_ := connected_vm_id_ s;
     username_ := u;
     ip_data_ := ip_data_ s;
     ip_address_ := ip_address_ s |}.

Definition set_ip_data (ip : option N) (s : Socket) : Socket :=
  {| send_queue_ := send_queue_ s;
     sending_ := sending_ s;
     calls_ := calls_ s;
     chat_rooms_ := chat_rooms_ s;
     chat_rooms_id_ := chat_rooms_id_ s;
     is_logged_in_ := is_logged_in_ s;
     is_admin_ := is_admin_ s;
     is_viewing_server_config := is_viewing_server_config s;
     is_viewing_vm_list_ := is_viewing_vm_list_ s;
     is_in_global_chat_ := is_in_global_chat_ s;
     is_captcha_required_ := is_captcha_required_ s;
     last_chat_message_ := last_chat_message_ s;
     last_username_change_ := last_username_change_ s;
     connected_vm_id_ := connected_vm_id_ s;
     username_ := username_ s;
     ip_data_ := ip;
     ip_address_ := ip_address_ s |}.

(** ** Send pipeline (per socket) *)

(** [TSocket::Close]. *)
Definition socket_close (s : Socket) : Socket :=
  set_pipeline (send_queue_ s) (sending_ s) (calls_ s ++ [Close]) s.

(** [SendMessage]: one write carrying the buffers of one message; its
    completion re-enters [SendMessageCallback] on the send-queue strand. *)
Definition SendMessage (m : ServerMessage) (s : Socket) : Socket :=
  set_pipeline (send_queue_ s) (sending_ s)
    (calls_ s ++ [WriteMessage [m]]) s.

(** [SendMessageBatch]: the do-while loop moves every queued message into
    one vector of buffers, emptying the queue, and issues a single write.
    The caller guarantees a non-empty queue. *)
Definition SendMessageBatch (s : Socket) : Socket :=
  set_pipeline [] (sending_ s)
    (calls_ s ++ [WriteMessage (send_queue_ s)]) s.

(** [SendMessageCallback] with the write's [error_code]
    ([true] = a failure). *)
Definition SendMessageCallback (error_code : bool) (s : Socket) : Socket :=
  if error_code then socket_close s
  else
    match send_queue_ s with
    | [] => set_pipeline [] false (calls_ s) s
    | [m] => set_pipeline [] (sending_ s) (calls_ (SendMessage m s)) s
    | _ :: _ :: _ => SendMessageBatch s
    end.

(** The closure [QueueMessage] dispatches on the send-queue strand. *)
Definition QueueMessage_task (m : ServerMessage) (s : Socket) : Socket :=
  if sending_ s
  then set_pipeline (send_queue_ s ++ [m]) (sending_ s) (calls_ s) s
  else SendMessage m (set_pipeline (send_queue_ s) true (calls_ s) s).

(** [QueueMessage]: frame, then run the strand closure. *)
Definition QueueMessage (m : ServerMessage) (s : Socket) : Socket :=
  QueueMessage_task m
    (set_pipeline (send_queue_ s) (sending_ s)
       (calls_ s ++ [CreateFrame m]) s).

(** [QueueMessageBatch]: the callback pushes (framing each) any number of
    messages; then the whole queue is batch-sent if no write is in
    flight. *)
Definition QueueMessageBatch (ms : list ServerMessage) (s : Socket)
    : Socket :=
  let s1 := set_pipeline (send_queue_ s ++ ms) (sending_ s)
              (calls_ s ++ map CreateFrame ms) s in
  match send_queue_ s1 with
  | [] => s1
  | _ :: _ =>
      if sending_ s1 then s1
      else SendMessageBatch
             (set_pipeline (send_queue_ s1) true (calls_ s1) s1)
  end.

(** ** Server state *)

(** Modelled from the spec: [CaseInsensitiveUtils.hpp] (the hasher and
    comparator of the guest table) is outside the embedded files; the
    specification asks for case-insensitive equality of guest names.  The
    guest table is keyed by the case-folded name. *)
Definition ascii_lower (c : ascii) : ascii :=
  let n := N_of_ascii c in
  if ((65 <=? n) && (n <=? 90))%N then ascii_of_N (n + 32) else c.

Fixpoint fold_case (s : string) : string :=
  match s with
  | EmptyString => EmptyString
  | String c r => String (ascii_lower c) (fold_case r)
  end.

(** Modelled from the spec: [TurnController.hpp] is outside the embedded
    files.  Turn state of a VM: the holder and the FIFO of waiting
    users (the deadline and its timer are left out). *)
Record TurnState := {
  turn_holder : option sock;
  turn_queue : list sock
}.

(** Modelled from the spec: [UserChannel.hpp] is outside the embedded
    files.  A channel is its id, its membership (session and user data)
    and its chat room. *)
Record Channel := {
  ch_id : N;
  ch_users : list (sock * UserData);
  ch_chat_room : list ChatEntry
}.

(** Calls into the VM object whose bodies are in
    [AdminVirtualMachine.hpp], outside the embedded files; they are
    recorded, not interpreted. *)
Inductive VmCall :=
| VmVote (s : sock) (voted_yes : bool)
| VmReadInstruction (s : sock) (instr : string).

(** Modelled from the spec: [AdminVirtualMachine.hpp] is outside the
    embedded files.  Of a VM the embedded code uses the
    [DISALLOW_GUESTS] setting, the user channel and the turn
    controller. *)
Record VM := {
  vm_disallow_guests : bool;
  vm_channel : Channel;
  vm_turn : TurnState;
  vm_calls : list VmCall
}.

(** The server settings read by the embedded code. *)
Record Settings := {
  MAX_CONNECTIONS_ENABLED : bool;
  MAX_CONNECTIONS : Z;
  CAPTCHA_REQUIRED : bool
}.

(** The data members of [CollabVmServer]: the socket store and the state
    guarded by each strand.  [server_ip_data_] maps an address to the
    [connections] counter of its record, the two viewer lists are those
    of the VM list, and [rng_draws] counts the draws made from
    [guest_rng_]. *)
Record Server := {
  sockets : gmap sock Socket;
  settings_ : Settings;
  sessions_ : gmap (list N) sock;
  guests_ : gmap string sock;
  server_ip_data_ : gmap N Z;
  virtual_machines_ : gmap N VM;
  vm_list_viewers : list sock;
  admin_vm_list_viewers : list sock;
  global_chat_room_ : Channel;
  rng_draws : nat
}.

Definition global_channel_id : N := 0.

Definition set_sockets (m : gmap sock Socket) (srv : Server) : Server :=
  {| sockets := m; settings_ := settings_ srv; sessions_ := sessions_ srv;
     guests_ := guests_ srv; server_ip_data_ := server_ip_data_ srv;
     virtual_machines_ := virtual_machines_ srv;
     vm_list_viewers := vm_list_viewers srv;
     admin_vm_list_viewers := admin_vm_list_viewers srv;
     global_chat_room_ := global_chat_room_ srv;
     rng_draws := rng_draws srv |}.

Definition set_sessions (m : gmap (list N) sock) (srv : Server) : Server :=
  {| sockets := sockets srv; settings_ := settings_ srv; sessions_ := m;
     guests_ := guests_ srv; server_ip_data_ := server_ip_data_ srv;
     virtual_machines_ := virtual_machines_ srv;
     vm_list_viewers := vm_list_viewers srv;
     admin_vm_list_viewers := admin_vm_list_viewers srv;
     global_chat_room_ := global_chat_room_ srv;
     rng_draws := rng_draws srv |}.

Definition set_guests (m : gmap string sock) (draws : nat) (srv : Server)
    : Server :=
  {| sockets := sockets srv; settings_ := settings_ srv;
     sessions_ := sessions_ srv;
     guests_ := m; server_ip_data_ := server_ip_data_ srv;
     virtual_machines_ := virtual_machines_ srv;
     vm_list_viewers := vm_list_viewers srv;
     admin_vm_list_viewers := admin_vm_list_viewers srv;
     global_chat_room_ := global_chat_room_ srv;
     rng_draws := draws |}.

Definition set_server_ip_data (m : gmap N Z) (srv : Server) : Server :=
  {| sockets := sockets srv; settings_ := settings_ srv;
     sessions_ := sessions_ srv;
     guests_ := guests_ srv; server_ip_data_ := m;
     virtual_machines_ := virtual_machines_ srv;
     vm_list_viewers := vm_list_viewers srv;
     admin_vm_list_viewers := admin_vm_list_viewers srv;
     global_chat_room_ := global_chat_room_ srv;
     rng_draws := rng_draws srv |}.

Definition set_virtual_machines (m : gmap N VM) (srv : Server) : Server :=
  {| sockets := sockets srv; settings_ := settings_ srv;
     sessions_ := sessions_ srv;
     guests_ := guests_ srv; server_ip_data_ := server_ip_data_ srv;
     virtual_machines_ := m;
     vm_list_viewers := vm_list_viewers srv;
     admin_vm_list_viewers := admin_vm_list_viewers srv;
     global_chat_room_ := global_chat_room_ srv;
     rng_draws := rng_draws srv |}.

Definition set_viewers (v a : list sock) (srv : Server) : Server :=
  {| sockets := sockets srv; settings_ := settings_ srv;
     sessions_ := sessions_ srv;
     guests_ := guests_ srv; server_ip_data_ := server_ip_data_ srv;
     virtual_machines_ := virtual_machines_ srv;
     vm_list_viewers := v;
     admin_vm_list_viewers := a;
     global_chat_room_ := global_chat_room_ srv;
     rng_draws := rng_draws srv |}.

Definition set_global_chat_room (c : Channel) (srv : Server) : Server :=
  {| sockets := sockets srv; settings_ := settings_ srv;
     sessions_ := sessions_ srv;
     guests_ := guests_ srv; server_ip_data_ := server_ip_data_ srv;
     virtual_machines_ := virtual_machines_ srv;
     vm_list_viewers := vm_list_viewers srv;
     admin_vm_list_viewers := admin_vm_list_viewers srv;
     global_chat_room_ := c;
     rng_draws := rng_draws srv |}.

(** Dereferencing a socket pointer, and writing through it. *)
Definition the_socket (s : sock) (srv : Server) : Socket :=
  default (new_socket 0) (sockets srv !! s).

Definition with_socket (s : sock) (f : Socket → Socket) (srv : Server)
    : Server :=
  set_sockets (<[s := f (the_socket s srv)]> (sockets srv)) srv.

(** [GetUserType]. *)
Definition GetUserType (s : Socket) : UserType :=
  if is_admin_ s then ADMIN
  else if is_logged_in_ s then REGULAR
  else GUEST.

(** ** Channels *)

(** A channel is named by the strand that owns it: the global chat room
    or the user channel of a VM. *)
Inductive ChannelRef :=
| GlobalChannel
| VmChannel (id : N).

Definition get_channel (c : ChannelRef) (srv : Server) : option Channel :=
  match c with
  | GlobalChannel => Some (global_chat_room_ srv)
  | VmChannel id => vm_channel <$> virtual_machines_ srv !! id
  end.

Definition set_vm_channel (ch : Channel) (vm : VM) : VM :=
  {| vm_disallow_guests := vm_disallow_guests vm; vm_channel := ch;
     vm_turn := vm_turn vm; vm_calls := vm_calls vm |}.

Definition set_vm_turn (t : TurnState) (vm : VM) : VM :=
  {| vm_disallow_guests := vm_disallow_guests vm;
     vm_channel := vm_channel vm;
     vm_turn := t; vm_calls := vm_calls vm |}.

Definition set_vm_calls (c : list VmCall) (vm : VM) : VM :=
  {| vm_disallow_guests := vm_disallow_guests vm;
     vm_channel := vm_channel vm;
     vm_turn := vm_turn vm; vm_calls := c |}.

Definition put_channel (c : ChannelRef) (ch : Channel) (srv : Server)
    : Server :=
  match c with
  | GlobalChannel => set_global_chat_room ch srv
  | VmChannel id =>
      set_virtual_machines
        (alter (set_vm_channel ch) id (virtual_machines_ srv)) srv
  end.

Definition set_ch_users (u : list (sock * UserData)) (ch : Channel)
    : Channel :=
  {| ch_id := ch_id ch; ch_users := u; ch_chat_room := ch_chat_room ch |}.

Definition set_ch_chat_room (r : list ChatEntry) (ch : Channel) : Channel :=
  {| ch_id := ch_id ch; ch_users := ch_users ch; ch_chat_room := r |}.

(** Modelled from the spec: [UserChannel.hpp] is outside the embedded
    files.  [GetUserData] looks a member up. *)
Definition GetUserData (s : sock) (ch : Channel) : option UserData :=
  snd <$> head (filter (λ u, fst u = s) (ch_users ch)).

(** Modelled from the spec: [BroadcastMessage] enqueues the message on
    each member's send pipeline. *)
Definition BroadcastMessage (m : ServerMessage) (ch : Channel)
    (srv : Server) : Server :=
  foldl (λ acc u, with_socket (fst u) (QueueMessage m) acc) srv
    (ch_users ch).

(** Modelled from the spec: [AddUser] inserts the member and broadcasts a
    join notification. *)
Definition AddUser (c : ChannelRef) (ud : UserData) (s : sock)
    (srv : Server) : Server :=
  match get_channel c srv with
  | None => srv
  | Some ch =>
      let ch' := set_ch_users (ch_users ch ++ [(s, ud)]) ch in
      BroadcastMessage (UserJoined (ud_username ud)) ch'
        (put_channel c ch' srv)
  end.

(** Modelled from the spec: purging a user from the turn state of a VM
    (the holder is released to the head of the queue). *)
Definition purge_turn (s : sock) (t : TurnState) : TurnState :=
  let q := filter (λ x, x ≠ s) (turn_queue t) in
  match turn_holder t with
  | Some h =>
      if bool_decide (h = s)
      then {| turn_holder := head q; turn_queue := tail q |}
      else {| turn_holder := Some h; turn_queue := q |}
  | None => {| turn_holder := None; turn_queue := q |}
  end.

(** Modelled from the spec: [RemoveUser] erases the member, broadcasts
    the leave and purges the user from the turn state. *)
Definition RemoveUser (c : ChannelRef) (s : sock) (srv : Server)
    : Server :=
  match get_channel c srv with
  | None => srv
  | Some ch =>
      match GetUserData s ch with
      | None => srv
      | Some ud =>
          let ch' :=
            set_ch_users (filter (λ u, fst u ≠ s) (ch_users ch)) ch in
          let srv1 := put_channel c ch' srv in
          let srv2 :=
            match c with
            | GlobalChannel => srv1
            | VmChannel id =>
                set_virtual_machines
                  (alter (λ vm, set_vm_turn (purge_turn s (vm_turn vm)) vm)
                     id (virtual_machines_ srv1)) srv1
            end in
          BroadcastMessage (UserLeft (ud_username ud)) ch' srv2
      end
  end.

(** Modelled from the spec: [RequestTurn] of the turn controller, without
    its timer: an idle VM grants the turn, the holder and queued users are
    left alone, anyone else is appended. *)
Definition RequestTurn (s : sock) (t : TurnState) : TurnState :=
  match turn_holder t with
  | None => {| turn_holder := Some s; turn_queue := turn_queue t |}
  | Some h =>
      if bool_decide (h = s) || bool_decide (s ∈ turn_queue t)
      then t
      else {| turn_holder := Some h; turn_queue := turn_queue t ++ [s] |}
  end.

(** Modelled from the spec: the chat room ([CollabVmChatRoom.hpp]) keeps
    the last [chat_room_capacity] messages. *)
Definition chat_room_capacity : nat := 100.

(** Modelled from the spec: [AddUserMessage] appends to the ring,
    evicting the oldest message. *)
Definition AddUserMessage (e : ChatEntry) (room : list ChatEntry)
    : list ChatEntry :=
  let r := room ++ [e] in
  drop (length r - chat_room_capacity)%nat r.

(** ** Collaborators outside the embedded files *)

(** The constants and the validator of [CollabVmCommon.hpp], the guest
    number generator and the CAPTCHA provider are parameters of the
    embedding.  [guest_rng n] is the [n]-th draw of
    [guest_rng_(rng_)]; [captcha_verify token] is the verdict the
    provider passes to the callback of [CaptchaVerifier::Verify]. *)
Class Environment := {
  ValidateUsername : string → bool;
  username_change_rate_limit : Z;
  chat_rate_limit : Z;
  max_chat_message_len : nat;
  guest_rng : nat → N;
  captcha_verify : string → bool
}.

(** What [Database::CreateSession] returns:
    [(correct_username, is_admin, old_session_id, new_session_id)]. *)
Record DbSession := {
  correct_username : string;
  db_is_admin : bool;
  old_session_id : list N;
  new_session_id : list N
}.

(** ** Client messages and dispatched closures *)

Inductive ChatMessageDestination :=
| NEW_DIRECT (username : string)
| DIRECT (id : N)
| VM_DESTINATION (id : N).

(** The client messages whose handling is embedded. *)
Inductive ClientMessage :=
| CONNECT_TO_CHANNEL (channel_id : N)
| CAPTCHA_COMPLETED (token : string)
| TURN_REQUEST
| VOTE (voted_yes : bool)
| GUAC_INSTR (instr : string)
| CHANGE_USERNAME (new_username : string)
| CHAT_MESSAGE (destination : ChatMessageDestination) (text : string).

(** One constructor per closure of the source, with its captures; the
    comment names the strand (or collaborator) that runs it. *)
Inductive Task :=
(* CONNECT_TO_CHANNEL *)
| ConnectUsername (self : sock) (channel_id : N)      (* username_ *)
| GenerateUsername (self : sock) (channel_id : N)     (* guests_ *)
| ConnectVm (self : sock) (channel_id : N) (username : string)
                                                      (* virtual_machines_ *)
| ConnectVmSettings (self : sock) (channel_id : N) (username : string)
                                                      (* VM settings *)
| ConnectChannel (self : sock) (c : ChannelRef) (username : string)
                                                      (* channel *)
| LeaveVm (self : sock) (id : N)                      (* virtual_machines_ *)
| LeaveChannel (self : sock) (c : ChannelRef)         (* channel *)
| RemoveVmListViewer (self : sock)                    (* virtual_machines_ *)
| RemoveAdminVmListViewer (self : sock)               (* virtual_machines_ *)
(* CAPTCHA_COMPLETED *)
| CaptchaVerified (self : sock) (is_valid : bool)     (* captcha verifier *)
(* TURN_REQUEST, VOTE, GUAC_INSTR *)
| TurnRequestVm (self : sock)                         (* virtual_machines_ *)
| VoteVm (self : sock) (voted_yes : bool)             (* virtual_machines_ *)
| GuacInstrVm (self : sock) (channel_id : N) (instr : string)
                                                      (* virtual_machines_ *)
(* CHANGE_USERNAME and SetUserData *)
| ChangeUsernameCheck (self : sock) (new_username : string)
                                                      (* username_ *)
| ChangeUsernameGuests (self : sock) (new_username current : string)
                                                      (* guests_ *)
| SetUserDataSwap (self : sock) (username : string) (user_type : UserType)
                                                      (* username_ *)
| UpdateUsernameVm (self : sock) (id : N) (new_username : string)
    (user_type : UserType)                            (* virtual_machines_ *)
| UpdateUsername (self : sock) (c : ChannelRef) (new_username : string)
    (user_type : UserType)                            (* channel *)
(* CHAT_MESSAGE *)
| ChatUsername (self : sock) (destination : ChatMessageDestination)
    (text : string)                                   (* username_ *)
| NewDirectGuests (self : sock) (username : string) (text : string)
                                                      (* guests_ *)
| NewDirectSender (self recipient : sock) (text : string)
                                                      (* self chat_rooms_ *)
| NewDirectRecipient (self recipient : sock) (sender_id : N)
    (text : string)                              (* recipient chat_rooms_ *)
| NewDirectRollback (self : sock) (sender_id : N)     (* self chat_rooms_ *)
| NewDirectFinish (self recipient : sock) (sender_id recipient_id : N)
    (text : string)                                   (* self chat_rooms_ *)
| DirectChat (self : sock) (username : string) (id : N) (text : string)
                                                      (* self chat_rooms_ *)
| ChatVm (self : sock) (username : string) (id : N) (text : string)
                                                      (* virtual_machines_ *)
| ChatRoom (self : sock) (username : string) (c : ChannelRef)
    (text : string)                                   (* channel *)
(* CreateSession *)
| CreateSession (socket : sock) (username : string) (db : DbSession)
                                                      (* sessions_ *)
(* OnPreConnect, OnConnect *)
| GetIPData (self : sock)                             (* server ip_data_ *)
| PreConnectSettings (self : sock)                    (* settings_ *)
| PreConnectIp (self : sock) (max_connections_enabled : bool)
    (max_connections : Z)                             (* socket ip_data_ *)
| OnConnectSettings (self : sock)                     (* settings_ *)
(* OnDisconnect *)
| DisconnectUsername (self : sock)                    (* username_ *)
| DisconnectGuests (username : string)                (* guests_ *)
| DisconnectIp (self : sock).                         (* socket ip_data_ *)

(** ** Helpers of the socket class *)

Definition SendChatChannelId (self : sock) (id : N) : Server → Server :=
  with_socket self (QueueMessage (ChatChannelId id)).

Definition SendChatMessageResponse (self : sock)
    (result : ChatMessageResponse) : Server → Server :=
  with_socket self (QueueMessage (ChatMessageResponseMsg result)).

(** [InvalidateSession]: the body is a [TODO] comment. *)
Definition InvalidateSession (s : Socket) : Socket := s.

(** [LeaveVmList]. *)
Definition LeaveVmList (self : sock) (srv : Server) : Server * list Task :=
  if is_viewing_vm_list_ (the_socket self srv)
  then (with_socket self (set_is_viewing_vm_list false) srv,
        [RemoveVmListViewer self])
  else (srv, []).

(** [LeaveServerConfig]. *)
Definition LeaveServerConfig (self : sock) (srv : Server)
    : Server * list Task :=
  if is_viewing_server_config (the_socket self srv)
  then (with_socket self (set_is_viewing_server_config false) srv,
        [RemoveAdminVmListViewer self])
  else (srv, []).

(** [SetUserData]: the user type is read before the dispatch. *)
Definition SetUserData (self : sock) (username : string) (srv : Server)
    : list Task :=
  [SetUserDataSwap self username (GetUserType (the_socket self srv))].

(** [std::to_string] of an unsigned number. *)
Definition to_string (n : N) : string :=
  NilEmpty.string_of_uint (N.to_uint n).

(** The do-while loop of [GenerateUsername]: the number is incremented
    until ["guest" + to_string(num)] is free.  At most [size guests]
    names are taken, so [S (size guests)] rounds are enough. *)
Fixpoint free_guest_number (rounds : nat) (num : N)
    (guests : gmap string sock) : option N :=
  match rounds with
  | O => None
  | S r =>
      match guests !! fold_case ("guest" +:+ to_string num) with
      | None => Some num
      | Some _ => free_guest_number r (u32_wrap (num + 1)) guests
      end
  end.

(** [find_if] over a chat-rooms table for the row of a peer. *)
Definition find_room_by_peer (peer : sock) (rooms : gmap N (sock * N))
    : option (N * (sock * N)) :=
  head (filter (λ r, fst (snd r) = peer) (map_to_list rooms)).

(** [unordered_map::emplace]: an existing key is kept. *)
Definition emplace {K V} `{Countable K} (k : K) (v : V) (m : gmap K V)
    : gmap K V :=
  match m !! k with
  | Some _ => m
  | None => <[k := v]> m
  end.

(** ** Bodies of the closures *)

Section Dispatcher.
Context `{Environment}.

(** The closure [connect_to_channel(username)] of line 224, run by
    [ConnectUsername] or as the continuation of [GenerateUsername]. *)
Definition connect_to_channel (self : sock) (channel_id : N)
    (username : string) (srv : Server) : Server * list Task :=
  if bool_decide (channel_id = global_channel_id) then
    if is_in_global_chat_ (the_socket self srv) then (srv, [])
    else (with_socket self (set_is_in_global_chat true) srv,
          [ConnectChannel self GlobalChannel username])
  else (srv, [ConnectVm self channel_id username]).

Definition exec_ConnectUsername (self : sock) (channel_id : N)
    (srv : Server) : Server * list Task :=
  let username := username_ (the_socket self srv) in
  if bool_decide (username = "")
  then (srv, [GenerateUsername self channel_id])
  else connect_to_channel self channel_id username srv.

Definition exec_GenerateUsername (self : sock) (channel_id : N)
    (srv : Server) : Server * list Task :=
  let num := guest_rng (rng_draws srv) in
  match free_guest_number (S (size (guests_ srv))) num (guests_ srv) with
  | None => (srv, [])
  | Some n =>
      let username := "guest" +:+ to_string n in
      let srv1 :=
        set_guests (<[fold_case username := self]> (guests_ srv))
          (S (rng_draws srv)) srv in
      let t1 := SetUserData self username srv1 in
      let '(srv2, t2) := connect_to_channel self channel_id username srv1 in
      (srv2, t1 ++ t2)
  end.

Definition exec_ConnectVm (self : sock) (channel_id : N)
    (username : string) (srv : Server) : Server * list Task :=
  match virtual_machines_ srv !! channel_id with
  | None => (with_socket self (QueueMessage ConnectResponseFail) srv, [])
  | Some _ => (srv, [ConnectVmSettings self channel_id username])
  end.

Definition exec_ConnectVmSettings (self : sock) (channel_id : N)
    (username : string) (srv : Server) : Server * list Task :=
  match virtual_machines_ srv !! channel_id with
  | None => (srv, [])
  | Some vm =>
      if vm_disallow_guests vm && negb (is_logged_in_ (the_socket self srv))
      then (with_socket self (QueueMessage ConnectResponseFail) srv, [])
      else (srv, [ConnectChannel self (VmChannel channel_id) username])
  end.

Definition exec_ConnectChannel (self : sock) (c : ChannelRef)
    (username : string) (srv : Server) : Server * list Task :=
  match get_channel c srv with
  | None => (srv, [])
  | Some channel =>
      let '(srv1, t1) := LeaveVmList self srv in
      let old_id := connected_vm_id_ (the_socket self srv1) in
      let t2 :=
        if bool_decide (old_id = 0%N) then [] else [LeaveVm self old_id] in
      let srv2 := with_socket self (set_connected_vm_id (ch_id channel)) srv1 in
      let response :=
        ConnectResponseSuccess (ch_chat_room channel) username
          (is_captcha_required_ (the_socket self srv2)) in
      let srv3 := with_socket self (QueueMessage response) srv2 in
      let user_data :=
        {| ud_username := username;
           ud_user_type := GetUserType (the_socket self srv3) |} in
      (AddUser c user_data self srv3, t1 ++ t2)
  end.

Definition exec_LeaveVm (self : sock) (id : N) (srv : Server)
    : Server * list Task :=
  match virtual_machines_ srv !! id with
  | None => (srv, [])
  | Some _ => (srv, [LeaveChannel self (VmChannel id)])
  end.

Definition exec_TurnRequestVm (self : sock) (srv : Server)
    : Server * list Task :=
  let id := connected_vm_id_ (the_socket self srv) in
  (set_virtual_machines
     (alter (λ vm, set_vm_turn (RequestTurn self (vm_turn vm)) vm) id
        (virtual_machines_ srv)) srv, []).

Definition exec_VoteVm (self : sock) (voted_yes : bool) (srv : Server)
    : Server * list Task :=
  let id := connected_vm_id_ (the_socket self srv) in
  (set_virtual_machines
     (alter (λ vm, set_vm_calls (vm_calls vm ++ [VmVote self voted_yes]) vm)
        id (virtual_machines_ srv)) srv, []).

Definition exec_GuacInstrVm (self : sock) (channel_id : N)
    (instr : string) (srv : Server) : Server * list Task :=
  (set_virtual_machines
     (alter
        (λ vm,
           set_vm_calls (vm_calls vm ++ [VmReadInstruction self instr]) vm)
        channel_id (virtual_machines_ srv)) srv, []).

Definition exec_ChangeUsernameCheck (self : sock) (new_username : string)
    (srv : Server) : Server * list Task :=
  let username := username_ (the_socket self srv) in
  if bool_decide (username = new_username) then (srv, [])
  else (srv, [ChangeUsernameGuests self new_username username]).

Definition exec_ChangeUsernameGuests (self : sock)
    (new_username current_username : string) (srv : Server)
    : Server * list Task :=
  match guests_ srv !! fold_case new_username with
  | Some _ => (with_socket self (QueueMessage UsernameTaken) srv, [])
  | None =>
      let guests :=
        delete (fold_case current_username)
          (<[fold_case new_username := self]> (guests_ srv)) in
      let srv1 := set_guests guests (rng_draws srv) srv in
      (srv1, SetUserData self new_username srv1)
  end.

Definition exec_SetUserDataSwap (self : sock) (username : string)
    (user_type : UserType) (srv : Server) : Server * list Task :=
  let s := the_socket self srv in
  let old := username_ s in
  let srv1 := with_socket self (set_username username) srv in
  if negb (bool_decide (old = ""))
     && (negb (bool_decide (connected_vm_id_ s = 0%N))
         || is_in_global_chat_ s)
  then
    (srv1,
     (if bool_decide (connected_vm_id_ s = 0%N) then []
      else [UpdateUsernameVm self (connected_vm_id_ s) username user_type])
     ++ (if is_in_global_chat_ s
         then [UpdateUsername self GlobalChannel username user_type]
         else []))
  else (srv1, []).

Definition exec_UpdateUsernameVm (self : sock) (id : N)
    (new_username : string) (user_type : UserType) (srv : Server)
    : Server * list Task :=
  match virtual_machines_ srv !! id with
  | None => (srv, [])
  | Some _ =>
      (srv, [UpdateUsername self (VmChannel id) new_username user_type])
  end.

Definition exec_UpdateUsername (self : sock) (c : ChannelRef)
    (new_username : string) (user_type : UserType) (srv : Server)
    : Server * list Task :=
  match get_channel c srv with
  | None => (srv, [])
  | Some channel =>
      match GetUserData self channel with
      | None => (srv, [])
      | Some user_data =>
          let users :=
            map (λ u, if bool_decide (fst u = self)
                      then (self, {| ud_username := new_username;
                                     ud_user_type := user_type |})
                      else u) (ch_users channel) in
          let channel' := set_ch_users users channel in
          (BroadcastMessage
             (ChangeUsernameMsg (ud_username user_data) new_username)
             channel' (put_channel c channel' srv), [])
      end
  end.

Definition exec_ChatUsername (self : sock)
    (destination : ChatMessageDestination) (text : string) (srv : Server)
    : Server * list Task :=
  let username := username_ (the_socket self srv) in
  if bool_decide (username = "") then (srv, [])
  else
    match destination with
    | NEW_DIRECT recipient_name =>
        (srv, [NewDirectGuests self recipient_name text])
    | DIRECT id => (srv, [DirectChat self username id text])
    | VM_DESTINATION id =>
        if bool_decide (id = global_channel_id)
        then (srv, [ChatRoom self username GlobalChannel text])
        else (srv, [ChatVm self username id text])
    end.

Definition exec_NewDirectGuests (self : sock) (username : string)
    (text : string) (srv : Server) : Server * list Task :=
  match guests_ srv !! fold_case username with
  | None => (SendChatMessageResponse self USER_NOT_FOUND srv, [])
  | Some recipient => (srv, [NewDirectSender self recipient text])
  end.

Definition exec_NewDirectSender (self recipient : sock) (text : string)
    (srv : Server) : Server * list Task :=
  let s := the_socket self srv in
  let chat_rooms := chat_rooms_ s in
  if bool_decide (10 ≤ size chat_rooms)%nat
  then (SendChatMessageResponse self USER_CHAT_LIMIT srv, [])
  else
    match find_room_by_peer recipient chat_rooms with
    | Some existing_chat_room =>
        (SendChatChannelId self (snd (snd existing_chat_room)) srv, [])
    | None =>
        let id := chat_rooms_id_ s in
        (with_socket self
           (set_chat_rooms (emplace id (recipient, 0%N) chat_rooms)
              (u32_wrap (id + 1))) srv,
         [NewDirectRecipient self recipient id text])
    end.

Definition exec_NewDirectRecipient (self recipient : sock) (sender_id : N)
    (text : string) (srv : Server) : Server * list Task :=
  let r := the_socket recipient srv in
  let recipient_chat_rooms := chat_rooms_ r in
  match find_room_by_peer self recipient_chat_rooms with
  | Some existing_chat_room =>
      if bool_decide (snd (snd existing_chat_room) = 0%N)
      then
        (with_socket recipient
           (set_chat_rooms
              (<[fst existing_chat_room := (self, sender_id)]>
                 recipient_chat_rooms) (chat_rooms_id_ r)) srv, [])
      else (SendChatChannelId self sender_id srv, [])
  | None =>
      if bool_decide (10 ≤ size recipient_chat_rooms)%nat
      then (srv, [NewDirectRollback self sender_id])
      else
        let recipient_id := chat_rooms_id_ r in
        (with_socket recipient
           (set_chat_rooms
              (emplace recipient_id (recipient, sender_id)
                 recipient_chat_rooms) (u32_wrap (recipient_id + 1))) srv,
         [NewDirectFinish self recipient sender_id recipient_id text])
  end.

Definition exec_NewDirectRollback (self : sock) (sender_id : N)
    (srv : Server) : Server * list Task :=
  let s := the_socket self srv in
  let srv1 :=
    with_socket self
      (set_chat_rooms (delete sender_id (chat_rooms_ s)) (chat_rooms_id_ s))
      srv in
  (SendChatMessageResponse self RECIPIENT_CHAT_LIMIT srv1, []).

Definition exec_NewDirectFinish (self recipient : sock)
    (sender_id recipient_id : N) (text : string) (srv : Server)
    : Server * list Task :=
  let s := the_socket self srv in
  match chat_rooms_ s !! sender_id with
  | Some (peer, peer_id) =>
      if bool_decide (peer_id = 0%N) then
        let srv1 :=
          with_socket self
            (set_chat_rooms
               (<[sender_id := (peer, recipient_id)]> (chat_rooms_ s))
               (chat_rooms_id_ s)) srv in
        let srv2 := SendChatChannelId self sender_id srv1 in
        let socket_message := NewChatChannel recipient_id text in
        let srv3 := with_socket recipient (QueueMessage socket_message) srv2 in
        (with_socket self (QueueMessage socket_message) srv3, [])
      else (srv, [])
  | None => (srv, [])
  end.

Definition exec_DirectChat (self : sock) (username : string) (id : N)
    (text : string) (srv : Server) : Server * list Task :=
  match chat_rooms_ (the_socket self srv) !! id with
  | None => (srv, [])
  | Some (recipient, _) =>
      (with_socket recipient
         (QueueMessage (DirectChatMessage id username text)) srv, [])
  end.

Definition exec_ChatVm (self : sock) (username : string) (id : N)
    (text : string) (srv : Server) : Server * list Task :=
  match virtual_machines_ srv !! id with
  | None => (srv, [])
  | Some _ => (srv, [ChatRoom self username (VmChannel id) text])
  end.

Definition exec_ChatRoom (self : sock) (username : string)
    (c : ChannelRef) (text : string) (srv : Server) : Server * list Task :=
  match get_channel c srv with
  | None => (srv, [])
  | Some channel =>
      let entry :=
        {| chat_sender := username;
           chat_user_type := GetUserType (the_socket self srv);
           chat_text := text |} in
      let channel' :=
        set_ch_chat_room (AddUserMessage entry (ch_chat_room channel))
          channel in
      (BroadcastMessage (RoomChatMessage entry) channel'
         (put_channel c channel' srv), [])
  end.

(** [CollabVmServer::CreateSession], with the login callback of
    [LOGIN_REQUEST].  [SetSessionId] emplaces the new id (the source
    asserts that it was not present). *)
Definition exec_CreateSession (socket : sock) (username : string)
    (db : DbSession) (srv : Server) : Server * list Task :=
  if bool_decide (correct_username db = "") then (srv, [])
  else
    let srv1 := with_socket socket (set_login true (db_is_admin db)) srv in
    let t1 := SetUserData socket (correct_username db) srv1 in
    let srv2 :=
      set_sessions (emplace (new_session_id db) socket (sessions_ srv1))
        srv1 in
    let srv3 :=
      if bool_decide (old_session_id db = []) then srv2
      else
        match sessions_ srv2 !! old_session_id db with
        | Some it => with_socket it InvalidateSession srv2
        | None => srv2
        end in
    (with_socket socket
       (QueueMessage
          (LoginSession (new_session_id db) (correct_username db)
             (is_admin_ (the_socket socket srv3)))) srv3, t1).

(** Modelled from the spec: [IPData.hpp] is outside the embedded files;
    the per-IP record is [{ connections: u32 }], zero when created.
    [GetIPData] finds or creates the record and the callback of
    [OnPreConnect] stores the pointer. *)
Definition exec_GetIPData (self : sock) (srv : Server)
    : Server * list Task :=
  let ip := ip_address_ (the_socket self srv) in
  let srv1 := set_server_ip_data (emplace ip 0 (server_ip_data_ srv)) srv in
  (with_socket self (set_ip_data (Some ip)) srv1, [PreConnectSettings self]).

Definition exec_PreConnectSettings (self : sock) (srv : Server)
    : Server * list Task :=
  (srv, [PreConnectIp self (MAX_CONNECTIONS_ENABLED (settings_ srv))
           (MAX_CONNECTIONS (settings_ srv))]).

(** The admission test on one per-IP counter:
    [max_connections_enabled && ++ip_data.connections > max_connections].
    The increment is inside the short-circuit conjunction.  The result is
    the counter and whether the socket is closed. *)
Definition pre_connect_counter (max_connections_enabled : bool)
    (max_connections connections : Z) : Z * bool :=
  if max_connections_enabled then
    let connections' := (connections + 1) mod 2 ^ 32 in
    (connections', bool_decide (max_connections < connections'))
  else (connections, false).

(** The disconnect step on one per-IP counter:
    [if (ip_data.connections > 0) --ip_data.connections]. *)
Definition disconnect_counter (connections : Z) : Z :=
  if bool_decide (0 < connections) then (connections - 1) mod 2 ^ 32
  else connections.

Definition exec_PreConnectIp (self : sock) (max_connections_enabled : bool)
    (max_connections : Z) (srv : Server) : Server * list Task :=
  match ip_data_ (the_socket self srv) with
  | None => (srv, [])
  | Some ip =>
      let connections := default 0 (server_ip_data_ srv !! ip) in
      let '(connections', close) :=
        pre_connect_counter max_connections_enabled max_connections
          connections in
      let srv1 :=
        set_server_ip_data (<[ip := connections']> (server_ip_data_ srv))
          srv in
      if close then (with_socket self socket_close srv1, [])
      else
        (with_socket self
           (λ s, set_pipeline (send_queue_ s) (sending_ s)
                   (calls_ s ++ [BaseOnPreConnect]) s) srv1, [])
  end.

Definition exec_OnConnectSettings (self : sock) (srv : Server)
    : Server * list Task :=
  (with_socket self
     (set_is_captcha_required (CAPTCHA_REQUIRED (settings_ srv))) srv, []).

Definition exec_DisconnectUsername (self : sock) (srv : Server)
    : Server * list Task :=
  let username := username_ (the_socket self srv) in
  if bool_decide (username = "") then (srv, [])
  else (with_socket self (set_username "") srv, [DisconnectGuests username]).

Definition exec_DisconnectIp (self : sock) (srv : Server)
    : Server * list Task :=
  match ip_data_ (the_socket self srv) with
  | None => (srv, [])
  | Some ip =>
      (set_server_ip_data
         (alter disconnect_counter ip (server_ip_data_ srv)) srv, [])
  end.

(** The body of a closure. *)
Definition exec (t : Task) (srv : Server) : Server * list Task :=
  match t with
  | ConnectUsername self id => exec_ConnectUsername self id srv
  | GenerateUsername self id => exec_GenerateUsername self id srv
  | ConnectVm self id u => exec_ConnectVm self id u srv
  | ConnectVmSettings self id u => exec_ConnectVmSettings self id u srv
  | ConnectChannel self c u => exec_ConnectChannel self c u srv
  | LeaveVm self id => exec_LeaveVm self id srv
  | LeaveChannel self c => (RemoveUser c self srv, [])
  | RemoveVmListViewer self =>
      (set_viewers (filter (λ x, x ≠ self) (vm_list_viewers srv))
         (admin_vm_list_viewers srv) srv, [])
  | RemoveAdminVmListViewer self =>
      (set_viewers (vm_list_viewers srv)
         (filter (λ x, x ≠ self) (admin_vm_list_viewers srv)) srv, [])
  | CaptchaVerified self is_valid =>
      (with_socket self (set_is_captcha_required (negb is_valid)) srv, [])
  | TurnRequestVm self => exec_TurnRequestVm self srv
  | VoteVm self yes => exec_VoteVm self yes srv
  | GuacInstrVm self id instr => exec_GuacInstrVm self id instr srv
  | ChangeUsernameCheck self new => exec_ChangeUsernameCheck self new srv
  | ChangeUsernameGuests self new cur =>
      exec_ChangeUsernameGuests self new cur srv
  | SetUserDataSwap self u ut => exec_SetUserDataSwap self u ut srv
  | UpdateUsernameVm self id u ut => exec_UpdateUsernameVm self id u ut srv
  | UpdateUsername self c u ut => exec_UpdateUsername self c u ut srv
  | ChatUsername self d text => exec_ChatUsername self d text srv
  | NewDirectGuests self u text => exec_NewDirectGuests self u text srv
  | NewDirectSender self r text => exec_NewDirectSender self r text srv
  | NewDirectRecipient self r id text =>
      exec_NewDirectRecipient self r id text srv
  | NewDirectRollback self id => exec_NewDirectRollback self id srv
  | NewDirectFinish self r sid rid text =>
      exec_NewDirectFinish self r sid rid text srv
  | DirectChat self u id text => exec_DirectChat self u id text srv
  | ChatVm self u id text => exec_ChatVm self u id text srv
  | ChatRoom self u c text => exec_ChatRoom self u c text srv
  | CreateSession socket u db => exec_CreateSession socket u db srv
  | GetIPData self => exec_GetIPData self srv
  | PreConnectSettings self => exec_PreConnectSettings self srv
  | PreConnectIp self enabled max => exec_PreConnectIp self enabled max srv
  | OnConnectSettings self => exec_OnConnectSettings self srv
  | DisconnectUsername self => exec_DisconnectUsername self srv
  | DisconnectGuests username =>
      (set_guests (delete (fold_case username) (guests_ srv))
         (rng_draws srv) srv, [])
  | DisconnectIp self => exec_DisconnectIp self srv
  end.

(** ** The socket's entry points *)

(** [HandleMessage] for a message received at steady-clock time [now]:
    the state after the synchronous part and the closures dispatched. *)
Definition HandleMessage (self : sock) (message : ClientMessage) (now : Z)
    (srv : Server) : Server * list Task :=
  let s := the_socket self srv in
  match message with
  | CONNECT_TO_CHANNEL channel_id =>
      (srv, [ConnectUsername self channel_id])
  | CAPTCHA_COMPLETED token =>
      (srv, [CaptchaVerified self (captcha_verify token)])
  | TURN_REQUEST =>
      if bool_decide (connected_vm_id_ s = 0%N) || is_captcha_required_ s
      then (srv, [])
      else (srv, [TurnRequestVm self])
  | VOTE voted_yes =>
      if bool_decide (connected_vm_id_ s = 0%N) || is_captcha_required_ s
      then (srv, [])
      else (srv, [VoteVm self voted_yes])
  | GUAC_INSTR instr =>
      if bool_decide (connected_vm_id_ s = 0%N) || is_captcha_required_ s
      then (srv, [])
      else (srv, [GuacInstrVm self (connected_vm_id_ s) instr])
  | CHANGE_USERNAME new_username =>
      if is_captcha_required_ s then (srv, [])
      else if is_logged_in_ s then (srv, [])
      else if bool_decide
                (now - last_username_change_ s < username_change_rate_limit)
      then (srv, [])
      else if negb (ValidateUsername new_username) then (srv, [])
      else (srv, [ChangeUsernameCheck self new_username])
  | CHAT_MESSAGE destination text =>
      if is_captcha_required_ s then (srv, [])
      else
        let message_len := String.length text in
        if bool_decide (message_len = O)
           || bool_decide (max_chat_message_len < message_len)%nat
           || bool_decide (now - last_chat_message_ s < chat_rate_limit)
        then (srv, [])
        else (with_socket self (set_last_chat_message now) srv,
              [ChatUsername self destination text])
  end.


Definition OnConnect (self : sock) (srv : Server) : Server * list Task :=
  (srv, [OnConnectSettings self]).

(** [OnDisconnect]. *)
Definition OnDisconnect (self : sock) (srv : Server) : Server * list Task :=
  let '(srv1, t1) := LeaveServerConfig self srv in
  let '(srv2, t2) := LeaveVmList self srv1 in
  let s := the_socket self srv2 in
  (srv2,
   t1 ++ t2 ++ [DisconnectUsername self]
   ++ (if bool_decide (connected_vm_id_ s = 0%N) then []
       else [LeaveVm self (connected_vm_id_ s)])
   ++ (if is_in_global_chat_ s then [LeaveChannel self GlobalChannel]
       else [])
   ++ (match ip_data_ s with
       | Some _ => [DisconnectIp self]
       | None => []
       end)).

(** ** Running closures *)

(** Closures are run one at a time, in the order of their dispatch; the
    closures a closure dispatches join the end of the queue. *)
Fixpoint run (fuel : nat) (pending : list Task) (srv : Server)
    : option Server :=
  match pending with
  | [] => Some srv
  | t :: rest =>
      match fuel with
      | O => None
      | S fuel' =>
          let '(srv', spawned) := exec t srv in
          run fuel' (rest ++ spawned) srv'
      end
  end.

(** The first [n] closures of the queue, leaving the rest pending. *)
Fixpoint run_n (n : nat) (pending : list Task) (srv : Server)
    : Server * list Task :=
  match n, pending with
  | S n', t :: rest =>
      let '(srv', spawned) := exec t srv in run_n n' (rest ++ spawned) srv'
  | _, _ => (srv, pending)
  end.

(** An entry point run to quiescence. *)
Definition run_entry (fuel : nat) (entry : Server → Server * list Task)
    (srv : Server) : option Server :=
  let '(srv', pending) := entry srv in run fuel pending srv'.

End Dispatcher.

(** The client messages whose case in [HandleMessage] tests
    [is_captcha_required_] before anything else is done. *)
Definition captcha_gated (message : ClientMessage) : bool :=
  match message with
  | CHANGE_USERNAME _ | CHAT_MESSAGE _ _ | TURN_REQUEST | VOTE _
  | GUAC_INSTR _ => true
  | CONNECT_TO_CHANNEL _ | CAPTCHA_COMPLETED _ => false
  end.

(** ** Recording controller ([RecordingController.hpp]) *)

Record Keyframe := {
  fileOffset : nat;
  timestamp : Z
}.

Record RecordingFileHeader := {
  vmId : N;
  startTime : Z;
  stopTime : Z;
  keyframes : list Keyframe;
  keyframesCount : nat
}.

(** 64-bit two's complement, the representation of the durations and
    time points of the steady clock. *)
Definition i64_wrap (z : Z) : Z := (z + 2 ^ 63) mod 2 ^ 64 - 2 ^ 63.

(** A [boost::asio::steady_timer]: its expiry and whether a wait is
    pending. *)
Record steady_timer := {
  expiry : Z;
  waiting : bool
}.

(** The timer once its wait is over (completed or cancelled). *)
Definition wait_over (t : steady_timer) : steady_timer :=
  {| expiry := expiry t; waiting := false |}.

(** [expires_after] followed by [async_wait], at steady-clock time
    [now]. *)
Definition timer_expires_after (now d : Z) : steady_timer :=
  {| expiry := i64_wrap (now + d); waiting := true |}.

(** A completion handler of one of the two timers, posted to the
    io_context with its error code ([true] is [operation_aborted], the
    code a cancelled wait completes with). *)
Inductive Completion :=
| StopTimerCompleted (error_code : bool)
| KeyframeTimerCompleted (error_code : bool).

(** File operations and callbacks of the controller, in program order. *)
Inductive RecordingEvent :=
| FileOpened (filename : string)
| FileClosed
| HeaderWritten (h : RecordingFileHeader)
| OnRecordingStarted (start_time : Z)
| OnRecordingStopped (stop_time : Z)
| OnKeyframeInRecording.

(** The data members; [is_open] stands for
    [file_stream_.is_open() && file_stream_.good()] and
    [next_keyframe_offset_] is an index into the header's keyframes.
    [file_duration_] is in minutes, [keyframe_interval_] in seconds.
    [completions_] are the handlers of the timers that the io_context
    has still to run, oldest first. *)
Record RecordingController := {
  vm_id_ : N;
  is_open : bool;
  file_header_ : RecordingFileHeader;
  next_keyframe_offset_ : nat;
  stop_timer_ : steady_timer;
  keyframe_timer_ : steady_timer;
  file_duration_ : Z;
  keyframe_interval_ : Z;
  filename_ : string;
  events_ : list RecordingEvent;
  completions_ : list Completion
}.

(** What one call of [Start] or [Stop] observes of the world: the steady
    clock (nanoseconds), the system clock (milliseconds), and the
    outcomes of [create_directories], [GetCurrentDateTime] and
    [file_stream_.open]. *)
Record World := {
  steady_now : Z;
  system_now : Z;
  create_directories_ok : bool;
  date_time : string;
  open_ok : bool
}.

(** The conversions of [std::chrono::minutes] and [std::chrono::seconds]
    to the nanoseconds of the steady clock; the product is taken in 64
    bits. *)
Definition minutes_ns (m : Z) : Z := i64_wrap (m * 60000000000).
Definition seconds_ns (s : Z) : Z := i64_wrap (s * 1000000000).

(** The largest number of minutes whose conversion is exact. *)
Definition max_minutes : Z := 153722867.

Definition IsRecording (rc : RecordingController) : bool := is_open rc.

Definition set_durations (file_duration keyframe_interval : Z)
    (rc : RecordingController) : RecordingController :=
  {| vm_id_ := vm_id_ rc; is_open := is_open rc;
     file_header_ := file_header_ rc;
     next_keyframe_offset_ := next_keyframe_offset_ rc;
     stop_timer_ := stop_timer_ rc; keyframe_timer_ := keyframe_timer_ rc;
     file_duration_ := file_duration; keyframe_interval_ := keyframe_interval;
     filename_ := filename_ rc; events_ := events_ rc;
     completions_ := completions_ rc |}.

Definition set_keyframe_timer (t : steady_timer) (rc : RecordingController)
    : RecordingController :=
  {| vm_id_ := vm_id_ rc; is_open := is_open rc;
     file_header_ := file_header_ rc;
     next_keyframe_offset_ := next_keyframe_offset_ rc;
     stop_timer_ := stop_timer_ rc; keyframe_timer_ := t;
     file_duration_ := file_duration_ rc;
     keyframe_interval_ := keyframe_interval_ rc;
     filename_ := filename_ rc; events_ := events_ rc;
     completions_ := completions_ rc |}.

Definition set_stop_timer (t : steady_timer) (rc : RecordingController)
    : RecordingController :=
  {| vm_id_ := vm_id_ rc; is_open := is_open rc;
     file_header_ := file_header_ rc;
     next_keyframe_offset_ := next_keyframe_offset_ rc;
     stop_timer_ := t; keyframe_timer_ := keyframe_timer_ rc;
     file_duration_ := file_duration_ rc;
     keyframe_interval_ := keyframe_interval_ rc;
     filename_ := filename_ rc; events_ := events_ rc;
     completions_ := completions_ rc |}.

Definition set_completions (c : list Completion) (rc : RecordingController)
    : RecordingController :=
  {| vm_id_ := vm_id_ rc; is_open := is_open rc;
     file_header_ := file_header_ rc;
     next_keyframe_offset_ := next_keyframe_offset_ rc;
     stop_timer_ := stop_timer_ rc; keyframe_timer_ := keyframe_timer_ rc;
     file_duration_ := file_duration_ rc;
     keyframe_interval_ := keyframe_interval_ rc;
     filename_ := filename_ rc; events_ := events_ rc;
     completions_ := c |}.

(** The file stream, the header with the slot written next, the file
    name, and what is added to the log. *)
Definition set_file (open : bool) (h : RecordingFileHeader) (next : nat)
    (filename : string) (added : list RecordingEvent)
    (rc : RecordingController) : RecordingController :=
  {| vm_id_ := vm_id_ rc; is_open := open;
     file_header_ := h;
     next_keyframe_offset_ := next;
     stop_timer_ := stop_timer_ rc; keyframe_timer_ := keyframe_timer_ rc;
     file_duration_ := file_duration_ rc;
     keyframe_interval_ := keyframe_interval_ rc;
     filename_ := filename; events_ := events_ rc ++ added;
     completions_ := completions_ rc |}.

(** [cancel()] of a timer: a pending wait is completed with
    [operation_aborted], and its handler is posted to the io_context;
    it runs after the function that cancelled has returned. *)
Definition cancel_stop_timer (rc : RecordingController)
    : RecordingController :=
  if waiting (stop_timer_ rc)
  then set_completions (completions_ rc ++ [StopTimerCompleted true])
         (set_stop_timer (wait_over (stop_timer_ rc)) rc)
  else rc.

Definition cancel_keyframe_timer (rc : RecordingController)
    : RecordingController :=
  if waiting (keyframe_timer_ rc)
  then set_completions (completions_ rc ++ [KeyframeTimerCompleted true])
         (set_keyframe_timer (wait_over (keyframe_timer_ rc)) rc)
  else rc.

(** The expiry of a timer: a pending wait is completed without error and
    its handler is posted. *)
Definition stop_timer_expired (rc : RecordingController)
    : RecordingController :=
  if waiting (stop_timer_ rc)
  then set_completions (completions_ rc ++ [StopTimerCompleted false])
         (set_stop_timer (wait_over (stop_timer_ rc)) rc)
  else rc.

Definition keyframe_timer_expired (rc : RecordingController)
    : RecordingController :=
  if waiting (keyframe_timer_ rc)
  then set_completions (completions_ rc ++ [KeyframeTimerCompleted false])
         (set_keyframe_timer (wait_over (keyframe_timer_ rc)) rc)
  else rc.

(** [StartKeyframeTimer] arms the timer ([expires_after] cancels a
    pending wait); [UpdateKeyframeTimer] cancels it when the interval
    is zero. *)
Definition StartKeyframeTimer (w : World) (rc : RecordingController)
    : RecordingController :=
  set_keyframe_timer
    (timer_expires_after (steady_now w) (seconds_ns (keyframe_interval_ rc)))
    (cancel_keyframe_timer rc).

Definition UpdateKeyframeTimer (w : World) (rc : RecordingController)
    : RecordingController :=
  if bool_decide (keyframe_interval_ rc = 0)
  then cancel_keyframe_timer rc
  else StartKeyframeTimer w rc.

Definition set_stopTime (t : Z) (h : RecordingFileHeader)
    : RecordingFileHeader :=
  {| vmId := vmId h; startTime := startTime h; stopTime := t;
     keyframes := keyframes h; keyframesCount := keyframesCount h |}.

(** [Stop]: the result is the stop time, [None] standing for
    [time_point::min()] when nothing was being recorded. *)
Definition Stop (w : World) (rc : RecordingController)
    : RecordingController * option Z :=
  if negb (IsRecording rc) then (rc, None)
  else
    let rc1 := cancel_stop_timer (cancel_keyframe_timer rc) in
    let h := set_stopTime (system_now w) (file_header_ rc1) in
    (set_file false h (next_keyframe_offset_ rc1) ""
       [HeaderWritten h; FileClosed; OnRecordingStopped (system_now w)] rc1,
     Some (system_now w)).

(** The number of keyframe slots of a new header:
    [file_duration_ / keyframe_interval_] in 64-bit seconds, passed as
    the 32-bit size of the list. *)
Definition keyframe_slots (file_duration keyframe_interval : Z) : Z :=
  if bool_decide (keyframe_interval = 0) then 0
  else (i64_wrap (file_duration * 60) `quot` keyframe_interval) mod 2 ^ 32.

(** The name of a new recording file. *)
Definition recording_filename (vm_id : N) (date_time : string) : string :=
  "./recordings/" +:+ "vm" +:+ to_string vm_id +:+ "_"
  +:+ date_time +:+ ".bin".

(** The header of a new recording file. *)
Definition new_header (vm_id : N) (start_time : Z)
    (file_duration keyframe_interval : Z) : RecordingFileHeader :=
  {| vmId := vm_id; startTime := start_time; stopTime := 0;
     keyframes :=
       replicate (Z.to_nat (keyframe_slots file_duration keyframe_interval))
         {| fileOffset := O; timestamp := 0 |};
     keyframesCount := O |}.

(** [Start].  The handler given to [stop_timer_.async_wait] is
    [stop_timer_handler] below; it runs when the io_context reaches the
    completion of the wait. *)
Definition Start (w : World) (rc : RecordingController)
    : RecordingController :=
  if bool_decide (file_duration_ rc = 0) then rc
  else
    let '(rc1, stopped) := Stop w rc in
    let start_time := default (system_now w) stopped in
    if negb (create_directories_ok w) then rc1
    else if bool_decide (date_time w = "") then rc1
    else
      let filename := recording_filename (vm_id_ rc1) (date_time w) in
      if negb (open_ok w) then
        set_file false (file_header_ rc1) (next_keyframe_offset_ rc1)
          filename [] rc1
      else
        let h :=
          new_header (vm_id_ rc1) start_time (file_duration_ rc1)
            (keyframe_interval_ rc1) in
        let rc2 := set_file true h O filename [FileOpened filename] rc1 in
        let rc3 :=
          set_stop_timer
            (timer_expires_after (steady_now w)
               (minutes_ns (file_duration_ rc2)))
            (cancel_stop_timer rc2) in
        let rc4 := UpdateKeyframeTimer w rc3 in
        set_file true h O filename
          [HeaderWritten h; OnRecordingStarted start_time;
           OnKeyframeInRecording] rc4.

(** [SetRecordingSettings] with the new file duration (minutes) and
    keyframe interval (seconds) of the settings message.  The remaining
    time is a steady-clock duration; the new file duration is converted
    to it for the comparison. *)
Definition SetRecordingSettings (file_duration keyframe_interval : Z)
    (w : World) (rc : RecordingController) : RecordingController :=
  let rc1 := set_durations file_duration keyframe_interval rc in
  if negb (IsRecording rc1) then rc1
  else
    let expiration := i64_wrap (expiry (stop_timer_ rc1) - steady_now w) in
    if bool_decide (expiration < minutes_ns file_duration)
    then Start w rc1
    else UpdateKeyframeTimer w rc1.

(** The completion handler of the stop timer, given to [async_wait] by
    [Start]. *)
Definition stop_timer_handler (error_code : bool) (w : World)
    (rc : RecordingController) : RecordingController :=
  if error_code then fst (Stop w rc) else Start w rc.

(** The completion handler of the keyframe timer, with the stream
    position [tellp] it reads.  When every slot of the header is used
    the handler calls [Start]; otherwise it fills the next slot, counts
    it (in 32 bits), rewrites the header and arms the timer again. *)
Definition keyframe_timer_handler (error_code : bool) (tellp : nat)
    (w : World) (rc : RecordingController) : RecordingController :=
  if error_code then rc
  else
    let h := file_header_ rc in
    if bool_decide (next_keyframe_offset_ rc = length (keyframes h))
    then Start w rc
    else
      let h' :=
        {| vmId := vmId h; startTime := startTime h; stopTime := stopTime h;
           keyframes :=
             <[next_keyframe_offset_ rc :=
                 {| fileOffset := tellp; timestamp := system_now w |}]>
               (keyframes h);
           keyframesCount :=
             Z.to_nat ((Z.of_nat (keyframesCount h) + 1) mod 2 ^ 32) |} in
      StartKeyframeTimer w
        (set_file (is_open rc) h' (S (next_keyframe_offset_ rc))
           (filename_ rc) [HeaderWritten h'; OnKeyframeInRecording] rc).

(** The io_context runs the oldest posted handler, in the world it
    then observes ([tellp] is read by the keyframe handler). *)
Definition run_completion (rc : RecordingController) (e : World * nat)
    : RecordingController :=
  match completions_ rc with
  | [] => rc
  | c :: rest =>
      let rc0 := set_completions rest rc in
      match c with
      | StopTimerCompleted error_code =>
          stop_timer_handler error_code (fst e) rc0
      | KeyframeTimerCompleted error_code =>
          keyframe_timer_handler error_code (snd e) (fst e) rc0
      end
  end.

(** What [Start] adds to the event log of a controller that is
    recording: nothing when the file duration is zero; otherwise the
    current file is closed (header rewritten with the stop time), and a
    new file is opened when the directory, the date string and the
    stream are all available. *)
Definition rollover_events (w : World) (rc : RecordingController)
    : list RecordingEvent :=
  if bool_decide (file_duration_ rc = 0) then []
  else
    [HeaderWritten (set_stopTime (system_now w) (file_header_ rc));
     FileClosed; OnRecordingStopped (system_now w)]
    ++ (if create_directories_ok w
           && negb (bool_decide (date_time w = "")) && open_ok w
        then
          let filename := recording_filename (vm_id_ rc) (date_time w) in
          let h :=
            new_header (vm_id_ rc) (system_now w) (file_duration_ rc)
              (keyframe_interval_ rc) in
          [FileOpened filename; HeaderWritten h;
           OnRecordingStarted (system_now w); OnKeyframeInRecording]
        else []).

(** What happens to a controller: calls of its public functions, the
    expiry of its timers, and the io_context running a posted handler;
    each with the world it observes. *)
Inductive ControllerCall :=
| CallSetRecordingSettings (file_duration keyframe_interval : Z)
| CallStart
| CallStop
| StopTimerExpired
| KeyframeTimerExpired
| RunCompletion (tellp : nat).

Definition controller_step (rc : RecordingController)
    (e : World * ControllerCall) : RecordingController :=
  let '(w, call) := e in
  match call with
  | CallSetRecordingSettings file_duration keyframe_interval =>
      SetRecordingSettings file_duration keyframe_interval w rc
  | CallStart => Start w rc
  | CallStop => fst (Stop w rc)
  | StopTimerExpired => stop_timer_expired rc
  | KeyframeTimerExpired => keyframe_timer_expired rc
  | RunCompletion tellp => run_completion rc (w, tellp)
  end.

Definition controller_run (es : list (World * ControllerCall))
    (rc : RecordingController) : RecordingController :=
  foldl controller_step rc es.

(** The slot the keyframe handler writes next is the one behind the
    keyframes counted in the header, and the count is within the slots
    the header has, which are fewer than 2^32. *)
Definition keyframe_slots_ok (rc : RecordingController) : Prop :=
  next_keyframe_offset_ rc = keyframesCount (file_header_ rc)
  ∧ (keyframesCount (file_header_ rc)
     ≤ length (keyframes (file_header_ rc)))%nat
  ∧ Z.of_nat (length (keyframes (file_header_ rc))) < 2 ^ 32.



(** ** Recording previews ([SendRecordingPreviews]) *)

Inductive GuacServerInstruction :=
| SYNC (sync_timestamp : Z)
| DISPLAY (payload : N).

(** A message stored in a recording file; [Undecodable] stands for bytes
    that [capnp::readMessageCopy] rejects. *)
Inductive RecordedMessage :=
| GuacInstr (i : GuacServerInstruction)
| OtherMessage
| Undecodable.

(** A recording file as the reader sees it: a header ([None] when it does
    not deserialize) and the stream of messages behind it.  Stream
    positions, and so the [fileOffset] of a keyframe, count messages. *)
Record RecordingFile := {
  rf_header : option RecordingFileHeader;
  rf_body : list RecordedMessage
}.

Record RecordingPreviewRequest := {
  req_vm_id : N;
  req_start_time : Z;
  req_stop_time : Z;
  req_width : N;
  req_height : N;
  req_time_interval : Z
}.

(** The collaborators of the walk: the database query
    [GetRecordingFilePath(vm, t, t)] returning
    [(file_path, file_start_time, file_stop_time)] in milliseconds, the
    file system ([None] when the stream does not open), and the
    screenshot renderer applied to the instructions written so far. *)
Record Playback := {
  GetRecordingFilePath : N → Z → string * Z * Z;
  open_file : string → option RecordingFile;
  CreateScreenshot : list GuacServerInstruction → N → N → list N
}.

(** The local class [RecordingFileStream]. *)
Record RecordingFileStream := {
  keyframes_ : list Keyframe;
  file_header : RecordingFileHeader;
  body_ : list RecordedMessage;
  position_ : nat;
  keyframe_begin_ : nat;
  current_timestamp : Z
}.

Definition set_stream (position keyframe_begin : nat) (ts : Z)
    (r : RecordingFileStream) : RecordingFileStream :=
  {| keyframes_ := keyframes_ r; file_header := file_header r;
     body_ := body_ r; position_ := position;
     keyframe_begin_ := keyframe_begin; current_timestamp := ts |}.

(** The constructor; it fails when the header does not deserialize. *)
Definition open_stream (f : RecordingFile) : option RecordingFileStream :=
  match rf_header f with
  | None => None
  | Some h =>
      Some {| keyframes_ := take (keyframesCount h) (keyframes h);
              file_header := h; body_ := rf_body f;
              position_ := O; keyframe_begin_ := O;
              current_timestamp := startTime h |}
  end.

Definition GetNextFileTimestamp (r : RecordingFileStream) : Z :=
  Z.max (u64_wrap (startTime (file_header r) + 1)) (stopTime (file_header r)).

(** [SeekToKeyframe] at an index of [keyframes_] (no move when the
    index is past the end). *)
Definition SeekToKeyframe (k : nat) (r : RecordingFileStream)
    : RecordingFileStream :=
  match keyframes_ r !! k with
  | Some kf => set_stream (fileOffset kf) k (timestamp kf) r
  | None => r
  end.

Definition NextKeyframe (r : RecordingFileStream)
    : RecordingFileStream * bool :=
  if bool_decide (1 < length (keyframes_ r) - keyframe_begin_ r)%nat
  then (SeekToKeyframe (S (keyframe_begin_ r)) r, true)
  else (set_stream (position_ r) (keyframe_begin_ r)
          (GetNextFileTimestamp r) r, false).

(** The search of [SeekToTimestamp]: walking back from the keyframe
    before [keyframe_begin_], the first keyframe whose timestamp is not
    above the target (what [std::lower_bound] finds on keyframes in
    ascending order); the result is the index [keyframe.base()]. *)
Fixpoint keyframe_base_before (k : nat) (kfs : list Keyframe) (target : Z)
    : option (nat * Keyframe) :=
  match k with
  | O => None
  | S k' =>
      match kfs !! k' with
      | Some kf =>
          if bool_decide (target < timestamp kf)
          then keyframe_base_before k' kfs target
          else Some (k, kf)
      | None => keyframe_base_before k' kfs target
      end
  end.

Definition SeekToTimestamp (ts : Z) (r : RecordingFileStream)
    : RecordingFileStream * bool :=
  if bool_decide (ts < startTime (file_header r))
     || bool_decide (stopTime (file_header r) < ts)
  then (r, false)
  else
    let r1 :=
      if bool_decide (ts < current_timestamp r)
      then set_stream (position_ r) O (current_timestamp r) r
      else r in
    match keyframe_base_before (keyframe_begin_ r1) (keyframes_ r1) ts with
    | Some (base, keyframe) =>
        if bool_decide (current_timestamp r1 < timestamp keyframe)
           || bool_decide (ts < current_timestamp r1)
        then (SeekToKeyframe base r1, true)
        else (r1, true)
    | None => (r1, true)
    end.

(** The loop of [ReadGuacamoleInstruction] over the rest of the stream:
    messages are read until a Guacamole instruction; the end of the file
    or undecodable bytes end it with no instruction.  The second
    component counts the messages consumed. *)
Fixpoint next_instruction (rest : list RecordedMessage) (consumed : nat)
    : option GuacServerInstruction * nat :=
  match rest with
  | [] => (None, consumed)
  | Undecodable :: _ => (None, consumed)
  | OtherMessage :: rest' => next_instruction rest' (S consumed)
  | GuacInstr i :: _ => (Some i, S consumed)
  end.

Definition ReadGuacamoleInstruction (r : RecordingFileStream)
    : RecordingFileStream * option GuacServerInstruction :=
  let '(i, consumed) := next_instruction (drop (position_ r) (body_ r)) O in
  let ts :=
    match i with
    | Some (SYNC t) => t
    | _ => current_timestamp r
    end in
  (set_stream (position_ r + consumed) (keyframe_begin_ r) ts r, i).

(** The do-while loop that feeds the screenshot, for the cursor
    [current] and the recording timestamp [initial] at its entry.  The
    result is the stream, the instructions written and [one_frame];
    [None] when [fuel] rounds did not end the loop. *)
Fixpoint read_frames (fuel : nat) (time_interval current initial : Z)
    (r : RecordingFileStream) (screenshot : list GuacServerInstruction)
    (one_frame : bool)
    : option (RecordingFileStream * list GuacServerInstruction * bool) :=
  match fuel with
  | O => None
  | S fuel' =>
      let '(r1, message) := ReadGuacamoleInstruction r in
      match message with
      | None => Some (r1, screenshot, one_frame)
      | Some i =>
          let screenshot' := screenshot ++ [i] in
          if (negb (bool_decide (time_interval = 0))
              && bool_decide (current_timestamp r1 < current))
             || bool_decide (initial = current_timestamp r1)
          then read_frames fuel' time_interval current initial r1
                 screenshot' true
          else Some (r1, screenshot', true)
      end
  end.

(** The inner [while (current_timestamp < stop)] loop over one file: the
    cursor on leaving the loop and the previews queued, oldest first. *)
Fixpoint preview_file (fuel : nat) (p : Playback)
    (request : RecordingPreviewRequest) (current : Z)
    (r : RecordingFileStream) (screenshot : list GuacServerInstruction)
    (keyframe_changed : bool) : option (Z * list ServerMessage) :=
  match fuel with
  | O => None
  | S fuel' =>
      if bool_decide (current < req_stop_time request) then
        let screenshot0 := if keyframe_changed then [] else screenshot in
        match read_frames (S (length (body_ r)))
                (req_time_interval request) current (current_timestamp r)
                r screenshot0 false with
        | None => None
        | Some (r1, screenshot1, one_frame) =>
            if negb one_frame then Some (GetNextFileTimestamp r1, [])
            else
              let preview :=
                RecordingPlaybackPreview (current_timestamp r1)
                  (req_vm_id request)
                  (CreateScreenshot p screenshot1 (req_width request)
                     (req_height request)) in
              if negb (bool_decide (req_time_interval request = 0)) then
                let current' :=
                  u64_wrap (current_timestamp r1
                            + req_time_interval request) in
                let '(r2, found) := SeekToTimestamp current' r1 in
                if found then
                  match preview_file fuel' p request current' r2
                          screenshot1 false with
                  | Some (c, out) => Some (c, preview :: out)
                  | None => None
                  end
                else Some (current', [preview])
              else
                let '(r2, next_frame) := NextKeyframe r1 in
                let current' := current_timestamp r2 in
                if next_frame then
                  match preview_file fuel' p request current' r2
                          screenshot1 true with
                  | Some (c, out) => Some (c, preview :: out)
                  | None => None
                  end
                else Some (current', [preview])
        end
      else Some (current, [])
  end.

(** The outer loop of [SendRecordingPreviews] from the cursor [current]:
    the messages queued on the socket, oldest first; [None] when [fuel]
    rounds did not end it. *)
Fixpoint preview_loop (fuel : nat) (p : Playback)
    (request : RecordingPreviewRequest) (current : Z)
    : option (list ServerMessage) :=
  match fuel with
  | O => None
  | S fuel' =>
      if bool_decide (current < req_stop_time request) then
        let '(file_path, file_start_time, file_stop_time) :=
          GetRecordingFilePath p (req_vm_id request) current in
        if bool_decide (file_path = "")
        then Some [RecordingPlaybackResult false]
        else
          match open_file p file_path with
          | None =>
              if bool_decide (u64_wrap file_stop_time = 0)
              then Some [RecordingPlaybackResult false]
              else preview_loop fuel' p request (u64_wrap file_stop_time)
          | Some f =>
              match open_stream f with
              | None =>
                  let current' :=
                    if bool_decide (u64_wrap file_stop_time = 0)
                    then u64_wrap (file_start_time + 1)
                    else u64_wrap file_stop_time in
                  preview_loop fuel' p request current'
              | Some recording =>
                  let '(recording1, _) := SeekToTimestamp current recording in
                  match preview_file fuel' p request current recording1
                          [] false with
                  | None => None
                  | Some (current', previews) =>
                      match preview_loop fuel' p request current' with
                      | Some out => Some (previews ++ out)
                      | None => None
                      end
                  end
              end
          end
      else Some [RecordingPlaybackResult true]
  end.

Definition SendRecordingPreviews (fuel : nat) (p : Playback)
    (request : RecordingPreviewRequest) : option (list ServerMessage) :=
  if bool_decide (req_start_time request = 0)
     || bool_decide (req_stop_time request = 0)
  then Some [RecordingPlaybackResult false]
  else preview_loop fuel p request (req_start_time request).

(** ** IP accounting over a sequence of events *)

(** The events of one IP address: the admission test of a new socket
    (with the settings read for it), the [OnDisconnect] of a live
    session, and the [OnDisconnect] of a socket that the admission test
    closed. *)
Inductive IpEvent :=
| PreConnect (max_connections_enabled : bool) (max_connections : Z)
| Disconnect
| DisconnectClosed.

(** The per-IP record together with the sockets of the address that
    have been through the admission test and whose [OnDisconnect] has
    not run: the live sessions (the sockets the test let in) and the
    sockets the test closed. *)
Record IpState := {
  connections : Z;
  live_sessions : Z;
  closing : Z
}.

(** One event; the disconnect of a socket that does not exist is not an
    event of the system. *)
Definition ip_step (st : IpState) (e : IpEvent) : option IpState :=
  match e with
  | PreConnect enabled max =>
      let '(connections', close) :=
        pre_connect_counter enabled max (connections st) in
      Some {| connections := connections';
              live_sessions := live_sessions st + (if close then 0 else 1);
              closing := closing st + (if close then 1 else 0) |}
  | Disconnect =>
      if bool_decide (0 < live_sessions st)
      then Some {| connections := disconnect_counter (connections st);
                   live_sessions := live_sessions st - 1;
                   closing := closing st |}
      else None
  | DisconnectClosed =>
      if bool_decide (0 < closing st)
      then Some {| connections := disconnect_counter (connections st);
                   live_sessions := live_sessions st;
                   closing := closing st - 1 |}
      else None
  end.

Fixpoint ip_run (st : IpState) (es : list IpEvent) : option IpState :=
  match es with
  | [] => Some st
  | e :: es' =>
      match ip_step st e with
      | Some st' => ip_run st' es'
      | None => None
      end
  end.

Definition ip_init : IpState :=
  {| connections := 0; live_sessions := 0; closing := 0 |}.


(** Every admission test of the sequence ran with the cap enabled and
    set to [max]. *)
Definition capped_at (max : Z) (es : list IpEvent) : bool :=
  forallb (λ e, match e with
                | PreConnect enabled m => enabled && bool_decide (m = max)
                | _ => true
                end) es.

(** The messages of a preview walk that are thumbnails. *)
Definition is_preview (m : ServerMessage) : bool :=
  match m with
  | RecordingPlaybackPreview _ _ _ => true
  | _ => false
  end.

(** ** Histories of one send pipeline *)

(** What happens to the send pipeline of a socket: a message is queued,
    a batch is queued, or the write in flight completes without error. *)
Inductive PipelineEvent :=
| EvQueueMessage (m : ServerMessage)
| EvQueueMessageBatch (ms : list ServerMessage)
| EvWriteCompleted.

Definition pipeline_step (s : Socket) (e : PipelineEvent) : Socket :=
  match e with
  | EvQueueMessage m => QueueMessage m s
  | EvQueueMessageBatch ms => QueueMessageBatch ms s
  | EvWriteCompleted => SendMessageCallback false s
  end.

Definition pipeline_run (s : Socket) (es : list PipelineEvent) : Socket :=
  foldl pipeline_step s es.

(** A history in which a write completes only while one is in flight. *)
Fixpoint pipeline_run_wf (s : Socket) (es : list PipelineEvent)
    : option Socket :=
  match es with
  | [] => Some s
  | EvWriteCompleted :: es' =>
      if sending_ s then pipeline_run_wf (SendMessageCallback false s) es'
      else None
  | e :: es' => pipeline_run_wf (pipeline_step s e) es'
  end.

(** The messages handed to [WriteMessage], in the order of the writes. *)
Fixpoint written (calls : list SocketCall) : list ServerMessage :=
  match calls with
  | [] => []
  | WriteMessage buffers :: calls' => buffers ++ written calls'
  | _ :: calls' => written calls'
  end.

(** The number of writes started. *)
Fixpoint writes_started (calls : list SocketCall) : nat :=
  match calls with
  | [] => O
  | WriteMessage _ :: calls' => S (writes_started calls')
  | _ :: calls' => writes_started calls'
  end.

(** The messages a history queues, and the writes it completes. *)
Fixpoint queued_by (es : list PipelineEvent) : list ServerMessage :=
  match es with
  | [] => []
  | EvQueueMessage m :: es' => m :: queued_by es'
  | EvQueueMessageBatch ms :: es' => ms ++ queued_by es'
  | EvWriteCompleted :: es' => queued_by es'
  end.

Fixpoint writes_completed (es : list PipelineEvent) : nat :=
  match es with
  | [] => O
  | EvWriteCompleted :: es' => S (writes_completed es')
  | _ :: es' => writes_completed es'
  end.

Definition is_queue_event (e : PipelineEvent) : bool :=
  match e with
  | EvWriteCompleted => false
  | _ => true
  end.

(** With no write in flight the queue is empty. *)
Definition pipeline_ok (s : Socket) : Prop :=
  sending_ s = false → send_queue_ s = [].

(** The number of writes in flight, as [sending_] tells it. *)
Definition in_flight (s : Socket) : nat := if sending_ s then 1%nat else O.

(** ** What closures leave alone *)

(** A relation between the state of a socket before and after a step
    that every write a closure makes to a socket respects: the writes of
    the closures are those of the send pipeline and of the listed
    fields ([is_logged_in_] is only ever set to [true]). *)
Record closure_stable (R : Socket → Socket → Prop) : Prop := {
  stable_refl : ∀ s, R s s;
  stable_trans : ∀ a b c, R a b → R b c → R a c;
  stable_pipeline : ∀ q b c s, R s (set_pipeline q b c s);
  stable_chat_rooms : ∀ r n s, R s (set_chat_rooms r n s);
  stable_login : ∀ a s, R s (set_login true a s);
  stable_viewing_vm_list : ∀ b s, R s (set_is_viewing_vm_list b s);
  stable_in_global_chat : ∀ b s, R s (set_is_in_global_chat b s);
  stable_captcha_required : ∀ b s, R s (set_is_captcha_required b s);
  stable_connected_vm_id : ∀ id s, R s (set_connected_vm_id id s);
  stable_username : ∀ u s, R s (set_username u s);
  stable_ip_data : ∀ ip s, R s (set_ip_data ip s)
}.

(** Every socket of the second server is related to the same socket of
    the first. *)
Definition server_stable (R : Socket → Socket → Prop) (srv srv' : Server)
    : Prop :=
  ∀ k, R (the_socket k srv) (the_socket k srv').

(** The time of the last accepted chat message is kept. *)
Definition same_last_chat_message (a b : Socket) : Prop :=
  last_chat_message_ b = last_chat_message_ a.

(** A logged-in socket stays logged in. *)
Definition stays_logged_in (a b : Socket) : Prop :=
  is_logged_in_ a = true → is_logged_in_ b = true.

(** ** Closures that leave names alone *)

(** The closures that write neither the guest table nor the username of
    a socket: joining and leaving channels, the viewer lists, username
    broadcasts and the IP counter.  The number bounds the closures one
    of them leads to, itself included. *)
Definition name_neutral (t : Task) : option nat :=
  match t with
  | LeaveChannel _ _ | RemoveVmListViewer _ | RemoveAdminVmListViewer _
  | UpdateUsername _ _ _ _ | DisconnectIp _ => Some 1%nat
  | LeaveVm _ _ | UpdateUsernameVm _ _ _ _ => Some 2%nat
  | ConnectChannel _ _ _ => Some 4%nat
  | ConnectVmSettings _ _ _ => Some 5%nat
  | ConnectVm _ _ _ => Some 6%nat
  | _ => None
  end.

(** These and the erasure of a guest entry. *)
Definition name_weight (t : Task) : option nat :=
  match t with
  | DisconnectGuests _ => Some 1%nat
  | _ => name_neutral t
  end.

Definition names_weight (pending : list Task) : option nat :=
  foldr (λ t acc,
           match name_weight t, acc with
           | Some a, Some b => Some (a + b)%nat
           | _, _ => None
           end) (Some O) pending.

Definition guests_effect (guests : gmap string sock) (t : Task)
    : gmap string sock :=
  match t with
  | DisconnectGuests username => delete (fold_case username) guests
  | _ => guests
  end.

(** The second server has the guest table and the usernames of the
    first. *)
Definition same_usernames (srv srv' : Server) : Prop :=
  ∀ k, username_ (the_socket k srv') = username_ (the_socket k srv).

Definition same_names (srv srv' : Server) : Prop :=
  guests_ srv' = guests_ srv ∧ same_usernames srv srv'.

(** * Scenarios

    Concrete collaborators and server states, built by running the
    entry points. *)

(** An environment with the limits the specification mentions (5 s
    between username changes, 250 ms between chat messages). *)
#[export] Instance sample_environment : Environment := {|
  ValidateUsername := λ u, bool_decide (0 < String.length u ≤ 20)%nat;
  username_change_rate_limit := 5000000000;
  chat_rate_limit := 250000000;
  max_chat_message_len := 100;
  guest_rng := λ n, (1000 + N.of_nat n)%N;
  captcha_verify := λ token, bool_decide (token = "valid")
|}.

Definition empty_channel (id : N) : Channel :=
  {| ch_id := id; ch_users := []; ch_chat_room := [] |}.

Definition empty_server (st : Settings) : Server :=
  {| sockets := ∅; settings_ := st; sessions_ := ∅; guests_ := ∅;
     server_ip_data_ := ∅; virtual_machines_ := ∅; vm_list_viewers := [];
     admin_vm_list_viewers := []; global_chat_room_ := empty_channel 0;
     rng_draws := O |}.

(** [CreateSocket] for a connection from [ip]. *)
Definition accept (s : sock) (ip : N) (srv : Server) : Server :=
  set_sockets (<[s := new_socket ip]> (sockets srv)) srv.

Definition quiesce (entry : Server → Server * list Task) (srv : Server)
    : Server :=
  default srv (run_entry 20 entry srv).

Definition open_settings : Settings :=
  {| MAX_CONNECTIONS_ENABLED := false; MAX_CONNECTIONS := 0;
     CAPTCHA_REQUIRED := false |}.

Definition captcha_settings : Settings :=
  {| MAX_CONNECTIONS_ENABLED := false; MAX_CONNECTIONS := 0;
     CAPTCHA_REQUIRED := true |}.



(** A server that requires CAPTCHAs, with one connected socket. *)
Definition captcha_server : Server :=
  quiesce (OnConnect 1) (accept 1 7 (empty_server captcha_settings)).

(** Socket [s] connects and joins the lobby, which names it
    [guest<999 + s>] when the sockets join in order. *)
Definition join (srv : Server) (s : sock) : Server :=
  quiesce (HandleMessage s (CONNECT_TO_CHANNEL 0) 0)
    (accept s (N.of_nat s) srv).

Definition lobby : Server := foldl join (empty_server open_settings) (seq 1 12).

Definition guest_name (s : sock) : string :=
  "guest" +:+ to_string (999 + N.of_nat s).

(** Socket 2 opens a direct chat with socket [k], at second [k]. *)
Definition chat_to (srv : Server) (k : sock) : Server :=
  quiesce
    (HandleMessage 2 (CHAT_MESSAGE (NEW_DIRECT (guest_name k)) "hi")
       (Z.of_nat k * 1000000000)) srv.

(** Socket 2 holds nine direct chats (with sockets 3 to 11), then ten
    (with socket 12 as well). *)
Definition nine_chats : Server := foldl chat_to lobby (seq 3 9).
Definition ten_chats : Server := chat_to nine_chats 12.

(** Socket 2 starts a direct chat with socket 1: its pending row is in
    place (its table now has ten rows) and the closure bound for the
    chat-rooms strand of socket 1 has not run yet. *)
Definition racing : Server * list Task :=
  let '(srv, pending) :=
    HandleMessage 2 (CHAT_MESSAGE (NEW_DIRECT (guest_name 1)) "hi")
      20000000000 nine_chats in
  run_n 3 pending srv.

(** Two sockets, the first logged in as [alice] with session [[1; 1]]. *)
Definition alice_session : DbSession :=
  {| correct_username := "alice"; db_is_admin := false;
     old_session_id := []; new_session_id := [1%N; 1%N] |}.

Definition alice_again : DbSession :=
  {| correct_username := "alice"; db_is_admin := false;
     old_session_id := [1%N; 1%N]; new_session_id := [2%N; 2%N] |}.

Definition one_login : Server :=
  quiesce (λ srv, (srv, [CreateSession 1 "alice" alice_session]))
    (accept 2 8 (accept 1 7 (empty_server open_settings))).

(** A recording in progress: ten minutes remain of a file. *)
Definition recording_now : RecordingController :=
  {| vm_id_ := 3; is_open := true;
     file_header_ :=
       {| vmId := 3; startTime := 1000; stopTime := 0;
          keyframes := []; keyframesCount := O |};
     next_keyframe_offset_ := O;
     stop_timer_ := {| expiry := minutes_ns 10; waiting := true |};
     keyframe_timer_ := {| expiry := 0; waiting := false |};
     file_duration_ := 30; keyframe_interval_ := 0;
     filename_ := "./recordings/vm3_a.bin"; events_ := [];
     completions_ := [] |}.

Definition world0 : World :=
  {| steady_now := 0; system_now := 5000; create_directories_ok := true;
     date_time := "2020-01-01_01-00-00_AM"; open_ok := true |}.

(** The world a millisecond later. *)
Definition world1 : World :=
  {| steady_now := 1000000; system_now := 5001;
     create_directories_ok := true;
     date_time := "2020-01-01_01-00-00_AM"; open_ok := true |}.

(** A controller that records nothing yet, set to files of one minute
    with a keyframe every 20 seconds. *)
Definition idle_controller : RecordingController :=
  {| vm_id_ := 3; is_open := false;
     file_header_ :=
       {| vmId := 0; startTime := 0; stopTime := 0;
          keyframes := []; keyframesCount := O |};
     next_keyframe_offset_ := O;
     stop_timer_ := {| expiry := 0; waiting := false |};
     keyframe_timer_ := {| expiry := 0; waiting := false |};
     file_duration_ := 1; keyframe_interval_ := 20;
     filename_ := EmptyString; events_ := [];
     completions_ := [] |}.

(** A recording of VM 3 in progress since [t = 900] (no stop time yet)
    whose header cannot be read back, and a preview request over
    [[1000, 2000]]. *)
Definition stuck_playback : Playback :=
  {| GetRecordingFilePath := λ _ _, ("./recordings/vm3_a.bin", 900, 0);
     open_file := λ _, Some {| rf_header := None; rf_body := [] |};
     CreateScreenshot := λ _ _ _, [] |}.

Definition stuck_request : RecordingPreviewRequest :=
  {| req_vm_id := 3; req_start_time := 1000; req_stop_time := 2000;
     req_width := 64; req_height := 48; req_time_interval := 250 |}.

(** The same recording with a readable header (its stop time is still
    0) and data up to [t = 1500], and a request that starts behind the
    recorded data. *)
Definition replay_playback : Playback :=
  {| GetRecordingFilePath := λ _ _, ("./recordings/vm3_a.bin", 900, 0);
     open_file := λ _,
       Some {| rf_header :=
                 Some {| vmId := 3; startTime := 900; stopTime := 0;
                         keyframes := []; keyframesCount := O |};
               rf_body := [GuacInstr (SYNC 950); GuacInstr (DISPLAY 1);
                           GuacInstr (SYNC 1500)] |};
     CreateScreenshot := λ _ _ _, [] |}.

Definition replay_request : RecordingPreviewRequest :=
  {| req_vm_id := 3; req_start_time := 1600; req_stop_time := 2000;
     req_width := 64; req_height := 48; req_time_interval := 50 |}.

(** A finished recording of VM 3 over [[900, 2000]]; the rendered
    thumbnail is stood for by the number of instructions replayed. *)
Definition finished_playback : Playback :=
  {| GetRecordingFilePath := λ _ t,
       if bool_decide (t < 2000) then ("./recordings/vm3_b.bin", 900, 2000)
       else ("", 0, 0);
     open_file := λ _,
       Some {| rf_header :=
                 Some {| vmId := 3; startTime := 900; stopTime := 2000;
                         keyframes := []; keyframesCount := O |};
               rf_body :=
                 [GuacInstr (SYNC 950); GuacInstr (DISPLAY 1);
                  GuacInstr (SYNC 1000); GuacInstr (DISPLAY 2);
                  GuacInstr (SYNC 1250); GuacInstr (SYNC 1500);
                  GuacInstr (DISPLAY 3); GuacInstr (SYNC 1750);
                  GuacInstr (SYNC 1990)] |};
     CreateScreenshot := λ i _ _, [N.of_nat (length i)] |}.

(** The lobby with two virtual machines: VM 7 is open to guests, VM 8
    disallows them.  Socket 1 has connected to VM 7. *)
Definition sample_vm (id : N) (disallow_guests : bool) : VM :=
  {| vm_disallow_guests := disallow_guests; vm_channel := empty_channel id;
     vm_turn := {| turn_holder := None; turn_queue := [] |};
     vm_calls := [] |}.

Definition vm_lobby : Server :=
  quiesce (HandleMessage 1 (CONNECT_TO_CHANNEL 7) 0)
    (set_virtual_machines
       (<[7%N := sample_vm 7 false]> (<[8%N := sample_vm 8 true]> ∅))
       lobby).

(** * Properties *)

(** ** The socket store *)

Lemma the_socket_with_socket_eq (s : sock) (f : Socket → Socket)
    (srv : Server) :
  the_socket s (with_socket s f srv) = f (the_socket s srv).
Proof.
  unfold the_socket, with_socket; simpl.
  rewrite lookup_insert_eq. reflexivity.
Qed.

Lemma the_socket_with_socket_ne (s s' : sock) (f : Socket → Socket)
    (srv : Server) :
  s ≠ s' → the_socket s' (with_socket s f srv) = the_socket s' srv.
Proof.
  intros Hne. unfold the_socket, with_socket; simpl.
  rewrite lookup_insert_ne by done. reflexivity.
Qed.

(** ** Send pipeline *)

Lemma QueueMessage_idle (m : ServerMessage) (s : Socket) :
  sending_ s = false →
  QueueMessage m s =
    set_pipeline (send_queue_ s) true
      (calls_ s ++ [CreateFrame m; WriteMessage [m]]) s.
Proof.
  intros Hs. unfold QueueMessage, QueueMessage_task, SendMessage; simpl.
  rewrite Hs; unfold set_pipeline; simpl.
  f_equal.
  change [CreateFrame m; WriteMessage [m]]
    with ([CreateFrame m] ++ [WriteMessage [m]]).
  symmetry. apply (assoc_L (++)).
Qed.

Lemma QueueMessage_busy (m : ServerMessage) (s : Socket) :
  sending_ s = true →
  QueueMessage m s =
    set_pipeline (send_queue_ s ++ [m]) true (calls_ s ++ [CreateFrame m]) s.
Proof.
  intros Hs. unfold QueueMessage, QueueMessage_task; simpl.
  rewrite Hs; simpl. reflexivity.
Qed.

Lemma QueueMessage_calls (m : ServerMessage) (s : Socket) :
  calls_ (QueueMessage m s) =
    calls_ s ++ CreateFrame m
      :: (if sending_ s then [] else [WriteMessage [m]]).
Proof.
  destruct (sending_ s) eqn:Hs.
  - rewrite (QueueMessage_busy m s Hs). reflexivity.
  - rewrite (QueueMessage_idle m s Hs). reflexivity.
Qed.

Lemma QueueMessage_send_queue (m : ServerMessage) (s : Socket) :
  send_queue_ (QueueMessage m s) =
    (if sending_ s then send_queue_ s ++ [m] else send_queue_ s).
Proof.
  destruct (sending_ s) eqn:Hs.
  - rewrite (QueueMessage_busy m s Hs). reflexivity.
  - rewrite (QueueMessage_idle m s Hs). reflexivity.
Qed.

Lemma QueueMessage_sending (m : ServerMessage) (s : Socket) :
  sending_ (QueueMessage m s) = true.
Proof.
  destruct (sending_ s) eqn:Hs.
  - rewrite (QueueMessage_busy m s Hs). reflexivity.
  - rewrite (QueueMessage_idle m s Hs). reflexivity.
Qed.

(** C6. The send pipeline is the state machine of the specification.
    [QueueMessage] frames the message exactly once; with the sending flag
    clear it sets the flag and starts a write of just that message, with
    the flag set it pushes the message on the queue and starts nothing.
    When a write completes without error: an empty queue clears the flag,
    a queue of one message starts a write of it, and a longer queue is
    sent whole as a single write; the queue is empty afterwards. *)
Theorem send_pipeline_state_machine (s : Socket) (m : ServerMessage) :
  (calls_ (QueueMessage m s) =
     calls_ s ++ CreateFrame m
       :: (if sending_ s then [] else [WriteMessage [m]])
   ∧ sending_ (QueueMessage m s) = true
   ∧ send_queue_ (QueueMessage m s) =
       (if sending_ s then send_queue_ s ++ [m] else send_queue_ s))
  ∧ match send_queue_ s with
    | [] =>
        sending_ (SendMessageCallback false s) = false
        ∧ calls_ (SendMessageCallback false s) = calls_ s
    | [m1] =>
        sending_ (SendMessageCallback false s) = sending_ s
        ∧ calls_ (SendMessageCallback false s) =
            calls_ s ++ [WriteMessage [m1]]
    | m1 :: m2 :: rest =>
        sending_ (SendMessageCallback false s) = sending_ s
        ∧ calls_ (SendMessageCallback false s) =
            calls_ s ++ [WriteMessage (m1 :: m2 :: rest)]
    end
  ∧ send_queue_ (SendMessageCallback false s) = [].
Proof.
  split.
  - split; [apply QueueMessage_calls|].
    split; [apply QueueMessage_sending|apply QueueMessage_send_queue].
  - unfold SendMessageCallback, SendMessageBatch, SendMessage.
    destruct (send_queue_ s) as [|m1 [|m2 rest]] eqn:Hq; simpl; auto.
Qed.

(** A failed write closes the socket and starts nothing. *)
Lemma SendMessageCallback_error (s : Socket) :
  calls_ (SendMessageCallback true s) = calls_ s ++ [Close]
  ∧ send_queue_ (SendMessageCallback true s) = send_queue_ s.
Proof. split; reflexivity. Qed.

(** ** The dispatcher *)

Section DispatcherProperties.
Context `{Environment}.

(** C1, as amended. For every session whose captcha-required flag is set,
    an inbound change-username, chat-message, turn-request, vote or
    guac-instr message is silently dropped: the handler leaves the whole
    server state as it was and dispatches no closure, so nothing is
    queued on any socket.  (Connect-to-channel is not behind the gate.) *)
Theorem captcha_required_drops (self : sock) (message : ClientMessage)
    (now : Z) (srv : Server) :
  is_captcha_required_ (the_socket self srv) = true →
  captcha_gated message = true →
  HandleMessage self message now srv = (srv, [])
  ∧ ∀ fuel, run_entry fuel (HandleMessage self message now) srv = Some srv.
Proof.
  intros Hc Hg.
  assert (Hh : HandleMessage self message now srv = (srv, [])).
  { destruct message; simpl in Hg; try discriminate; simpl;
      rewrite Hc; rewrite ?orb_true_r; reflexivity. }
  split; [exact Hh|].
  intros fuel. unfold run_entry. rewrite Hh. destruct fuel; reflexivity.
Qed.

(** C8. A change-username request that names the session's current
    username is a no-op: run to quiescence, the handler and the closure
    it may dispatch leave the whole server state as it was, so the guest
    table is untouched and nothing is broadcast or answered. *)
Theorem change_username_same_noop (self : sock) (now : Z) (srv : Server) :
  run_entry 1
    (HandleMessage self (CHANGE_USERNAME (username_ (the_socket self srv)))
       now) srv = Some srv.
Proof.
  unfold run_entry; simpl.
  repeat (match goal with
          | |- context [if ?b then _ else _] => destruct b
          end; simpl; try reflexivity).
  unfold exec_ChangeUsernameCheck.
  rewrite bool_decide_eq_true_2 by reflexivity. reflexivity.
Qed.

(** The closure compares with the username held when it runs. *)
Lemma ChangeUsernameCheck_same (self : sock) (srv : Server) :
  exec (ChangeUsernameCheck self (username_ (the_socket self srv))) srv
  = (srv, []).
Proof.
  simpl. unfold exec_ChangeUsernameCheck.
  rewrite bool_decide_eq_true_2 by reflexivity. reflexivity.
Qed.

(** C10. Handling captcha-completed hands the token to the verifier, and
    its callback sets the captcha-required flag to the negation of the
    verdict, whatever the flag was: a valid token clears it, an invalid
    token sets it. *)
Theorem captcha_completed_flag (self : sock) (token : string) (now : Z)
    (srv : Server) :
  (∃ srv',
     run_entry 1 (HandleMessage self (CAPTCHA_COMPLETED token) now) srv
     = Some srv'
     ∧ is_captcha_required_ (the_socket self srv')
       = negb (captcha_verify token))
  ∧ ∀ (is_valid : bool) (srv0 : Server),
      is_captcha_required_
        (the_socket self (fst (exec (CaptchaVerified self is_valid) srv0)))
      = negb is_valid.
Proof.
  split.
  - eexists. split; [reflexivity|].
    rewrite the_socket_with_socket_eq. reflexivity.
  - intros is_valid srv0. simpl.
    rewrite the_socket_with_socket_eq. reflexivity.
Qed.

End DispatcherProperties.

(** ** CAPTCHA gate: scenarios *)

(** The gate at work: a turn request of the socket of [captcha_server]
    is dropped. *)
Lemma captcha_required_drops_witness :
  HandleMessage 1 TURN_REQUEST 0 captcha_server = (captcha_server, [])
  ∧ ∀ fuel,
      run_entry fuel (HandleMessage 1 TURN_REQUEST 0) captcha_server
      = Some captcha_server.
Proof.
  apply (captcha_required_drops 1 TURN_REQUEST 0 captcha_server);
    vm_compute; reflexivity.
Defined.

(** C1 as stated fails for connect-to-channel: the socket of
    [captcha_server] has its captcha-required flag set, and its
    connect-to-channel request for the lobby is carried out.  A guest
    name is allocated in the guest table, the socket joins the lobby,
    and a connect response (carrying the flag) is written to it. *)
Lemma captcha_required_connect_not_dropped :
  is_captcha_required_ (the_socket 1 captcha_server) = true
  ∧ guests_ captcha_server = ∅
  ∧ ch_users (global_chat_room_ captcha_server) = []
  ∧ calls_ (the_socket 1 captcha_server) = []
  ∧ HandleMessage 1 (CONNECT_TO_CHANNEL 0) 0 captcha_server
    ≠ (captcha_server, [])
  ∧ ∃ srv',
      run_entry 4 (HandleMessage 1 (CONNECT_TO_CHANNEL 0) 0) captcha_server
      = Some srv'
      ∧ guests_ srv' !! "guest1000" = Some 1%nat
      ∧ ch_users (global_chat_room_ srv')
        = [(1%nat, {| ud_username := "guest1000"; ud_user_type := GUEST |})]
      ∧ is_in_global_chat_ (the_socket 1 srv') = true
      ∧ take 2 (calls_ (the_socket 1 srv'))
        = [CreateFrame (ConnectResponseSuccess [] "guest1000" true);
           WriteMessage [ConnectResponseSuccess [] "guest1000" true]].
Proof.
  repeat split; try (vm_compute; reflexivity).
  - vm_compute. discriminate.
  - eexists. split; [vm_compute; reflexivity|].
    repeat split; vm_compute; reflexivity.
Qed.

(** ** Username changes: rate limit *)

Section UsernameChange.
Context `{Environment}.

(** The handler of change-username writes no field of the socket: in
    particular the time of an accepted request is not stored in
    [last_username_change_] (the chat path does store
    [last_chat_message_]). *)
Lemma change_username_handler_pure (self : sock) (u : string) (now : Z)
    (srv : Server) :
  fst (HandleMessage self (CHANGE_USERNAME u) now srv) = srv.
Proof.
  simpl.
  repeat (match goal with
          | |- context [if ?b then _ else _] => destruct b
          end; simpl; try reflexivity).
Qed.

End UsernameChange.

(** C3 at the failing input. Socket 1 of [lobby] is the guest
    [guest1000].  Its request to become [alice] at [t = 10 s] is accepted;
    a second request, to become [bob], 1 ms later (well inside the 5 s
    limit) is accepted as well: the guest table is rewritten, the change
    is broadcast, and [last_username_change_] still holds its initial
    value. *)
Theorem change_username_not_rate_limited :
  ∃ srv1 srv2,
    run_entry 4 (HandleMessage 1 (CHANGE_USERNAME "alice") 10000000000) lobby
    = Some srv1
    ∧ username_ (the_socket 1 lobby) = "guest1000"
    ∧ username_ (the_socket 1 srv1) = "alice"
    ∧ run_entry 4 (HandleMessage 1 (CHANGE_USERNAME "bob") 10001000000) srv1
      = Some srv2
    ∧ 10001000000 - 10000000000 < username_change_rate_limit
    ∧ username_ (the_socket 1 srv2) = "bob"
    ∧ guests_ srv1 !! "alice" = Some 1%nat
    ∧ guests_ srv2 !! "alice" = None
    ∧ guests_ srv2 !! "bob" = Some 1%nat
    ∧ last (calls_ (the_socket 2 srv2))
      = Some (CreateFrame (ChangeUsernameMsg "alice" "bob"))
    ∧ last_username_change_ (the_socket 1 srv2) = 0.
Proof.
  eexists. eexists.
  split; [vm_compute; reflexivity|].
  repeat split; vm_compute; reflexivity.
Qed.

(** ** Session minting *)

Section Sessions.
Context `{Environment}.

(** C2 on the code: when a login mints a session for a user whose prior
    session [it] is in the session table, [CreateSession] finds it and
    calls [InvalidateSession], which does nothing: the prior socket is
    exactly as before (not closed, still logged in) and the prior
    session stays in the session table. *)
Theorem create_session_keeps_prior_session (socket it : sock)
    (username : string) (db : DbSession) (srv : Server) :
  correct_username db ≠ "" →
  old_session_id db ≠ [] →
  sessions_ srv !! old_session_id db = Some it →
  it ≠ socket →
  the_socket it (fst (exec (CreateSession socket username db) srv))
  = the_socket it srv
  ∧ sessions_ (fst (exec (CreateSession socket username db) srv))
    !! old_session_id db = Some it.
Proof.
  intros Hname Hold Hit Hne. simpl. unfold exec_CreateSession.
  rewrite bool_decide_eq_false_2 by exact Hname.
  rewrite (bool_decide_eq_false_2 _ Hold).
  cbn [fst].
  match goal with
  | |- context [match ?e with Some _ => _ | None => _ end] =>
      assert (Hs : e = Some it)
  end.
  { simpl. unfold emplace.
    destruct (sessions_ srv !! new_session_id db) eqn:Hn; [exact Hit|].
    rewrite lookup_insert_ne; [exact Hit|].
    intros Heq. rewrite Heq in Hn. congruence. }
  rewrite !Hs. split.
  - rewrite the_socket_with_socket_ne by congruence.
    rewrite the_socket_with_socket_eq. unfold InvalidateSession.
    unfold the_socket at 1; simpl.
    rewrite lookup_insert_ne by congruence. reflexivity.
  - exact Hs.
Qed.

End Sessions.

(** The failing input of C2: socket 1 is logged in as [alice]; socket 2
    logs in as [alice] and the database names the prior session.  After
    the login both sockets are logged in as [alice], both sessions are
    in the table, and nothing was asked of socket 1. *)
Lemma create_session_keeps_prior_session_witness :
  the_socket 1%nat
    (fst (exec (CreateSession 2%nat "alice" alice_again) one_login))
  = the_socket 1%nat one_login
  ∧ sessions_ (fst (exec (CreateSession 2%nat "alice" alice_again) one_login))
    !! old_session_id alice_again = Some 1%nat.
Proof.
  apply (create_session_keeps_prior_session 2%nat 1%nat "alice" alice_again
           one_login); vm_compute; congruence.
Defined.

Lemma two_live_sessions_for_alice :
  ∃ srv',
    run 4 [CreateSession 2%nat "alice" alice_again] one_login = Some srv'
    ∧ username_ (the_socket 1%nat srv') = "alice"
    ∧ username_ (the_socket 2%nat srv') = "alice"
    ∧ is_logged_in_ (the_socket 1%nat srv') = true
    ∧ is_logged_in_ (the_socket 2%nat srv') = true
    ∧ sessions_ srv' !! [1%N; 1%N] = Some 1%nat
    ∧ sessions_ srv' !! [2%N; 2%N] = Some 2%nat
    ∧ calls_ (the_socket 1%nat srv') = calls_ (the_socket 1%nat one_login)
    ∧ calls_ (the_socket 1%nat srv')
      = [CreateFrame (LoginSession [1%N; 1%N] "alice" false);
         WriteMessage [LoginSession [1%N; 1%N] "alice" false]].
Proof.
  eexists. split; [vm_compute; reflexivity|].
  repeat split; vm_compute; reflexivity.
Qed.

(** ** Direct chat setup *)

Lemma QueueMessage_chat_rooms (m : ServerMessage) (s : Socket) :
  chat_rooms_ (QueueMessage m s) = chat_rooms_ s.
Proof.
  unfold QueueMessage, QueueMessage_task; simpl.
  destruct (sending_ s); reflexivity.
Qed.

Section DirectChat.
Context `{Environment}.

Lemma run_cons (fuel : nat) (t : Task) (rest : list Task) (srv : Server) :
  run (S fuel) (t :: rest) srv =
    run fuel (rest ++ snd (exec t srv)) (fst (exec t srv)).
Proof. simpl. destruct (exec t srv). reflexivity. Qed.

Lemma exec_ChatUsername_new_direct (self : sock) (name text : string)
    (srv : Server) :
  username_ (the_socket self srv) ≠ "" →
  exec (ChatUsername self (NEW_DIRECT name) text) srv
  = (srv, [NewDirectGuests self name text]).
Proof.
  intros Hu. simpl. unfold exec_ChatUsername.
  rewrite bool_decide_eq_false_2 by exact Hu. reflexivity.
Qed.

Lemma exec_NewDirectGuests_found (self recipient : sock)
    (name text : string) (srv : Server) :
  guests_ srv !! fold_case name = Some recipient →
  exec (NewDirectGuests self name text) srv
  = (srv, [NewDirectSender self recipient text]).
Proof.
  intros Hg. simpl. unfold exec_NewDirectGuests. rewrite Hg. reflexivity.
Qed.

Lemma exec_NewDirectSender_fresh (self recipient : sock) (text : string)
    (srv : Server) :
  (size (chat_rooms_ (the_socket self srv)) < 10)%nat →
  find_room_by_peer recipient (chat_rooms_ (the_socket self srv)) = None →
  chat_rooms_ (the_socket self srv) !! chat_rooms_id_ (the_socket self srv)
  = None →
  exec (NewDirectSender self recipient text) srv
  = (with_socket self
       (set_chat_rooms
          (<[chat_rooms_id_ (the_socket self srv) := (recipient, 0%N)]>
             (chat_rooms_ (the_socket self srv)))
          (u32_wrap (chat_rooms_id_ (the_socket self srv) + 1))) srv,
     [NewDirectRecipient self recipient
        (chat_rooms_id_ (the_socket self srv)) text]).
Proof.
  intros Hsize Hfind Hfresh. simpl. unfold exec_NewDirectSender.
  rewrite bool_decide_eq_false_2 by lia.
  rewrite Hfind. unfold emplace. rewrite Hfresh. reflexivity.
Qed.

Lemma exec_NewDirectRecipient_limit (self recipient : sock) (sender_id : N)
    (text : string) (srv : Server) :
  find_room_by_peer self (chat_rooms_ (the_socket recipient srv)) = None →
  (10 ≤ size (chat_rooms_ (the_socket recipient srv)))%nat →
  exec (NewDirectRecipient self recipient sender_id text) srv
  = (srv, [NewDirectRollback self sender_id]).
Proof.
  intros Hfind Hsize. simpl. unfold exec_NewDirectRecipient.
  rewrite Hfind. rewrite bool_decide_eq_true_2 by exact Hsize. reflexivity.
Qed.

(** C5, as amended. A new-direct chat setup that reaches the recipient's
    limit check: the sender passes the gates of the handler, the named
    guest is another session, the sender's table is below the limit and
    has no row for the recipient, and the recipient's table holds no
    row for the sender and is at the limit (10 entries or more).  Run
    to quiescence, the sender is sent [RECIPIENT_CHAT_LIMIT] and nothing
    else, the sender's pending row is erased again, so the sender's
    chat-rooms table is as it was before the request, and the
    recipient's table is untouched. *)
Theorem new_direct_recipient_limit (self recipient : sock)
    (name text : string) (now : Z) (srv : Server) :
  is_captcha_required_ (the_socket self srv) = false →
  (0 < String.length text ≤ max_chat_message_len)%nat →
  chat_rate_limit ≤ now - last_chat_message_ (the_socket self srv) →
  username_ (the_socket self srv) ≠ "" →
  guests_ srv !! fold_case name = Some recipient →
  recipient ≠ self →
  (size (chat_rooms_ (the_socket self srv)) < 10)%nat →
  find_room_by_peer recipient (chat_rooms_ (the_socket self srv)) = None →
  chat_rooms_ (the_socket self srv) !! chat_rooms_id_ (the_socket self srv)
  = None →
  find_room_by_peer self (chat_rooms_ (the_socket recipient srv)) = None →
  (10 ≤ size (chat_rooms_ (the_socket recipient srv)))%nat →
  ∃ srv',
    run_entry 5
      (HandleMessage self (CHAT_MESSAGE (NEW_DIRECT name) text) now) srv
    = Some srv'
    ∧ chat_rooms_ (the_socket self srv') = chat_rooms_ (the_socket self srv)
    ∧ calls_ (the_socket self srv')
      = calls_ (the_socket self srv)
        ++ CreateFrame (ChatMessageResponseMsg RECIPIENT_CHAT_LIMIT)
           :: (if sending_ (the_socket self srv) then []
               else [WriteMessage
                       [ChatMessageResponseMsg RECIPIENT_CHAT_LIMIT]])
    ∧ send_queue_ (the_socket self srv')
      = (if sending_ (the_socket self srv)
         then send_queue_ (the_socket self srv)
              ++ [ChatMessageResponseMsg RECIPIENT_CHAT_LIMIT]
         else send_queue_ (the_socket self srv))
    ∧ chat_rooms_ (the_socket recipient srv')
      = chat_rooms_ (the_socket recipient srv).
Proof.
  intros Hcap [Hlen1 Hlen2] Hrate Huser Hguest Hne Hsize Hfind Hfresh
    Hrfind Hrsize.
  unfold run_entry, HandleMessage. rewrite Hcap.
  rewrite (bool_decide_eq_false_2 (String.length text = O)) by lia.
  rewrite (bool_decide_eq_false_2 (max_chat_message_len < _)%nat) by lia.
  rewrite (bool_decide_eq_false_2 (now - _ < chat_rate_limit)) by lia.
  cbn [orb].
  set (srv0 := with_socket self (set_last_chat_message now) srv).
  assert (Hs0 : the_socket self srv0
                = set_last_chat_message now (the_socket self srv))
    by apply the_socket_with_socket_eq.
  assert (Hr0 : the_socket recipient srv0 = the_socket recipient srv)
    by (apply the_socket_with_socket_ne; congruence).
  rewrite run_cons, exec_ChatUsername_new_direct
    by (rewrite Hs0; exact Huser).
  cbn [fst snd app].
  rewrite run_cons, (exec_NewDirectGuests_found self recipient)
    by exact Hguest.
  cbn [fst snd app].
  rewrite run_cons, exec_NewDirectSender_fresh
    by (rewrite Hs0; assumption).
  cbn [fst snd app]. rewrite Hs0. cbn [chat_rooms_ chat_rooms_id_
    set_last_chat_message].
  set (id := chat_rooms_id_ (the_socket self srv)).
  set (rooms := chat_rooms_ (the_socket self srv)).
  set (srv1 := with_socket self _ srv0).
  assert (Hs1 : the_socket self srv1
                = set_chat_rooms (<[id := (recipient, 0%N)]> rooms)
                    (u32_wrap (id + 1))
                    (set_last_chat_message now (the_socket self srv))).
  { unfold srv1. rewrite the_socket_with_socket_eq, Hs0. reflexivity. }
  assert (Hr1 : the_socket recipient srv1 = the_socket recipient srv).
  { unfold srv1. rewrite the_socket_with_socket_ne by congruence.
    exact Hr0. }
  rewrite run_cons, exec_NewDirectRecipient_limit
    by (rewrite Hr1; assumption).
  cbn [fst snd app].
  rewrite run_cons. cbn [exec exec_NewDirectRollback fst snd app run].
  unfold exec_NewDirectRollback, SendChatMessageResponse.
  cbn [fst snd app run].
  eexists. split; [reflexivity|].
  rewrite !the_socket_with_socket_eq, Hs1.
  rewrite the_socket_with_socket_ne by congruence.
  rewrite the_socket_with_socket_ne by congruence.
  rewrite Hr1.
  rewrite QueueMessage_chat_rooms, QueueMessage_calls,
    QueueMessage_send_queue.
  cbn [chat_rooms_ chat_rooms_id_ calls_ sending_ send_queue_
       set_chat_rooms set_last_chat_message].
  rewrite delete_insert_id by exact Hfresh.
  repeat split; reflexivity.
Qed.

End DirectChat.

(** The limit reached: socket 2 of [ten_chats] holds ten direct chats,
    none with socket 1, and socket 1 asks for a direct chat with it. *)
Lemma new_direct_recipient_limit_witness :
  ∃ srv',
    run_entry 5
      (HandleMessage 1%nat (CHAT_MESSAGE (NEW_DIRECT "guest1001") "yo")
         20000000000) ten_chats
    = Some srv'
    ∧ chat_rooms_ (the_socket 1%nat srv')
      = chat_rooms_ (the_socket 1%nat ten_chats)
    ∧ calls_ (the_socket 1%nat srv')
      = calls_ (the_socket 1%nat ten_chats)
        ++ CreateFrame (ChatMessageResponseMsg RECIPIENT_CHAT_LIMIT)
           :: (if sending_ (the_socket 1%nat ten_chats) then []
               else [WriteMessage
                       [ChatMessageResponseMsg RECIPIENT_CHAT_LIMIT]])
    ∧ send_queue_ (the_socket 1%nat srv')
      = (if sending_ (the_socket 1%nat ten_chats)
         then send_queue_ (the_socket 1%nat ten_chats)
              ++ [ChatMessageResponseMsg RECIPIENT_CHAT_LIMIT]
         else send_queue_ (the_socket 1%nat ten_chats))
    ∧ chat_rooms_ (the_socket 2%nat srv')
      = chat_rooms_ (the_socket 2%nat ten_chats).
Proof.
  apply (new_direct_recipient_limit 1%nat 2%nat "guest1001" "yo"
           20000000000 ten_chats).
  - vm_compute; reflexivity.
  - vm_compute; lia.
  - vm_compute; discriminate.
  - vm_compute; discriminate.
  - vm_compute; reflexivity.
  - lia.
  - vm_compute; lia.
  - vm_compute; reflexivity.
  - vm_compute; reflexivity.
  - vm_compute; reflexivity.
  - vm_compute; lia.
Defined.

(** C5 as stated fails when the recipient is itself setting up a direct
    chat with the sender.  In [racing] the table of socket 2 has ten
    rows, the last one its pending row for socket 1.  Socket 1 now asks
    for a direct chat with socket 2: the closure that visits the table
    of socket 2 finds that row before it looks at the limit and fills it
    in.  Socket 1 is sent nothing and keeps its pending row, which the
    pending closure of socket 2 completes later. *)
Lemma new_direct_recipient_limit_race :
  size (chat_rooms_ (the_socket 2%nat (fst racing))) = 10%nat
  ∧ chat_rooms_ (the_socket 1%nat (fst racing)) = ∅
  ∧ snd racing = [NewDirectRecipient 2%nat 1%nat 10%N "hi"]
  ∧ ∃ srv',
      run_entry 5
        (HandleMessage 1%nat (CHAT_MESSAGE (NEW_DIRECT "guest1001") "yo")
           20000000000) (fst racing)
      = Some srv'
      ∧ chat_rooms_ (the_socket 1%nat srv') = {[1%N := (2%nat, 0%N)]}
      ∧ calls_ (the_socket 1%nat srv')
        = calls_ (the_socket 1%nat (fst racing))
      ∧ send_queue_ (the_socket 1%nat srv')
        = send_queue_ (the_socket 1%nat (fst racing))
      ∧ ∃ srv'',
          run 5 (snd racing) srv' = Some srv''
          ∧ chat_rooms_ (the_socket 1%nat srv'') = {[1%N := (2%nat, 10%N)]}
          ∧ chat_rooms_ (the_socket 2%nat srv'') !! 10%N
            = Some (1%nat, 1%N)
          ∧ calls_ (the_socket 1%nat srv'')
            = calls_ (the_socket 1%nat (fst racing)).
Proof.
  split; [vm_compute; reflexivity|].
  split; [vm_compute; reflexivity|].
  split; [vm_compute; reflexivity|].
  eexists. split; [vm_compute; reflexivity|].
  split; [vm_compute; reflexivity|].
  split; [vm_compute; reflexivity|].
  split; [vm_compute; reflexivity|].
  eexists. split; [vm_compute; reflexivity|].
  repeat split; vm_compute; reflexivity.
Qed.

(** ** IP accounting *)








(** ** Recording settings while recording *)

Lemma i64_wrap_small (z : Z) : - 2 ^ 63 ≤ z < 2 ^ 63 → i64_wrap z = z.
Proof. intros Hz. unfold i64_wrap. rewrite Z.mod_small; lia. Qed.

Lemma minutes_ns_exact (m : Z) :
  0 ≤ m ≤ max_minutes → minutes_ns m = m * 60000000000.
Proof.
  unfold max_minutes, minutes_ns. intros Hm. apply i64_wrap_small. lia.
Qed.

Lemma Stop_idle (w : World) (rc : RecordingController) :
  IsRecording rc = false → Stop w rc = (rc, None).
Proof. intros Hrec. unfold Stop. rewrite Hrec. reflexivity. Qed.

Lemma Stop_closes (w : World) (rc : RecordingController) :
  IsRecording (fst (Stop w rc)) = false.
Proof.
  unfold Stop. destruct (IsRecording rc) eqn:Hrec; [reflexivity|exact Hrec].
Qed.

Lemma Start_events (w : World) (rc : RecordingController) :
  IsRecording rc = true →
  events_ (Start w rc) = events_ rc ++ rollover_events w rc.
Proof.
  intros Hrec. unfold Start, rollover_events.
  destruct (bool_decide (file_duration_ rc = 0)) eqn:Hd.
  - rewrite app_nil_r. reflexivity.
  - clear Hd.
    destruct rc as [vm open h next [se sw] [ke kw] fd ki fn ev cs];
      destruct w as [sn yn dirs dt ok];
      unfold Stop, IsRecording, cancel_stop_timer, cancel_keyframe_timer,
        UpdateKeyframeTimer, StartKeyframeTimer, cancel_keyframe_timer,
        recording_filename, new_header in *;
      cbn [is_open file_duration_ create_directories_ok date_time open_ok
           system_now steady_now] in *;
      subst open;
      destruct dirs, (bool_decide (dt = "")), ok, kw, sw,
        (bool_decide (ki = 0)) eqn:Hki;
      cbn -[String.append replicate to_string i64_wrap Z.mul keyframe_slots];
      rewrite ?Hki;
      cbn -[String.append replicate to_string i64_wrap Z.mul keyframe_slots];
      rewrite <- ?(assoc_L (++)); rewrite ?app_nil_r; reflexivity.
Qed.

(** The handlers that [Start] leaves for the io_context when it rolls a
    recording over: those of the waits that [Stop] cancelled. *)
Lemma Start_completions (w : World) (rc : RecordingController) :
  IsRecording rc = true →
  file_duration_ rc ≠ 0 →
  completions_ (Start w rc)
  = completions_ rc
    ++ (if waiting (keyframe_timer_ rc)
        then [KeyframeTimerCompleted true] else [])
    ++ (if waiting (stop_timer_ rc) then [StopTimerCompleted true] else []).
Proof.
  intros Hrec Hd. unfold Start.
  rewrite bool_decide_eq_false_2 by exact Hd. clear Hd.
  destruct rc as [vm open h next [se sw] [ke kw] fd ki fn ev cs];
    destruct w as [sn yn dirs dt ok];
    unfold Stop, IsRecording, cancel_stop_timer, cancel_keyframe_timer,
      UpdateKeyframeTimer, StartKeyframeTimer, cancel_keyframe_timer,
      recording_filename, new_header in *;
    cbn [is_open file_duration_ create_directories_ok date_time open_ok
         system_now steady_now] in *;
    subst open;
    destruct dirs, (bool_decide (dt = "")), ok, kw, sw,
      (bool_decide (ki = 0)) eqn:Hki;
    cbn -[String.append replicate to_string i64_wrap Z.mul keyframe_slots];
    rewrite ?Hki;
    cbn -[String.append replicate to_string i64_wrap Z.mul keyframe_slots];
    rewrite <- ?(assoc_L (++)); rewrite ?app_nil_r; reflexivity.
Qed.

Lemma Stop_completions (w : World) (rc : RecordingController) :
  Forall (λ c, c = StopTimerCompleted true ∨ c = KeyframeTimerCompleted true)
    (completions_ rc) →
  Forall (λ c, c = StopTimerCompleted true ∨ c = KeyframeTimerCompleted true)
    (completions_ (fst (Stop w rc)))
  ∧ (length (completions_ (fst (Stop w rc)))
     ≤ length (completions_ rc) + 2)%nat.
Proof.
  intros Hall. unfold Stop.
  destruct (IsRecording rc); cbn [negb fst]; [|split; [exact Hall|lia]].
  destruct rc as [vm open h next [se sw] [ke kw] fd ki fn ev cs].
  unfold cancel_stop_timer, cancel_keyframe_timer.
  cbn [completions_] in Hall.
  destruct kw, sw; cbn;
    (split;
     [repeat (apply Forall_app; split); try exact Hall;
        repeat (apply Forall_cons; split; [solve [auto]|]);
        constructor
     |rewrite ?length_app; cbn [length]; lia]).
Qed.

(** Running the handlers of cancelled waits: when one of them is the
    handler of the stop timer, nothing is being recorded once they have
    run. *)
Lemma aborted_completions_stop (es : list (World * nat))
    (rc : RecordingController) :
  Forall (λ c, c = StopTimerCompleted true ∨ c = KeyframeTimerCompleted true)
    (completions_ rc) →
  StopTimerCompleted true ∈ completions_ rc ∨ IsRecording rc = false →
  (length (completions_ rc) + (if IsRecording rc then 2 else 0)
   ≤ length es)%nat →
  IsRecording (foldl run_completion rc es) = false
  ∧ completions_ (foldl run_completion rc es) = [].
Proof.
  revert rc. induction es as [|e es IH]; intros rc Hall Hstop Hlen.
  - cbn in Hlen |- *.
    destruct (completions_ rc) as [|c rest] eqn:Hq; [|cbn in Hlen; lia].
    destruct Hstop as [Hin|Hidle]; [inversion Hin|].
    split; [exact Hidle|reflexivity].
  - cbn [foldl].
    destruct (completions_ rc) as [|c rest] eqn:Hq.
    + assert (Hrun : run_completion rc e = rc)
        by (unfold run_completion; rewrite Hq; reflexivity).
      rewrite Hrun.
      destruct Hstop as [Hin|Hidle]; [inversion Hin|].
      apply IH.
      * rewrite Hq. constructor.
      * right. exact Hidle.
      * rewrite Hq, Hidle. cbn. lia.
    + apply Forall_cons in Hall as [Hc Hrest].
      cbn [length] in Hlen.
      destruct Hc as [->| ->].
      * assert (Hrun : run_completion rc e
                       = fst (Stop (fst e) (set_completions rest rc)))
          by (unfold run_completion; rewrite Hq; reflexivity).
        rewrite Hrun.
        pose proof (Stop_closes (fst e) (set_completions rest rc)) as Hcl.
        destruct (Stop_completions (fst e) (set_completions rest rc) Hrest)
          as [Hall' Hlen'].
        cbn [completions_ set_completions] in Hlen'.
        apply IH; [exact Hall'|right; exact Hcl|].
        rewrite Hcl.
        destruct (IsRecording rc) eqn:Hrec.
        -- lia.
        -- rewrite Stop_idle by exact Hrec. cbn. lia.
      * assert (Hrun : run_completion rc e = set_completions rest rc)
          by (unfold run_completion; rewrite Hq; reflexivity).
        rewrite Hrun.
        apply IH.
        -- exact Hrest.
        -- destruct Hstop as [Hin|Hidle]; [|right; exact Hidle].
           left. apply elem_of_cons in Hin as [Heq|Hin];
             [discriminate|exact Hin].
        -- change (IsRecording (set_completions rest rc))
             with (IsRecording rc).
           cbn [completions_ set_completions]. lia.
Qed.

(** C4. The comparison of [SetRecordingSettings] is the reverse of the
    claim's.  New settings (a file duration whose conversion to the
    steady clock is exact) are applied to a controller that is
    recording, with the wait of its stop timer pending and no handler
    left to run.  When the remaining time of the file is greater than or
    equal to the new file duration, where the claim has the recording
    roll over, the code only updates the keyframe timer: no file is
    closed or opened and the stop timer keeps its expiry.  When the
    remaining time is less than the new duration, where the claim has
    the file continue, the code calls [Start]: the file is closed and a
    new one is opened; the wait that [Stop] cancelled completes with
    [operation_aborted], and once the io_context has run the handlers
    posted ([es] stands for the worlds they observe) the handler of the
    stop timer has stopped the new recording too. *)
Theorem set_recording_settings_inverted
    (file_duration keyframe_interval : Z) (w : World)
    (rc : RecordingController) (es : list (World * nat)) :
  IsRecording rc = true →
  waiting (stop_timer_ rc) = true →
  completions_ rc = [] →
  0 < file_duration ≤ max_minutes →
  - 2 ^ 63 ≤ expiry (stop_timer_ rc) - steady_now w < 2 ^ 63 →
  (4 ≤ length es)%nat →
  if bool_decide
       (file_duration * 60000000000
        ≤ expiry (stop_timer_ rc) - steady_now w)
  then
    IsRecording
      (SetRecordingSettings file_duration keyframe_interval w rc) = true
    ∧ events_ (SetRecordingSettings file_duration keyframe_interval w rc)
      = events_ rc
    ∧ stop_timer_
        (SetRecordingSettings file_duration keyframe_interval w rc)
      = stop_timer_ rc
    ∧ filename_ (SetRecordingSettings file_duration keyframe_interval w rc)
      = filename_ rc
    ∧ file_header_
        (SetRecordingSettings file_duration keyframe_interval w rc)
      = file_header_ rc
  else
    events_ (SetRecordingSettings file_duration keyframe_interval w rc)
    = events_ rc
      ++ rollover_events w
           (set_durations file_duration keyframe_interval rc)
    ∧ completions_
        (SetRecordingSettings file_duration keyframe_interval w rc)
      = (if waiting (keyframe_timer_ rc)
         then [KeyframeTimerCompleted true] else [])
        ++ [StopTimerCompleted true]
    ∧ IsRecording
        (foldl run_completion
           (SetRecordingSettings file_duration keyframe_interval w rc) es)
      = false
    ∧ completions_
        (foldl run_completion
           (SetRecordingSettings file_duration keyframe_interval w rc) es)
      = [].
Proof.
  intros Hrec Hwait Hnone Hduration Hrange Hes.
  unfold SetRecordingSettings.
  change (IsRecording (set_durations file_duration keyframe_interval rc))
    with (IsRecording rc).
  rewrite Hrec. cbn [negb].
  change (stop_timer_ (set_durations file_duration keyframe_interval rc))
    with (stop_timer_ rc).
  rewrite i64_wrap_small by exact Hrange.
  rewrite minutes_ns_exact by lia.
  destruct (bool_decide
              (file_duration * 60000000000
               ≤ expiry (stop_timer_ rc) - steady_now w)) eqn:Hcmp.
  - apply bool_decide_eq_true_1 in Hcmp.
    rewrite bool_decide_eq_false_2 by lia.
    unfold UpdateKeyframeTimer, StartKeyframeTimer, cancel_keyframe_timer.
    destruct (bool_decide
                (keyframe_interval_
                   (set_durations file_duration keyframe_interval rc) = 0)),
      (waiting
         (keyframe_timer_
            (set_durations file_duration keyframe_interval rc)));
      repeat split; try reflexivity; exact Hrec.
  - apply bool_decide_eq_false_1 in Hcmp.
    rewrite bool_decide_eq_true_2 by lia.
    set (rc1 := set_durations file_duration keyframe_interval rc).
    assert (Hrec1 : IsRecording rc1 = true) by exact Hrec.
    assert (Hd1 : file_duration_ rc1 ≠ 0) by (cbn; lia).
    pose proof (Start_completions w rc1 Hrec1 Hd1) as Hq.
    change (completions_ rc1) with (completions_ rc) in Hq.
    change (waiting (keyframe_timer_ rc1))
      with (waiting (keyframe_timer_ rc)) in Hq.
    change (waiting (stop_timer_ rc1))
      with (waiting (stop_timer_ rc)) in Hq.
    rewrite Hnone, Hwait in Hq. cbn [app] in Hq.
    split; [rewrite Start_events by exact Hrec1; reflexivity|].
    split; [exact Hq|].
    apply aborted_completions_stop.
    + rewrite Hq. destruct (waiting (keyframe_timer_ rc)); cbn;
        repeat (apply Forall_cons; split; [solve [auto]|]);
        constructor.
    + left. rewrite Hq. apply elem_of_app. right. constructor.
    + rewrite Hq. destruct (waiting (keyframe_timer_ rc)),
        (IsRecording (Start w rc1)); cbn; lia.
Qed.

(** Ten minutes remain and the file duration becomes 5 minutes: the
    recording does not roll over. *)
Lemma set_recording_settings_inverted_witness :
  IsRecording (SetRecordingSettings 5 0 world0 recording_now) = true
  ∧ events_ (SetRecordingSettings 5 0 world0 recording_now)
    = events_ recording_now
  ∧ stop_timer_ (SetRecordingSettings 5 0 world0 recording_now)
    = stop_timer_ recording_now
  ∧ filename_ (SetRecordingSettings 5 0 world0 recording_now)
    = filename_ recording_now
  ∧ file_header_ (SetRecordingSettings 5 0 world0 recording_now)
    = file_header_ recording_now.
Proof.
  apply (set_recording_settings_inverted 5 0 world0 recording_now
           [(world0, O); (world0, O); (world0, O); (world0, O)]).
  - reflexivity.
  - reflexivity.
  - reflexivity.
  - vm_compute. split; [reflexivity|discriminate].
  - vm_compute. split; [discriminate|reflexivity].
  - simpl. lia.
Defined.

(** The two directions at the failing inputs.  Ten minutes remain of a
    30-minute file.  With a new file duration of 5 minutes nothing rolls
    over and the stop timer keeps its expiry.  With the settings
    unchanged (30 minutes) the file is closed and a new one is opened;
    the handler of the cancelled wait is left for the io_context, and
    when it runs it closes the new file: nothing is recorded any
    more. *)
Example set_recording_settings_comparison :
  IsRecording recording_now = true
  ∧ expiry (stop_timer_ recording_now) - steady_now world0
    = 10 * 60000000000
  ∧ events_ (SetRecordingSettings 5 0 world0 recording_now) = []
  ∧ stop_timer_ (SetRecordingSettings 5 0 world0 recording_now)
    = stop_timer_ recording_now
  ∧ events_ (SetRecordingSettings 30 0 world0 recording_now)
    = [HeaderWritten
         {| vmId := 3; startTime := 1000; stopTime := 5000;
            keyframes := []; keyframesCount := O |};
       FileClosed; OnRecordingStopped 5000;
       FileOpened "./recordings/vm3_2020-01-01_01-00-00_AM.bin";
       HeaderWritten
         {| vmId := 3; startTime := 5000; stopTime := 0;
            keyframes := []; keyframesCount := O |};
       OnRecordingStarted 5000; OnKeyframeInRecording]
  ∧ IsRecording (SetRecordingSettings 30 0 world0 recording_now) = true
  ∧ completions_ (SetRecordingSettings 30 0 world0 recording_now)
    = [StopTimerCompleted true]
  ∧ IsRecording
      (run_completion (SetRecordingSettings 30 0 world0 recording_now)
         (world1, O)) = false
  ∧ events_
      (run_completion (SetRecordingSettings 30 0 world0 recording_now)
         (world1, O))
    = events_ (SetRecordingSettings 30 0 world0 recording_now)
      ++ [HeaderWritten
            {| vmId := 3; startTime := 5000; stopTime := 5001;
               keyframes := []; keyframesCount := O |};
          FileClosed; OnRecordingStopped 5001].
Proof.
  repeat split; vm_compute; reflexivity.
Qed.

(** ** Recording previews *)

(** Every round of the outer loop from cursor 901 sets the cursor to
    901 again. *)
Lemma stuck_loop (fuel : nat) :
  preview_loop fuel stuck_playback stuck_request 901 = None.
Proof.
  induction fuel as [|fuel IH]; [reflexivity|].
  cbn -[preview_loop]. simpl. exact IH.
Qed.

(** C9 at the failing input. VM 3 is being recorded since [t = 900] (the
    database has no stop time for the file yet) and the header of the
    file cannot be deserialized.  For the request over [[1000, 2000]]
    the error path sets the cursor to [file_start + 1 = 901], behind the
    cursor it came from; the next round finds the same file, and so on:
    no number of rounds ends the loop, and no result message is
    queued. *)
Theorem recording_preview_no_progress (fuel : nat) :
  SendRecordingPreviews fuel stuck_playback stuck_request = None.
Proof.
  unfold SendRecordingPreviews. simpl.
  destruct fuel as [|fuel]; [reflexivity|].
  simpl. apply stuck_loop.
Qed.

(** The walk on a finished recording: scenario 5 of the specification
    (four thumbnails, then the result). *)
Example preview_finished_recording :
  SendRecordingPreviews 10 finished_playback stuck_request
  = Some [RecordingPlaybackPreview 1000 3 [3%N];
          RecordingPlaybackPreview 1250 3 [5%N];
          RecordingPlaybackPreview 1500 3 [6%N];
          RecordingPlaybackPreview 1750 3 [8%N];
          RecordingPlaybackResult true].
Proof. vm_compute. reflexivity. Qed.

Lemma preview_loop_S (fuel : nat) (p : Playback)
    (request : RecordingPreviewRequest) (current : Z) :
  preview_loop (S fuel) p request current =
    if bool_decide (current < req_stop_time request) then
      let '(file_path, file_start_time, file_stop_time) :=
        GetRecordingFilePath p (req_vm_id request) current in
      if bool_decide (file_path = "")
      then Some [RecordingPlaybackResult false]
      else
        match open_file p file_path with
        | None =>
            if bool_decide (u64_wrap file_stop_time = 0)
            then Some [RecordingPlaybackResult false]
            else preview_loop fuel p request (u64_wrap file_stop_time)
        | Some f =>
            match open_stream f with
            | None =>
                let current' :=
                  if bool_decide (u64_wrap file_stop_time = 0)
                  then u64_wrap (file_start_time + 1)
                  else u64_wrap file_stop_time in
                preview_loop fuel p request current'
            | Some recording =>
                let '(recording1, _) := SeekToTimestamp current recording in
                match preview_file fuel p request current recording1
                        [] false with
                | None => None
                | Some (current', previews) =>
                    match preview_loop fuel p request current' with
                    | Some out => Some (previews ++ out)
                    | None => None
                    end
                end
            end
        end
    else Some [RecordingPlaybackResult true].
Proof. reflexivity. Qed.

(** The end-of-data path has the same flaw.  The recorded data of
    [replay_playback] ends at [t = 1500]; for a cursor behind it the
    file is replayed to its end, a preview is queued, and the cursor is
    set to [1500 + 50], from where the same happens again. *)
Lemma replay_round (current : Z) (fuel : nat) :
  current = 1600 ∨ current = 1550 →
  preview_file (S fuel) replay_playback replay_request current
    {| keyframes_ := [];
       file_header :=
         {| vmId := 3; startTime := 900; stopTime := 0;
            keyframes := []; keyframesCount := O |};
       body_ := [GuacInstr (SYNC 950); GuacInstr (DISPLAY 1);
                 GuacInstr (SYNC 1500)];
       position_ := O; keyframe_begin_ := O; current_timestamp := 900 |}
    [] false
  = Some (1550, [RecordingPlaybackPreview 1500 3 []]).
Proof. intros [-> | ->]; reflexivity. Qed.

Lemma replay_loop (fuel : nat) (current : Z) :
  current = 1600 ∨ current = 1550 →
  preview_loop fuel replay_playback replay_request current = None.
Proof.
  revert current. induction fuel as [|fuel IH]; intros current Hc;
    [reflexivity|].
  rewrite preview_loop_S.
  assert (Hlt : bool_decide (current < req_stop_time replay_request) = true)
    by (destruct Hc as [-> | ->]; reflexivity).
  rewrite Hlt.
  cbn [GetRecordingFilePath replay_playback req_vm_id replay_request
       open_file open_stream rf_header rf_body].
  rewrite bool_decide_eq_false_2 by discriminate.
  assert (Hseek : ∀ r,
            startTime (file_header r) = 900 → stopTime (file_header r) = 0 →
            SeekToTimestamp current r = (r, false)).
  { intros r Hstart Hstop. unfold SeekToTimestamp. rewrite Hstart, Hstop.
    destruct Hc as [-> | ->]; reflexivity. }
  rewrite Hseek by reflexivity.
  destruct fuel as [|fuel]; [reflexivity|].
  cbn [take keyframes keyframesCount startTime].
  rewrite (replay_round current fuel Hc).
  rewrite (IH 1550) by (right; reflexivity). reflexivity.
Qed.

Lemma preview_replay_no_progress (fuel : nat) :
  SendRecordingPreviews fuel replay_playback replay_request = None.
Proof.
  change (SendRecordingPreviews fuel replay_playback replay_request)
    with (preview_loop fuel replay_playback replay_request 1600).
  apply replay_loop. left. reflexivity.
Qed.

(** Whenever the walk does return, the messages it queued are
    thumbnails followed by exactly one result message. *)
Lemma preview_file_previews (fuel : nat) (p : Playback)
    (request : RecordingPreviewRequest) (current : Z)
    (r : RecordingFileStream) (screenshot : list GuacServerInstruction)
    (keyframe_changed : bool) (current' : Z) (out : list ServerMessage) :
  preview_file fuel p request current r screenshot keyframe_changed
  = Some (current', out) →
  forallb is_preview out = true.
Proof.
  revert current r screenshot keyframe_changed current' out.
  induction fuel as [|fuel IH];
    intros current r screenshot keyframe_changed current' out Hrun;
    [discriminate|].
  simpl in Hrun.
  repeat case_match; simplify_eq; try reflexivity;
    simpl; eapply IH; eassumption.
Qed.

Lemma preview_loop_shape (fuel : nat) (p : Playback)
    (request : RecordingPreviewRequest) (current : Z)
    (out : list ServerMessage) :
  preview_loop fuel p request current = Some out →
  ∃ previews result,
    out = previews ++ [RecordingPlaybackResult result]
    ∧ forallb is_preview previews = true.
Proof.
  revert current out. induction fuel as [|fuel IH]; intros current out Hrun;
    [discriminate|].
  rewrite preview_loop_S in Hrun.
  repeat case_match; simplify_eq;
    try (by exists [], false); try (by exists [], true);
    try (eapply IH; eassumption).
  match goal with
  | Hf : preview_file _ _ _ _ _ _ _ = Some (_, ?pre),
    Hl : preview_loop _ _ _ _ = Some ?rest |- _ =>
      apply preview_file_previews in Hf;
      destruct (IH _ _ Hl) as (previews & result & -> & Hp);
      exists (pre ++ previews), result; split;
        [by rewrite (assoc_L (++))|];
      rewrite forallb_app, Hf, Hp; reflexivity
  end.
Qed.

(** X22. The walk never queues a second result nor a thumbnail behind
    the result: whenever [SendRecordingPreviews] returns, what it queued
    is a run of thumbnails followed by exactly one result message. *)
Lemma SendRecordingPreviews_shape (fuel : nat) (p : Playback)
    (request : RecordingPreviewRequest) (out : list ServerMessage) :
  SendRecordingPreviews fuel p request = Some out →
  ∃ previews result,
    out = previews ++ [RecordingPlaybackResult result]
    ∧ forallb is_preview previews = true.
Proof.
  unfold SendRecordingPreviews. case_match.
  - intros [= <-]. by exists [], false.
  - apply preview_loop_shape.
Qed.

(** * Further properties of the embedded code *)

(** ** Send pipeline: histories *)

Lemma written_app (l1 l2 : list SocketCall) :
  written (l1 ++ l2) = written l1 ++ written l2.
Proof.
  induction l1 as [|c l1 IH]; [reflexivity|].
  destruct c; simpl; rewrite IH; try reflexivity.
  apply (assoc_L (++)).
Qed.

Lemma written_frames (ms : list ServerMessage) :
  written (map CreateFrame ms) = [].
Proof. induction ms as [|m ms IH]; [reflexivity|exact IH]. Qed.

Lemma writes_started_app (l1 l2 : list SocketCall) :
  writes_started (l1 ++ l2) = (writes_started l1 + writes_started l2)%nat.
Proof.
  induction l1 as [|c l1 IH]; [reflexivity|].
  destruct c; simpl; rewrite IH; reflexivity.
Qed.

Lemma writes_started_frames (ms : list ServerMessage) :
  writes_started (map CreateFrame ms) = O.
Proof. induction ms as [|m ms IH]; [reflexivity|exact IH]. Qed.

Lemma queued_by_cons (e : PipelineEvent) (es : list PipelineEvent) :
  queued_by (e :: es) = queued_by [e] ++ queued_by es.
Proof. destruct e; simpl; rewrite ?app_nil_r; reflexivity. Qed.

Lemma pipeline_step_fifo (s : Socket) (e : PipelineEvent) :
  pipeline_ok s →
  pipeline_ok (pipeline_step s e)
  ∧ written (calls_ (pipeline_step s e)) ++ send_queue_ (pipeline_step s e)
    = written (calls_ s) ++ send_queue_ s ++ queued_by [e].
Proof.
  intros Hok. destruct e as [m|ms|]; simpl.
  - rewrite QueueMessage_calls, QueueMessage_send_queue.
    split; [intros Hs; rewrite QueueMessage_sending in Hs; discriminate|].
    destruct (sending_ s) eqn:Hs.
    + rewrite written_app. simpl. rewrite !app_nil_r. reflexivity.
    + rewrite (Hok Hs). rewrite written_app. simpl.
      rewrite !app_nil_r. reflexivity.
  - unfold QueueMessageBatch. simpl.
    destruct (send_queue_ s ++ ms) as [|m0 q0] eqn:Hq.
    + simpl. rewrite written_app, written_frames, !app_nil_r.
      split; [intros _; reflexivity|].
      rewrite Hq, app_nil_r. reflexivity.
    + destruct (sending_ s) eqn:Hs; unfold pipeline_ok; simpl.
      * split; [discriminate|].
        rewrite written_app, written_frames, !app_nil_r, Hq. reflexivity.
      * split; [discriminate|].
        rewrite !written_app, written_frames. simpl.
        rewrite !app_nil_r, Hq. reflexivity.
  - unfold SendMessageCallback, SendMessageBatch, SendMessage.
    destruct (send_queue_ s) as [|m1 [|m2 rest]] eqn:Hq; simpl.
    + split; [intros _; reflexivity|]. rewrite !app_nil_r. reflexivity.
    + split; [intros _; reflexivity|].
      rewrite written_app. simpl. rewrite !app_nil_r. reflexivity.
    + split; [intros _; reflexivity|].
      rewrite written_app. simpl. rewrite !app_nil_r. reflexivity.
Qed.

Lemma pipeline_run_ok (es : list PipelineEvent) (s : Socket) :
  pipeline_ok s → pipeline_ok (pipeline_run s es).
Proof.
  revert s. induction es as [|e es IH]; intros s Hok; [exact Hok|].
  apply IH. apply (pipeline_step_fifo s e Hok).
Qed.

(** X1. Messages leave a socket in the order they were queued and none
    is lost or duplicated: after any history of queueing and write
    completions, the messages handed to the transport so far, followed
    by the messages still queued, are the messages that were there
    before followed by the messages queued since, in order. *)
Theorem pipeline_fifo (es : list PipelineEvent) (s : Socket) :
  (sending_ s = false → send_queue_ s = []) →
  written (calls_ (pipeline_run s es)) ++ send_queue_ (pipeline_run s es)
  = written (calls_ s) ++ send_queue_ s ++ queued_by es.
Proof.
  revert s. induction es as [|e es IH]; intros s Hok.
  - simpl. rewrite app_nil_r. reflexivity.
  - destruct (pipeline_step_fifo s e Hok) as [Hok' Hstep].
    change (pipeline_run s (e :: es))
      with (pipeline_run (pipeline_step s e) es).
    rewrite (IH _ Hok').
    rewrite (assoc_L (++) (written _) (send_queue_ _)), Hstep.
    rewrite <- !(assoc_L (++)). do 2 f_equal.
    symmetry. apply queued_by_cons.
Qed.

Lemma pipeline_fifo_witness :
  written (calls_ (pipeline_run (new_socket 7)
                     [EvQueueMessage UsernameTaken;
                      EvQueueMessage ConnectResponseFail;
                      EvQueueMessageBatch [ChatChannelId 1; ChatChannelId 2];
                      EvWriteCompleted]))
  ++ send_queue_ (pipeline_run (new_socket 7)
                    [EvQueueMessage UsernameTaken;
                     EvQueueMessage ConnectResponseFail;
                     EvQueueMessageBatch [ChatChannelId 1; ChatChannelId 2];
                     EvWriteCompleted])
  = written (calls_ (new_socket 7)) ++ send_queue_ (new_socket 7)
    ++ queued_by [EvQueueMessage UsernameTaken;
                  EvQueueMessage ConnectResponseFail;
                  EvQueueMessageBatch [ChatChannelId 1; ChatChannelId 2];
                  EvWriteCompleted].
Proof.
  apply (pipeline_fifo _ (new_socket 7)). intros _. reflexivity.
Defined.

Lemma pipeline_step_in_flight (s : Socket) (e : PipelineEvent) :
  pipeline_ok s →
  (e = EvWriteCompleted → sending_ s = true) →
  (writes_started (calls_ (pipeline_step s e)) + in_flight s
   = writes_started (calls_ s) + writes_completed [e]
     + in_flight (pipeline_step s e))%nat.
Proof.
  intros Hok Hwf. unfold in_flight. destruct e as [m|ms|]; simpl.
  - rewrite QueueMessage_calls, QueueMessage_sending, writes_started_app.
    destruct (sending_ s); simpl; lia.
  - unfold QueueMessageBatch. simpl.
    destruct (send_queue_ s ++ ms) as [|m0 q0] eqn:Hq; simpl.
    + rewrite writes_started_app, writes_started_frames. lia.
    + destruct (sending_ s) eqn:Hs; simpl.
      * rewrite writes_started_app, writes_started_frames. lia.
      * rewrite !writes_started_app, writes_started_frames. simpl. lia.
  - rewrite (Hwf eq_refl).
    unfold SendMessageCallback, SendMessageBatch, SendMessage.
    destruct (send_queue_ s) as [|m1 [|m2 rest]] eqn:Hq; simpl;
      rewrite ?writes_started_app, ?(Hwf eq_refl); simpl; lia.
Qed.

(** X2. At most one write is in flight: in every history in which a
    write completes only while one is in flight, the number of writes
    started is the number of writes completed plus one when [sending_]
    is set and plus nothing when it is clear; and whenever [sending_]
    is clear the queue is empty, so no message waits without a write
    under way. *)
Theorem pipeline_single_write (es : list PipelineEvent) (s s' : Socket) :
  (sending_ s = false → send_queue_ s = []) →
  pipeline_run_wf s es = Some s' →
  (writes_started (calls_ s') + in_flight s
   = writes_started (calls_ s) + writes_completed es + in_flight s')%nat
  ∧ (sending_ s' = false → send_queue_ s' = []).
Proof.
  revert s. induction es as [|e es IH]; intros s Hok Hrun.
  - injection Hrun as <-. split; [simpl; lia|exact Hok].
  - assert (Hwf : e = EvWriteCompleted → sending_ s = true).
    { intros ->.
      change (pipeline_run_wf s (EvWriteCompleted :: es))
        with (if sending_ s
              then pipeline_run_wf (SendMessageCallback false s) es
              else None) in Hrun.
      destruct (sending_ s); [reflexivity|discriminate]. }
    assert (Hrun' : pipeline_run_wf (pipeline_step s e) es = Some s').
    { destruct e; try exact Hrun.
      change (pipeline_run_wf s (EvWriteCompleted :: es))
        with (if sending_ s
              then pipeline_run_wf (SendMessageCallback false s) es
              else None) in Hrun.
      rewrite (Hwf eq_refl) in Hrun. exact Hrun. }
    destruct (pipeline_step_fifo s e Hok) as [Hok' _].
    destruct (IH _ Hok' Hrun') as [Hcount Hq]. split; [|exact Hq].
    pose proof (pipeline_step_in_flight s e Hok Hwf) as Hstep.
    assert (Hc : writes_completed (e :: es)
                 = (writes_completed [e] + writes_completed es)%nat)
      by (destruct e; reflexivity).
    rewrite Hc. lia.
Qed.

Lemma pipeline_single_write_witness :
  (writes_started
     (calls_ (set_pipeline [] true
                [CreateFrame UsernameTaken; WriteMessage [UsernameTaken];
                 CreateFrame ConnectResponseFail;
                 WriteMessage [ConnectResponseFail]] (new_socket 7)))
   + in_flight (new_socket 7)
   = writes_started (calls_ (new_socket 7))
     + writes_completed [EvQueueMessage UsernameTaken;
                         EvQueueMessage ConnectResponseFail;
                         EvWriteCompleted]
     + in_flight (set_pipeline [] true
                    [CreateFrame UsernameTaken; WriteMessage [UsernameTaken];
                     CreateFrame ConnectResponseFail;
                     WriteMessage [ConnectResponseFail]] (new_socket 7)))%nat
  ∧ (sending_ (set_pipeline [] true
                 [CreateFrame UsernameTaken; WriteMessage [UsernameTaken];
                  CreateFrame ConnectResponseFail;
                  WriteMessage [ConnectResponseFail]] (new_socket 7)) = false →
     send_queue_ (set_pipeline [] true
                    [CreateFrame UsernameTaken; WriteMessage [UsernameTaken];
                     CreateFrame ConnectResponseFail;
                     WriteMessage [ConnectResponseFail]] (new_socket 7)) = []).
Proof.
  apply (pipeline_single_write
           [EvQueueMessage UsernameTaken; EvQueueMessage ConnectResponseFail;
            EvWriteCompleted] (new_socket 7)).
  - intros _. reflexivity.
  - reflexivity.
Defined.

Lemma pipeline_step_after_error (s : Socket) (e : PipelineEvent) :
  sending_ s = true →
  is_queue_event e = true →
  sending_ (pipeline_step s e) = true
  ∧ written (calls_ (pipeline_step s e)) = written (calls_ s)
  ∧ send_queue_ (pipeline_step s e) = send_queue_ s ++ queued_by [e].
Proof.
  intros Hs He. destruct e as [m|ms|]; [| |discriminate]; simpl.
  - rewrite QueueMessage_sending, QueueMessage_calls,
      QueueMessage_send_queue, Hs, written_app. simpl.
    rewrite app_nil_r. auto.
  - unfold QueueMessageBatch. simpl. rewrite app_nil_r.
    destruct (send_queue_ s ++ ms) as [|m0 q0] eqn:Hq; simpl.
    + rewrite written_app, written_frames, app_nil_r. auto.
    + rewrite Hs. simpl. rewrite written_app, written_frames, app_nil_r.
      auto.
Qed.

(** X3. A failed write ends all writing on the socket: the callback
    calls [Close] and leaves [sending_] set, so whatever is queued
    afterwards is framed and appended to the queue but never handed to
    the transport. *)
Theorem pipeline_no_write_after_error (es : list PipelineEvent)
    (s : Socket) :
  sending_ s = true →
  forallb is_queue_event es = true →
  last (calls_ (SendMessageCallback true s)) = Some Close
  ∧ written (calls_ (pipeline_run (SendMessageCallback true s) es))
    = written (calls_ s)
  ∧ send_queue_ (pipeline_run (SendMessageCallback true s) es)
    = send_queue_ s ++ queued_by es.
Proof.
  intros Hs Hes. split; [simpl; apply last_snoc|].
  assert (Hgen : ∀ s0, sending_ s0 = true →
            written (calls_ (pipeline_run s0 es)) = written (calls_ s0)
            ∧ send_queue_ (pipeline_run s0 es)
              = send_queue_ s0 ++ queued_by es).
  { clear s Hs. induction es as [|e es IH]; intros s0 Hs0.
    - simpl. rewrite app_nil_r. auto.
    - simpl in Hes. apply andb_true_iff in Hes as [He Hes].
      destruct (pipeline_step_after_error s0 e Hs0 He) as (Hs1 & Hw & Hq).
      destruct (IH Hes _ Hs1) as [Hw' Hq'].
      change (pipeline_run s0 (e :: es))
        with (pipeline_run (pipeline_step s0 e) es).
      rewrite Hw', Hw, Hq', Hq. split; [reflexivity|].
      rewrite <- (assoc_L (++)). f_equal. symmetry. apply queued_by_cons. }
  destruct (Hgen (SendMessageCallback true s)) as [Hw Hq];
    [exact Hs|].
  rewrite Hw, Hq. simpl. rewrite written_app. simpl.
  rewrite app_nil_r. auto.
Qed.

Lemma pipeline_no_write_after_error_witness :
  last (calls_ (SendMessageCallback true
                  (QueueMessage UsernameTaken (new_socket 7)))) = Some Close
  ∧ written (calls_ (pipeline_run
                       (SendMessageCallback true
                          (QueueMessage UsernameTaken (new_socket 7)))
                       [EvQueueMessage ConnectResponseFail]))
    = written (calls_ (QueueMessage UsernameTaken (new_socket 7)))
  ∧ send_queue_ (pipeline_run
                   (SendMessageCallback true
                      (QueueMessage UsernameTaken (new_socket 7)))
                   [EvQueueMessage ConnectResponseFail])
    = send_queue_ (QueueMessage UsernameTaken (new_socket 7))
      ++ queued_by [EvQueueMessage ConnectResponseFail].
Proof.
  apply (pipeline_no_write_after_error
           [EvQueueMessage ConnectResponseFail]
           (QueueMessage UsernameTaken (new_socket 7))); reflexivity.
Defined.

(** ** Admission under a cap *)

Lemma cap_step_invariant (max : Z) (st st' : IpState) (e : IpEvent) :
  0 ≤ max →
  capped_at max [e] = true →
  connections st = live_sessions st + closing st →
  0 ≤ live_sessions st ≤ max →
  0 ≤ closing st →
  live_sessions st + closing st + 1 < 2 ^ 32 →
  ip_step st e = Some st' →
  connections st' = live_sessions st' + closing st'
  ∧ 0 ≤ live_sessions st' ≤ max
  ∧ 0 ≤ closing st'
  ∧ live_sessions st' + closing st' ≤ live_sessions st + closing st + 1.
Proof.
  intros Hmax Hcap Hc Ha Hr Hbound Hstep.
  destruct e as [enabled m| |]; simpl in Hstep, Hcap.
  - rewrite andb_true_r in Hcap. apply andb_true_iff in Hcap as [-> Hm].
    apply bool_decide_eq_true_1 in Hm. subst m.
    unfold pre_connect_counter in Hstep.
    rewrite Z.mod_small in Hstep by lia.
    injection Hstep as <-. simpl.
    destruct (bool_decide (max < connections st + 1)) eqn:Hclose.
    + lia.
    + apply bool_decide_eq_false_1 in Hclose. lia.
  - destruct (bool_decide (0 < live_sessions st)) eqn:Hpos;
      [|discriminate].
    apply bool_decide_eq_true_1 in Hpos.
    injection Hstep as <-. simpl. unfold disconnect_counter.
    rewrite bool_decide_eq_true_2 by lia.
    rewrite Z.mod_small by lia. lia.
  - destruct (bool_decide (0 < closing st)) eqn:Hpos; [|discriminate].
    apply bool_decide_eq_true_1 in Hpos.
    injection Hstep as <-. simpl. unfold disconnect_counter.
    rewrite bool_decide_eq_true_2 by lia.
    rewrite Z.mod_small by lia. lia.
Qed.

Lemma cap_run_invariant (max : Z) (es : list IpEvent) (st st' : IpState) :
  0 ≤ max →
  capped_at max es = true →
  connections st = live_sessions st + closing st →
  0 ≤ live_sessions st ≤ max →
  0 ≤ closing st →
  live_sessions st + closing st + Z.of_nat (length es) < 2 ^ 32 →
  ip_run st es = Some st' →
  0 ≤ live_sessions st' ≤ max.
Proof.
  intros Hmax. revert st.
  induction es as [|e es IH]; intros st Hcap Hc Ha Hr Hbound Hrun.
  - injection Hrun as <-. auto.
  - simpl in Hrun. destruct (ip_step st e) as [st1|] eqn:Hstep;
      [|discriminate].
    rewrite length_cons, Nat2Z.inj_succ in Hbound.
    assert (He : capped_at max [e] = true ∧ capped_at max es = true).
    { unfold capped_at in *. simpl in *.
      apply andb_true_iff in Hcap as [H1 H2].
      rewrite andb_true_r. auto. }
    destruct He as [He Hes].
    destruct (cap_step_invariant max st st1 e Hmax He Hc Ha Hr
                ltac:(lia) Hstep) as (Hc1 & Ha1 & Hr1 & Hgrow).
    apply (IH st1); try assumption. lia.
Qed.

(** X4. The cap is enforced: when every admission test of an address
    runs with the cap enabled and set to [max], at no time are more than
    [max] sessions of that address alive, however the admissions, the
    disconnects of live sessions and the disconnects of closed sockets
    interleave. *)
Theorem cap_enforced (max : Z) (es : list IpEvent) (st : IpState) :
  0 ≤ max →
  capped_at max es = true →
  Z.of_nat (length es) < 2 ^ 32 →
  ip_run ip_init es = Some st →
  live_sessions st ≤ max.
Proof.
  intros Hmax Hcap Hlen Hrun.
  apply (cap_run_invariant max es ip_init st Hmax Hcap eq_refl
           ltac:(simpl; lia) ltac:(simpl; lia) ltac:(simpl; lia) Hrun).
Qed.

Lemma cap_enforced_witness :
  live_sessions {| connections := 2; live_sessions := 2; closing := 0 |} ≤ 2.
Proof.
  apply (cap_enforced 2
           [PreConnect true 2; PreConnect true 2; PreConnect true 2;
            DisconnectClosed]).
  - lia.
  - reflexivity.
  - vm_compute. reflexivity.
  - reflexivity.
Defined.

(** ** What closures leave alone *)

Section ClosureStable.
Context `{Environment}.
Context (R : Socket → Socket → Prop) (HR : closure_stable R).

Lemma stable_QueueMessage (m : ServerMessage) (s : Socket) :
  R s (QueueMessage m s).
Proof.
  unfold QueueMessage, QueueMessage_task, SendMessage.
  eapply (stable_trans R HR); [apply (stable_pipeline R HR)|].
  destruct (sending_ _).
  - apply (stable_pipeline R HR).
  - eapply (stable_trans R HR); apply (stable_pipeline R HR).
Qed.

Lemma stable_socket_close (s : Socket) : R s (socket_close s).
Proof. apply (stable_pipeline R HR). Qed.

Lemma ss_refl (srv : Server) : server_stable R srv srv.
Proof. intros k. apply (stable_refl R HR). Qed.

Lemma ss_with_socket (srv srv0 : Server) (s : sock) (f : Socket → Socket) :
  (∀ x, R x (f x)) →
  server_stable R srv srv0 →
  server_stable R srv (with_socket s f srv0).
Proof.
  intros Hf Hss k. eapply (stable_trans R HR); [apply Hss|].
  destruct (decide (s = k)) as [->|Hne].
  - rewrite the_socket_with_socket_eq. apply Hf.
  - rewrite the_socket_with_socket_ne by exact Hne.
    apply (stable_refl R HR).
Qed.

Lemma ss_same_sockets (srv srv0 srv1 : Server) :
  sockets srv1 = sockets srv0 →
  server_stable R srv srv0 →
  server_stable R srv srv1.
Proof.
  intros Heq Hss k. unfold the_socket. rewrite Heq. apply Hss.
Qed.

Lemma ss_BroadcastMessage (m : ServerMessage) (ch : Channel)
    (srv srv0 : Server) :
  server_stable R srv srv0 →
  server_stable R srv (BroadcastMessage m ch srv0).
Proof.
  unfold BroadcastMessage. generalize (ch_users ch). intros users.
  revert srv0. induction users as [|u users IH]; intros srv0 Hss;
    [exact Hss|].
  simpl. apply IH. apply ss_with_socket; [|exact Hss].
  intros x. apply stable_QueueMessage.
Qed.

Lemma ss_put_channel (c : ChannelRef) (ch : Channel) (srv srv0 : Server) :
  server_stable R srv srv0 →
  server_stable R srv (put_channel c ch srv0).
Proof.
  intros Hss. apply (ss_same_sockets srv srv0); [|exact Hss].
  destruct c; reflexivity.
Qed.

Lemma ss_AddUser (c : ChannelRef) (ud : UserData) (s : sock)
    (srv srv0 : Server) :
  server_stable R srv srv0 →
  server_stable R srv (AddUser c ud s srv0).
Proof.
  intros Hss. unfold AddUser. destruct (get_channel c srv0); [|exact Hss].
  apply ss_BroadcastMessage, ss_put_channel, Hss.
Qed.

Lemma ss_RemoveUser (c : ChannelRef) (s : sock) (srv srv0 : Server) :
  server_stable R srv srv0 →
  server_stable R srv (RemoveUser c s srv0).
Proof.
  intros Hss. unfold RemoveUser.
  destruct (get_channel c srv0); [|exact Hss].
  destruct (GetUserData s _); [|exact Hss].
  apply ss_BroadcastMessage.
  destruct c.
  - apply ss_put_channel, Hss.
  - eapply ss_same_sockets; [|apply ss_put_channel, Hss]. reflexivity.
Qed.

Ltac stable_socket_step :=
  first
    [ apply stable_QueueMessage
    | apply stable_socket_close
    | apply (stable_pipeline R HR)
    | apply (stable_chat_rooms R HR)
    | apply (stable_login R HR)
    | apply (stable_viewing_vm_list R HR)
    | apply (stable_in_global_chat R HR)
    | apply (stable_captcha_required R HR)
    | apply (stable_connected_vm_id R HR)
    | apply (stable_username R HR)
    | apply (stable_ip_data R HR)
    | apply (stable_refl R HR) ].

Ltac stable_server :=
  repeat
    first
      [ exact (ss_refl _)
      | assumption
      | apply ss_with_socket; [intros ?; unfold InvalidateSession,
                                 SendChatChannelId, SendChatMessageResponse;
                               stable_socket_step|]
      | apply ss_BroadcastMessage
      | apply ss_AddUser
      | apply ss_RemoveUser
      | apply ss_put_channel
      | (eapply ss_same_sockets; [reflexivity|]) ].

Lemma exec_stable (t : Task) (srv : Server) :
  server_stable R srv (fst (exec t srv)).
Proof.
  destruct t; simpl;
    unfold exec_ConnectUsername, exec_GenerateUsername, exec_ConnectVm,
      exec_ConnectVmSettings, exec_ConnectChannel, exec_LeaveVm,
      exec_TurnRequestVm, exec_VoteVm, exec_GuacInstrVm,
      exec_ChangeUsernameCheck, exec_ChangeUsernameGuests,
      exec_SetUserDataSwap, exec_UpdateUsernameVm, exec_UpdateUsername,
      exec_ChatUsername, exec_NewDirectGuests, exec_NewDirectSender,
      exec_NewDirectRecipient, exec_NewDirectRollback, exec_NewDirectFinish,
      exec_DirectChat, exec_ChatVm, exec_ChatRoom, exec_CreateSession,
      exec_GetIPData, exec_PreConnectSettings, exec_PreConnectIp,
      exec_OnConnectSettings, exec_DisconnectUsername, exec_DisconnectIp,
      connect_to_channel, LeaveVmList, SendChatChannelId,
      SendChatMessageResponse;
    repeat case_match; simplify_eq; simpl; stable_server.
Qed.

Lemma run_n_stable (n : nat) (pending : list Task) (srv : Server) :
  server_stable R srv (fst (run_n n pending srv)).
Proof.
  revert pending srv. induction n as [|n IH]; intros pending srv;
    [apply ss_refl|].
  destruct pending as [|t rest]; [apply ss_refl|].
  simpl. pose proof (exec_stable t srv) as Ht.
  destruct (exec t srv) as [srv1 spawned]. simpl in Ht.
  intros k. eapply (stable_trans R HR); [apply Ht|].
  apply (IH (rest ++ spawned) srv1).
Qed.

End ClosureStable.

(** ** Gates that hold across closures *)

Lemma same_last_chat_message_stable : closure_stable same_last_chat_message.
Proof. split; unfold same_last_chat_message; intros; simpl; congruence. Qed.

Lemma stays_logged_in_stable : closure_stable stays_logged_in.
Proof.
  split; unfold stays_logged_in; intros; simpl; auto.
Qed.

Section GatesAcrossClosures.
Context `{Environment}.

(** X5. The chat rate limit holds: once a chat message of a socket has
    been accepted at time [now], whatever closures run afterwards, any
    chat message of that socket handled less than [chat_rate_limit]
    later is dropped with no effect. *)
Theorem chat_rate_limit_holds (self : sock)
    (destination destination' : ChatMessageDestination)
    (text text' : string) (now now' : Z) (n : nat) (pending : list Task)
    (srv : Server) :
  snd (HandleMessage self (CHAT_MESSAGE destination text) now srv) ≠ [] →
  now' - now < chat_rate_limit →
  HandleMessage self (CHAT_MESSAGE destination' text') now'
    (fst (run_n n pending
            (fst (HandleMessage self (CHAT_MESSAGE destination text)
                    now srv))))
  = (fst (run_n n pending
            (fst (HandleMessage self (CHAT_MESSAGE destination text)
                    now srv))), []).
Proof.
  intros Haccept Hsoon.
  assert (Hfst : fst (HandleMessage self (CHAT_MESSAGE destination text)
                        now srv)
                 = with_socket self (set_last_chat_message now) srv).
  { revert Haccept. simpl.
    destruct (is_captcha_required_ _); [intros []; reflexivity|].
    destruct (_ || _); [intros []; reflexivity|]. reflexivity. }
  rewrite Hfst.
  pose proof (run_n_stable same_last_chat_message
                same_last_chat_message_stable n pending
                (with_socket self (set_last_chat_message now) srv) self)
    as Hkeep.
  unfold same_last_chat_message in Hkeep.
  rewrite the_socket_with_socket_eq in Hkeep. simpl in Hkeep.
  set (srv2 := fst (run_n n pending _)) in *.
  simpl. rewrite Hkeep.
  destruct (is_captcha_required_ (the_socket self srv2)); [reflexivity|].
  rewrite (bool_decide_eq_true_2 (now' - now < chat_rate_limit))
    by exact Hsoon.
  rewrite orb_true_r. reflexivity.
Qed.

(** X6. Registered names are fixed: from a successful [CreateSession]
    on, whatever closures run afterwards, every change-username request
    of the socket is dropped with no effect. *)
Theorem logged_in_cannot_rename (socket : sock) (username u : string)
    (db : DbSession) (now : Z) (n : nat) (pending : list Task)
    (srv : Server) :
  correct_username db ≠ "" →
  HandleMessage socket (CHANGE_USERNAME u) now
    (fst (run_n n pending (fst (exec (CreateSession socket username db) srv))))
  = (fst (run_n n pending
            (fst (exec (CreateSession socket username db) srv))), []).
Proof.
  intros Hname.
  assert (Hlogin : is_logged_in_
                     (the_socket socket
                        (fst (exec (CreateSession socket username db) srv)))
                   = true).
  { simpl. unfold exec_CreateSession.
    rewrite bool_decide_eq_false_2 by exact Hname. cbn [fst].
    rewrite the_socket_with_socket_eq.
    apply (stable_QueueMessage stays_logged_in stays_logged_in_stable).
    set (srv1 := with_socket socket (set_login true (db_is_admin db)) srv).
    assert (H1 : is_logged_in_ (the_socket socket srv1) = true)
      by (unfold srv1; rewrite the_socket_with_socket_eq; reflexivity).
    repeat case_match; try exact H1.
    destruct (decide (n0 = socket)) as [->|Hne].
    - rewrite the_socket_with_socket_eq. exact H1.
    - rewrite the_socket_with_socket_ne by exact Hne. exact H1. }
  pose proof (run_n_stable stays_logged_in stays_logged_in_stable n pending
                (fst (exec (CreateSession socket username db) srv)) socket
                Hlogin) as Hkeep.
  set (srv2 := fst (run_n n pending _)) in *.
  simpl. rewrite Hkeep.
  destruct (is_captcha_required_ (the_socket socket srv2)); reflexivity.
Qed.

End GatesAcrossClosures.

Lemma chat_rate_limit_holds_witness :
  HandleMessage 1%nat (CHAT_MESSAGE (VM_DESTINATION 0) "again") 10100000000
    (fst (run_n 5 [ChatUsername 1%nat (VM_DESTINATION 0) "hello"]
            (fst (HandleMessage 1%nat
                    (CHAT_MESSAGE (VM_DESTINATION 0) "hello")
                    10000000000 lobby))))
  = (fst (run_n 5 [ChatUsername 1%nat (VM_DESTINATION 0) "hello"]
            (fst (HandleMessage 1%nat
                    (CHAT_MESSAGE (VM_DESTINATION 0) "hello")
                    10000000000 lobby))), []).
Proof.
  apply (chat_rate_limit_holds 1%nat (VM_DESTINATION 0) (VM_DESTINATION 0)
           "hello" "again" 10000000000 10100000000 5
           [ChatUsername 1%nat (VM_DESTINATION 0) "hello"] lobby).
  - vm_compute. discriminate.
  - vm_compute. reflexivity.
Defined.

Lemma logged_in_cannot_rename_witness :
  HandleMessage 2%nat (CHANGE_USERNAME "carol") 60000000000
    (fst (run_n 3 []
            (fst (exec (CreateSession 2%nat "alice" alice_again) one_login))))
  = (fst (run_n 3 []
            (fst (exec (CreateSession 2%nat "alice" alice_again) one_login))),
     []).
Proof.
  apply (logged_in_cannot_rename 2%nat "alice" "carol" alice_again
           60000000000 3 [] one_login).
  vm_compute. discriminate.
Defined.

Section CaptchaThenInput.
Context `{Environment}.

(** X7. Passing the CAPTCHA opens the gate: for a socket connected to a
    VM, after a captcha-completed message whose token the provider
    accepts, a guac-instr message is handed to [ReadInstruction] of the
    connected VM, whatever the captcha-required flag was before. *)
Theorem captcha_then_instruction (self : sock) (token instr : string)
    (now now' : Z) (srv : Server) :
  captcha_verify token = true →
  connected_vm_id_ (the_socket self srv) ≠ 0%N →
  ∃ srv1 srv2,
    run_entry 1 (HandleMessage self (CAPTCHA_COMPLETED token) now) srv
    = Some srv1
    ∧ is_captcha_required_ (the_socket self srv1) = false
    ∧ run_entry 1 (HandleMessage self (GUAC_INSTR instr) now') srv1
      = Some srv2
    ∧ virtual_machines_ srv2
      = alter
          (λ vm,
             set_vm_calls (vm_calls vm ++ [VmReadInstruction self instr]) vm)
          (connected_vm_id_ (the_socket self srv)) (virtual_machines_ srv)
    ∧ sockets srv2 = sockets srv1.
Proof.
  intros Hvalid Hvm.
  eexists. eexists. split; [reflexivity|].
  cbn [run_entry HandleMessage run exec fst snd app].
  rewrite Hvalid. cbn [negb].
  split; [rewrite the_socket_with_socket_eq; reflexivity|].
  unfold run_entry, HandleMessage.
  rewrite the_socket_with_socket_eq.
  cbn [connected_vm_id_ is_captcha_required_ set_is_captcha_required].
  rewrite bool_decide_eq_false_2 by exact Hvm. cbn [orb].
  cbn [run exec exec_GuacInstrVm fst snd app].
  unfold exec_GuacInstrVm.
  split; [reflexivity|]. split; reflexivity.
Qed.

End CaptchaThenInput.

(** ** Direct chats *)

Section DirectChatReplies.
Context `{Environment}.

(** A chat message that passes the gates of the handler stores its time
    and reaches the closure on the username strand. *)
Lemma chat_message_accepted (self : sock)
    (destination : ChatMessageDestination) (text : string) (now : Z)
    (srv : Server) :
  is_captcha_required_ (the_socket self srv) = false →
  (0 < String.length text ≤ max_chat_message_len)%nat →
  chat_rate_limit ≤ now - last_chat_message_ (the_socket self srv) →
  HandleMessage self (CHAT_MESSAGE destination text) now srv
  = (with_socket self (set_last_chat_message now) srv,
     [ChatUsername self destination text]).
Proof.
  intros Hcap [Hlen1 Hlen2] Hrate. unfold HandleMessage. rewrite Hcap.
  rewrite (bool_decide_eq_false_2 (String.length text = O)) by lia.
  rewrite (bool_decide_eq_false_2 (max_chat_message_len < _)%nat) by lia.
  rewrite (bool_decide_eq_false_2 (now - _ < chat_rate_limit)) by lia.
  reflexivity.
Qed.

(** X8. A direct chat with an unknown guest name is answered
    [USER_NOT_FOUND]: apart from the stored message time, the only
    effect is that response on the sender's socket. *)
Theorem new_direct_user_not_found (self : sock) (name text : string)
    (now : Z) (srv : Server) :
  is_captcha_required_ (the_socket self srv) = false →
  (0 < String.length text ≤ max_chat_message_len)%nat →
  chat_rate_limit ≤ now - last_chat_message_ (the_socket self srv) →
  username_ (the_socket self srv) ≠ "" →
  guests_ srv !! fold_case name = None →
  run_entry 2
    (HandleMessage self (CHAT_MESSAGE (NEW_DIRECT name) text) now) srv
  = Some (with_socket self
            (QueueMessage (ChatMessageResponseMsg USER_NOT_FOUND))
            (with_socket self (set_last_chat_message now) srv)).
Proof.
  intros Hcap Hlen Hrate Huser Hguest. unfold run_entry.
  rewrite chat_message_accepted by assumption.
  rewrite run_cons, exec_ChatUsername_new_direct
    by (rewrite the_socket_with_socket_eq; exact Huser).
  cbn [fst snd app]. rewrite run_cons.
  cbn [exec]. unfold exec_NewDirectGuests.
  change (guests_ (with_socket self (set_last_chat_message now) srv))
    with (guests_ srv).
  rewrite Hguest. reflexivity.
Qed.

(** X9. A sender whose chat-rooms table holds ten rows or more is
    answered [USER_CHAT_LIMIT] for every new-direct request to an
    existing guest, also when one of its rows is a chat with that very
    guest: the limit is tested before the table is searched.  Nothing
    else changes. *)
Theorem new_direct_user_chat_limit (self recipient : sock)
    (name text : string) (now : Z) (srv : Server) :
  is_captcha_required_ (the_socket self srv) = false →
  (0 < String.length text ≤ max_chat_message_len)%nat →
  chat_rate_limit ≤ now - last_chat_message_ (the_socket self srv) →
  username_ (the_socket self srv) ≠ "" →
  guests_ srv !! fold_case name = Some recipient →
  (10 ≤ size (chat_rooms_ (the_socket self srv)))%nat →
  run_entry 3
    (HandleMessage self (CHAT_MESSAGE (NEW_DIRECT name) text) now) srv
  = Some (with_socket self
            (QueueMessage (ChatMessageResponseMsg USER_CHAT_LIMIT))
            (with_socket self (set_last_chat_message now) srv)).
Proof.
  intros Hcap Hlen Hrate Huser Hguest Hsize. unfold run_entry.
  rewrite chat_message_accepted by assumption.
  rewrite run_cons, exec_ChatUsername_new_direct
    by (rewrite the_socket_with_socket_eq; exact Huser).
  cbn [fst snd app].
  rewrite run_cons, (exec_NewDirectGuests_found self recipient)
    by exact Hguest.
  cbn [fst snd app]. rewrite run_cons.
  cbn [exec]. unfold exec_NewDirectSender.
  rewrite the_socket_with_socket_eq.
  cbn [chat_rooms_ set_last_chat_message].
  rewrite bool_decide_eq_true_2 by exact Hsize. reflexivity.
Qed.


(** X11. A direct chat set up without interference: the sender passes
    the gates, the named guest is another session, both tables are
    below the limit with their next ids unused, and neither has a row
    for the other.  Then the sender's new row [sender_id] names the
    recipient and the recipient's id, the recipient's new row
    [recipient_id] carries the sender's id (its peer field is the
    recipient's own socket), both id counters advance by one, the
    sender is sent its channel id, and the first message is queued on
    both sockets under the recipient's id. *)
Theorem new_direct_setup (self recipient : sock) (name text : string)
    (now : Z) (srv : Server) :
  is_captcha_required_ (the_socket self srv) = false →
  (0 < String.length text ≤ max_chat_message_len)%nat →
  chat_rate_limit ≤ now - last_chat_message_ (the_socket self srv) →
  username_ (the_socket self srv) ≠ "" →
  guests_ srv !! fold_case name = Some recipient →
  recipient ≠ self →
  (size (chat_rooms_ (the_socket self srv)) < 10)%nat →
  find_room_by_peer recipient (chat_rooms_ (the_socket self srv)) = None →
  chat_rooms_ (the_socket self srv) !! chat_rooms_id_ (the_socket self srv)
  = None →
  (size (chat_rooms_ (the_socket recipient srv)) < 10)%nat →
  find_room_by_peer self (chat_rooms_ (the_socket recipient srv)) = None →
  chat_rooms_ (the_socket recipient srv)
  !! chat_rooms_id_ (the_socket recipient srv) = None →
  ∃ srv',
    run_entry 5
      (HandleMessage self (CHAT_MESSAGE (NEW_DIRECT name) text) now) srv
    = Some srv'
    ∧ the_socket self srv'
      = QueueMessage
          (NewChatChannel (chat_rooms_id_ (the_socket recipient srv)) text)
          (QueueMessage (ChatChannelId (chat_rooms_id_ (the_socket self srv)))
             (set_chat_rooms
                (<[chat_rooms_id_ (the_socket self srv) :=
                     (recipient, chat_rooms_id_ (the_socket recipient srv))]>
                   (chat_rooms_ (the_socket self srv)))
                (u32_wrap (chat_rooms_id_ (the_socket self srv) + 1))
                (set_last_chat_message now (the_socket self srv))))
    ∧ the_socket recipient srv'
      = QueueMessage
          (NewChatChannel (chat_rooms_id_ (the_socket recipient srv)) text)
          (set_chat_rooms
             (<[chat_rooms_id_ (the_socket recipient srv) :=
                  (recipient, chat_rooms_id_ (the_socket self srv))]>
                (chat_rooms_ (the_socket recipient srv)))
             (u32_wrap (chat_rooms_id_ (the_socket recipient srv) + 1))
             (the_socket recipient srv)).
Proof.
  intros Hcap Hlen Hrate Huser Hguest Hne Hsize Hfind Hfresh
    Hrsize Hrfind Hrfresh.
  unfold run_entry. rewrite chat_message_accepted by assumption.
  set (srv0 := with_socket self (set_last_chat_message now) srv).
  assert (Hs0 : the_socket self srv0
                = set_last_chat_message now (the_socket self srv))
    by apply the_socket_with_socket_eq.
  assert (Hr0 : the_socket recipient srv0 = the_socket recipient srv)
    by (apply the_socket_with_socket_ne; congruence).
  rewrite run_cons, exec_ChatUsername_new_direct
    by (rewrite Hs0; exact Huser).
  cbn [fst snd app].
  rewrite run_cons, (exec_NewDirectGuests_found self recipient)
    by exact Hguest.
  cbn [fst snd app].
  rewrite run_cons, exec_NewDirectSender_fresh
    by (rewrite Hs0; assumption).
  cbn [fst snd app]. rewrite Hs0.
  cbn [chat_rooms_ chat_rooms_id_ set_last_chat_message].
  set (sid := chat_rooms_id_ (the_socket self srv)).
  set (rooms := chat_rooms_ (the_socket self srv)).
  set (srv1 := with_socket self _ srv0).
  assert (Hs1 : the_socket self srv1
                = set_chat_rooms (<[sid := (recipient, 0%N)]> rooms)
                    (u32_wrap (sid + 1))
                    (set_last_chat_message now (the_socket self srv))).
  { unfold srv1. rewrite the_socket_with_socket_eq, Hs0. reflexivity. }
  assert (Hr1 : the_socket recipient srv1 = the_socket recipient srv).
  { unfold srv1. rewrite the_socket_with_socket_ne by congruence.
    exact Hr0. }
  rewrite run_cons. cbn [exec]. unfold exec_NewDirectRecipient.
  rewrite Hr1, Hrfind. rewrite bool_decide_eq_false_2 by lia.
  unfold emplace. rewrite Hrfresh. cbn [fst snd app].
  set (rid := chat_rooms_id_ (the_socket recipient srv)).
  set (rrooms := chat_rooms_ (the_socket recipient srv)).
  set (srv2 := with_socket recipient _ srv1).
  assert (Hs2 : the_socket self srv2 = the_socket self srv1)
    by (unfold srv2; apply the_socket_with_socket_ne; congruence).
  assert (Hr2 : the_socket recipient srv2
                = set_chat_rooms (<[rid := (recipient, sid)]> rrooms)
                    (u32_wrap (rid + 1)) (the_socket recipient srv)).
  { unfold srv2. rewrite the_socket_with_socket_eq, Hr1. reflexivity. }
  rewrite run_cons. cbn [exec]. unfold exec_NewDirectFinish.
  rewrite Hs2, Hs1. cbn [chat_rooms_ chat_rooms_id_ set_chat_rooms].
  rewrite lookup_insert_eq. rewrite bool_decide_eq_true_2 by reflexivity.
  rewrite insert_insert_eq. cbn [fst snd app run].
  eexists. split; [reflexivity|].
  unfold SendChatChannelId. split.
  - rewrite the_socket_with_socket_eq.
    rewrite the_socket_with_socket_ne by congruence.
    rewrite !the_socket_with_socket_eq. rewrite Hs2, Hs1. reflexivity.
  - rewrite the_socket_with_socket_ne by congruence.
    rewrite the_socket_with_socket_eq.
    rewrite !the_socket_with_socket_ne by congruence.
    rewrite Hr2. reflexivity.
Qed.

(** X12. A message to an existing direct chat is queued on the socket
    stored in the sender's row, under the sender's local id and with the
    sender's username; a message to an id with no row is dropped. *)
Theorem direct_chat_routing (self : sock) (id : N) (text : string)
    (now : Z) (srv : Server) :
  is_captcha_required_ (the_socket self srv) = false →
  (0 < String.length text ≤ max_chat_message_len)%nat →
  chat_rate_limit ≤ now - last_chat_message_ (the_socket self srv) →
  username_ (the_socket self srv) ≠ "" →
  run_entry 2 (HandleMessage self (CHAT_MESSAGE (DIRECT id) text) now) srv
  = Some
      match chat_rooms_ (the_socket self srv) !! id with
      | Some (recipient, _) =>
          with_socket recipient
            (QueueMessage
               (DirectChatMessage id (username_ (the_socket self srv)) text))
            (with_socket self (set_last_chat_message now) srv)
      | None => with_socket self (set_last_chat_message now) srv
      end.
Proof.
  intros Hcap Hlen Hrate Huser. unfold run_entry.
  rewrite chat_message_accepted by assumption.
  rewrite run_cons. cbn [exec]. unfold exec_ChatUsername.
  rewrite the_socket_with_socket_eq.
  cbn [username_ set_last_chat_message].
  rewrite bool_decide_eq_false_2 by exact Huser.
  cbn [fst snd app]. rewrite run_cons. cbn [exec]. unfold exec_DirectChat.
  rewrite the_socket_with_socket_eq.
  cbn [chat_rooms_ set_last_chat_message].
  destruct (chat_rooms_ (the_socket self srv) !! id) as [[recipient pid]|];
    reflexivity.
Qed.

End DirectChatReplies.

(** ** Guest names *)

Section GuestNames.
Context `{Environment}.

Lemma change_username_accepted (self : sock) (new_username : string)
    (now : Z) (srv : Server) :
  is_captcha_required_ (the_socket self srv) = false →
  is_logged_in_ (the_socket self srv) = false →
  username_change_rate_limit
  ≤ now - last_username_change_ (the_socket self srv) →
  ValidateUsername new_username = true →
  HandleMessage self (CHANGE_USERNAME new_username) now srv
  = (srv, [ChangeUsernameCheck self new_username]).
Proof.
  intros Hcap Hlog Hrate Hvalid. unfold HandleMessage.
  rewrite Hcap, Hlog, Hvalid.
  rewrite bool_decide_eq_false_2 by lia. reflexivity.
Qed.

(** X13. A rename to a name that is in the guest table, compared
    without regard to case, is refused: the requester is sent
    [UsernameTaken] and nothing else changes.  The holder may be the
    requester itself, so a guest cannot change the case of its own
    name. *)
Theorem change_username_taken (self holder : sock) (new_username : string)
    (now : Z) (srv : Server) :
  is_captcha_required_ (the_socket self srv) = false →
  is_logged_in_ (the_socket self srv) = false →
  username_change_rate_limit
  ≤ now - last_username_change_ (the_socket self srv) →
  ValidateUsername new_username = true →
  username_ (the_socket self srv) ≠ new_username →
  guests_ srv !! fold_case new_username = Some holder →
  run_entry 2 (HandleMessage self (CHANGE_USERNAME new_username) now) srv
  = Some (with_socket self (QueueMessage UsernameTaken) srv).
Proof.
  intros Hcap Hlog Hrate Hvalid Hdiff Htaken. unfold run_entry.
  rewrite change_username_accepted by assumption.
  rewrite run_cons. cbn [exec]. unfold exec_ChangeUsernameCheck.
  rewrite bool_decide_eq_false_2 by exact Hdiff.
  cbn [fst snd app]. rewrite run_cons. cbn [exec].
  unfold exec_ChangeUsernameGuests. rewrite Htaken. reflexivity.
Qed.


Lemma free_guest_number_free (rounds : nat) (num n : N)
    (guests : gmap string sock) :
  free_guest_number rounds num guests = Some n →
  guests !! fold_case ("guest" +:+ to_string n) = None.
Proof.
  revert num. induction rounds as [|rounds IH]; intros num Hfree;
    [discriminate|].
  cbn [free_guest_number] in Hfree.
  destruct (guests !! fold_case ("guest" +:+ to_string num)) eqn:Hnum.
  - apply (IH _ Hfree).
  - injection Hfree as <-. exact Hnum.
Qed.

Lemma fold_case_digits (d : Decimal.uint) :
  fold_case (NilEmpty.string_of_uint d) = NilEmpty.string_of_uint d.
Proof. induction d; cbn; try rewrite IHd; reflexivity. Qed.

Lemma guest_key_inj (m n : N) :
  fold_case ("guest" +:+ to_string m) = fold_case ("guest" +:+ to_string n) →
  m = n.
Proof.
  unfold to_string.
  change (fold_case ("guest" +:+ ?x)) with ("guest" +:+ fold_case x).
  rewrite !fold_case_digits.
  intros Heq. simpl in Heq. repeat injection Heq as Heq.
  change (NilEmpty.string_of_uint (N.to_uint m)
          = NilEmpty.string_of_uint (N.to_uint n)) in Heq.
  apply (f_equal NilEmpty.uint_of_string) in Heq.
  rewrite !NilEmpty.usu in Heq. injection Heq as Heq.
  apply (f_equal N.of_uint) in Heq.
  rewrite !DecimalN.Unsigned.of_to in Heq. exact Heq.
Qed.

Lemma free_guest_number_None (rounds : nat) (num : N)
    (guests : gmap string sock) :
  (num < 2 ^ 32)%N →
  free_guest_number rounds num guests = None →
  ∀ i, (i < rounds)%nat →
    is_Some (guests !! fold_case
               ("guest" +:+ to_string (u32_wrap (num + N.of_nat i)))).
Proof.
  revert num. induction rounds as [|rounds IH]; intros num Hnum Hnone i Hi;
    [lia|].
  cbn [free_guest_number] in Hnone.
  destruct (guests !! fold_case ("guest" +:+ to_string num)) eqn:Hhit;
    [|discriminate].
  destruct i as [|i].
  - unfold u32_wrap. rewrite N.add_0_r, N.mod_small by exact Hnum. eauto.
  - assert (Hlt : (u32_wrap (num + 1) < 2 ^ 32)%N)
      by (apply N.mod_lt; discriminate).
    specialize (IH _ Hlt Hnone i ltac:(lia)).
    replace (u32_wrap (num + N.of_nat (S i)))
      with (u32_wrap (u32_wrap (num + 1) + N.of_nat i)); [exact IH|].
    unfold u32_wrap. rewrite N.Div0.add_mod_idemp_l. f_equal. lia.
Qed.

Lemma free_guest_number_total (num : N) (guests : gmap string sock) :
  (num < 2 ^ 32)%N →
  (N.of_nat (size guests) < 2 ^ 32)%N →
  is_Some (free_guest_number (S (size guests)) num guests).
Proof.
  intros Hnum Hsize.
  destruct (free_guest_number _ _ _) eqn:Hfree; [eauto|exfalso].
  pose proof (free_guest_number_None _ _ _ Hnum Hfree) as Hall.
  set (key := λ i : nat,
         fold_case ("guest" +:+ to_string (u32_wrap (num + N.of_nat i)))).
  set (l := key <$> seq 0 (S (size guests))).
  assert (Hnodup : NoDup l).
  { apply NoDup_fmap_2_strong; [|apply NoDup_seq].
    intros i j Hi Hj Heq. apply elem_of_seq in Hi, Hj.
    apply guest_key_inj in Heq. unfold u32_wrap in Heq.
    assert (Hmod : ∀ k, (k < S (size guests))%nat →
              ((num + N.of_nat k) mod 2 ^ 32
               = if (num + N.of_nat k <? 2 ^ 32)
                 then num + N.of_nat k
                 else num + N.of_nat k - 2 ^ 32)%N).
    { intros k Hk. destruct (N.ltb_spec (num + N.of_nat k) (2 ^ 32)) as [Hlt|Hge].
      - apply N.mod_small, Hlt.
      - symmetry. apply (N.mod_unique _ _ 1); lia. }
    rewrite !Hmod in Heq by lia.
    destruct (N.ltb_spec (num + N.of_nat i) (2 ^ 32)),
             (N.ltb_spec (num + N.of_nat j) (2 ^ 32)); lia. }
  assert (Hsub : list_to_set (C := gset string) l ⊆ dom guests).
  { intros x Hx. apply elem_of_list_to_set in Hx.
    apply list_elem_of_fmap in Hx as (i & -> & Hi).
    apply elem_of_seq in Hi. apply elem_of_dom. apply Hall. lia. }
  apply subseteq_size in Hsub.
  rewrite size_list_to_set in Hsub by exact Hnodup.
  rewrite size_dom in Hsub. unfold l in Hsub.
  rewrite length_fmap, length_seq in Hsub. lia.
Qed.

(** X15. Generating a guest name always succeeds and never displaces
    anyone: with a 32-bit draw and fewer than 2^32 guests the do-while
    loop ends, and the closure adds exactly one entry to the guest
    table, for the socket, under a name ["guest<n>"] that was free. *)
Theorem generate_username_fresh (self : sock) (channel_id : N)
    (srv : Server) :
  (guest_rng (rng_draws srv) < 2 ^ 32)%N →
  (N.of_nat (size (guests_ srv)) < 2 ^ 32)%N →
  ∃ n,
    guests_ srv !! fold_case ("guest" +:+ to_string n) = None
    ∧ guests_ (fst (exec (GenerateUsername self channel_id) srv))
      = <[fold_case ("guest" +:+ to_string n) := self]> (guests_ srv).
Proof.
  intros Hnum Hsize. cbn [exec]. unfold exec_GenerateUsername.
  destruct (free_guest_number_total _ _ Hnum Hsize) as [n Hfree].
  rewrite Hfree.
  exists n. split; [exact (free_guest_number_free _ _ _ _ Hfree)|].
  unfold connect_to_channel.
  repeat case_match; simplify_eq; reflexivity.
Qed.

End GuestNames.

(** ** Connecting to a channel *)

Section Connecting.
Context `{Environment}.

(** X17. A connect request of a socket that has a username is refused
    with a fail response, and nothing else changes, when the channel is
    a VM that does not exist, or a VM that disallows guests while the
    socket is not logged in. *)
Theorem connect_refused (self : sock) (channel_id : N) (now : Z)
    (srv : Server) :
  username_ (the_socket self srv) ≠ "" →
  channel_id ≠ 0%N →
  (virtual_machines_ srv !! channel_id = None
   ∨ ∃ vm, virtual_machines_ srv !! channel_id = Some vm
           ∧ vm_disallow_guests vm = true
           ∧ is_logged_in_ (the_socket self srv) = false) →
  run_entry 3 (HandleMessage self (CONNECT_TO_CHANNEL channel_id) now) srv
  = Some (with_socket self (QueueMessage ConnectResponseFail) srv).
Proof.
  intros Huser Hid Hvm. unfold run_entry, HandleMessage.
  rewrite run_cons. cbn [exec]. unfold exec_ConnectUsername.
  rewrite bool_decide_eq_false_2 by exact Huser.
  unfold connect_to_channel, global_channel_id.
  rewrite bool_decide_eq_false_2 by exact Hid.
  cbn [fst snd app]. rewrite run_cons. cbn [exec]. unfold exec_ConnectVm.
  destruct Hvm as [Hnone|(vm & Hsome & Hdis & Hlog)].
  - rewrite Hnone. reflexivity.
  - rewrite Hsome. cbn [fst snd app]. rewrite run_cons. cbn [exec].
    unfold exec_ConnectVmSettings. rewrite Hsome, Hdis, Hlog. reflexivity.
Qed.

(** X18. Joining the lobby twice is a no-op: a connect request for the
    global channel from a socket that has a username and is already in
    the global chat changes nothing and sends nothing. *)
Theorem connect_lobby_again (self : sock) (now : Z) (srv : Server) :
  username_ (the_socket self srv) ≠ "" →
  is_in_global_chat_ (the_socket self srv) = true →
  run_entry 1 (HandleMessage self (CONNECT_TO_CHANNEL 0) now) srv = Some srv.
Proof.
  intros Huser Hin. unfold run_entry, HandleMessage.
  rewrite run_cons. cbn [exec]. unfold exec_ConnectUsername.
  rewrite bool_decide_eq_false_2 by exact Huser.
  unfold connect_to_channel. rewrite Hin. reflexivity.
Qed.

End Connecting.

(** ** Instances *)

Lemma captcha_then_instruction_witness :
  ∃ srv1 srv2,
    run_entry 1 (HandleMessage 1%nat (CAPTCHA_COMPLETED "valid") 1000)
      vm_lobby = Some srv1
    ∧ is_captcha_required_ (the_socket 1%nat srv1) = false
    ∧ run_entry 1 (HandleMessage 1%nat (GUAC_INSTR "4.sync;") 2000) srv1
      = Some srv2
    ∧ virtual_machines_ srv2
      = alter
          (λ vm,
             set_vm_calls
               (vm_calls vm ++ [VmReadInstruction 1%nat "4.sync;"]) vm)
          (connected_vm_id_ (the_socket 1%nat vm_lobby))
          (virtual_machines_ vm_lobby)
    ∧ sockets srv2 = sockets srv1.
Proof.
  apply (captcha_then_instruction 1%nat "valid" "4.sync;" 1000 2000
           vm_lobby).
  - vm_compute. reflexivity.
  - vm_compute. discriminate.
Defined.

Lemma new_direct_user_not_found_witness :
  run_entry 2
    (HandleMessage 1%nat (CHAT_MESSAGE (NEW_DIRECT "nobody") "hi")
       10000000000) lobby
  = Some (with_socket 1%nat
            (QueueMessage (ChatMessageResponseMsg USER_NOT_FOUND))
            (with_socket 1%nat (set_last_chat_message 10000000000) lobby)).
Proof.
  apply (new_direct_user_not_found 1%nat "nobody" "hi" 10000000000 lobby).
  - vm_compute. reflexivity.
  - vm_compute. split; lia.
  - vm_compute. discriminate.
  - vm_compute. discriminate.
  - vm_compute. reflexivity.
Defined.

Lemma new_direct_user_chat_limit_witness :
  run_entry 3
    (HandleMessage 2%nat (CHAT_MESSAGE (NEW_DIRECT (guest_name 3)) "hi")
       30000000000) ten_chats
  = Some (with_socket 2%nat
            (QueueMessage (ChatMessageResponseMsg USER_CHAT_LIMIT))
            (with_socket 2%nat (set_last_chat_message 30000000000)
               ten_chats)).
Proof.
  apply (new_direct_user_chat_limit 2%nat 3%nat (guest_name 3) "hi"
           30000000000 ten_chats).
  - vm_compute. reflexivity.
  - vm_compute. split; lia.
  - vm_compute. discriminate.
  - vm_compute. discriminate.
  - vm_compute. reflexivity.
  - vm_compute. lia.
Defined.


Lemma new_direct_setup_witness :
  ∃ srv',
    run_entry 5
      (HandleMessage 1%nat (CHAT_MESSAGE (NEW_DIRECT (guest_name 2)) "hi")
         10000000000) lobby
    = Some srv'
    ∧ the_socket 1%nat srv'
      = QueueMessage
          (NewChatChannel (chat_rooms_id_ (the_socket 2%nat lobby)) "hi")
          (QueueMessage
             (ChatChannelId (chat_rooms_id_ (the_socket 1%nat lobby)))
             (set_chat_rooms
                (<[chat_rooms_id_ (the_socket 1%nat lobby) :=
                     (2%nat, chat_rooms_id_ (the_socket 2%nat lobby))]>
                   (chat_rooms_ (the_socket 1%nat lobby)))
                (u32_wrap (chat_rooms_id_ (the_socket 1%nat lobby) + 1))
                (set_last_chat_message 10000000000
                   (the_socket 1%nat lobby))))
    ∧ the_socket 2%nat srv'
      = QueueMessage
          (NewChatChannel (chat_rooms_id_ (the_socket 2%nat lobby)) "hi")
          (set_chat_rooms
             (<[chat_rooms_id_ (the_socket 2%nat lobby) :=
                  (2%nat, chat_rooms_id_ (the_socket 1%nat lobby))]>
                (chat_rooms_ (the_socket 2%nat lobby)))
             (u32_wrap (chat_rooms_id_ (the_socket 2%nat lobby) + 1))
             (the_socket 2%nat lobby)).
Proof.
  apply (new_direct_setup 1%nat 2%nat (guest_name 2) "hi" 10000000000
           lobby).
  - vm_compute. reflexivity.
  - vm_compute. split; lia.
  - vm_compute. discriminate.
  - vm_compute. discriminate.
  - vm_compute. reflexivity.
  - lia.
  - vm_compute. lia.
  - vm_compute. reflexivity.
  - vm_compute. reflexivity.
  - vm_compute. lia.
  - vm_compute. reflexivity.
  - vm_compute. reflexivity.
Defined.

Lemma direct_chat_routing_witness :
  run_entry 2
    (HandleMessage 2%nat (CHAT_MESSAGE (DIRECT 1) "hello") 30000000000)
    nine_chats
  = Some
      match chat_rooms_ (the_socket 2%nat nine_chats) !! 1%N with
      | Some (recipient, _) =>
          with_socket recipient
            (QueueMessage
               (DirectChatMessage 1
                  (username_ (the_socket 2%nat nine_chats)) "hello"))
            (with_socket 2%nat (set_last_chat_message 30000000000)
               nine_chats)
      | None =>
          with_socket 2%nat (set_last_chat_message 30000000000) nine_chats
      end.
Proof.
  apply (direct_chat_routing 2%nat 1 "hello" 30000000000 nine_chats).
  - vm_compute. reflexivity.
  - vm_compute. split; lia.
  - vm_compute. discriminate.
  - vm_compute. discriminate.
Defined.

Lemma change_username_taken_witness :
  run_entry 2 (HandleMessage 1%nat (CHANGE_USERNAME "Guest1001") 10000000000)
    lobby
  = Some (with_socket 1%nat (QueueMessage UsernameTaken) lobby).
Proof.
  apply (change_username_taken 1%nat 2%nat "Guest1001" 10000000000 lobby).
  - vm_compute. reflexivity.
  - vm_compute. reflexivity.
  - vm_compute. discriminate.
  - vm_compute. reflexivity.
  - vm_compute. discriminate.
  - vm_compute. reflexivity.
Defined.


Lemma generate_username_fresh_witness :
  ∃ n,
    guests_ lobby !! fold_case ("guest" +:+ to_string n) = None
    ∧ guests_ (fst (exec (GenerateUsername 13%nat 0) lobby))
      = <[fold_case ("guest" +:+ to_string n) := 13%nat]> (guests_ lobby).
Proof.
  apply (generate_username_fresh 13%nat 0 lobby).
  - vm_compute. reflexivity.
  - vm_compute. reflexivity.
Defined.

Lemma connect_refused_witness :
  run_entry 3 (HandleMessage 2%nat (CONNECT_TO_CHANNEL 8) 1000) vm_lobby
  = Some (with_socket 2%nat (QueueMessage ConnectResponseFail) vm_lobby).
Proof.
  apply (connect_refused 2%nat 8 1000 vm_lobby).
  - vm_compute. discriminate.
  - discriminate.
  - right. exists (sample_vm 8 true). vm_compute. repeat split.
Defined.

Lemma connect_lobby_again_witness :
  run_entry 1 (HandleMessage 1%nat (CONNECT_TO_CHANNEL 0) 1000) lobby
  = Some lobby.
Proof.
  apply (connect_lobby_again 1%nat 1000 lobby).
  - vm_compute. discriminate.
  - vm_compute. reflexivity.
Defined.

(** ** Recording controller: keyframe slots *)

Lemma cancel_keyframe_timer_header (rc : RecordingController) :
  file_header_ (cancel_keyframe_timer rc) = file_header_ rc
  ∧ next_keyframe_offset_ (cancel_keyframe_timer rc)
    = next_keyframe_offset_ rc.
Proof.
  unfold cancel_keyframe_timer. case_match; split; reflexivity.
Qed.

Lemma cancel_stop_timer_header (rc : RecordingController) :
  file_header_ (cancel_stop_timer rc) = file_header_ rc
  ∧ next_keyframe_offset_ (cancel_stop_timer rc)
    = next_keyframe_offset_ rc.
Proof.
  unfold cancel_stop_timer. case_match; split; reflexivity.
Qed.

Lemma keyframe_slots_ok_same (rc rc' : RecordingController) :
  file_header_ rc' = file_header_ rc →
  next_keyframe_offset_ rc' = next_keyframe_offset_ rc →
  keyframe_slots_ok rc → keyframe_slots_ok rc'.
Proof.
  unfold keyframe_slots_ok. intros -> ->. auto.
Qed.

Lemma Stop_keyframe_slots (w : World) (rc : RecordingController) :
  keyframe_slots_ok rc → keyframe_slots_ok (fst (Stop w rc)).
Proof.
  unfold Stop. destruct (negb (IsRecording rc)); intros Hok; [exact Hok|].
  cbn [fst]. unfold keyframe_slots_ok in *.
  cbn [file_header_ next_keyframe_offset_ set_file set_stopTime keyframes
       keyframesCount].
  destruct (cancel_stop_timer_header (cancel_keyframe_timer rc))
    as [-> ->].
  destruct (cancel_keyframe_timer_header rc) as [-> ->]. exact Hok.
Qed.

Lemma UpdateKeyframeTimer_header (w : World) (rc : RecordingController) :
  file_header_ (UpdateKeyframeTimer w rc) = file_header_ rc
  ∧ next_keyframe_offset_ (UpdateKeyframeTimer w rc)
    = next_keyframe_offset_ rc.
Proof.
  unfold UpdateKeyframeTimer, StartKeyframeTimer.
  case_match; [apply cancel_keyframe_timer_header|].
  cbn [file_header_ next_keyframe_offset_ set_keyframe_timer].
  apply cancel_keyframe_timer_header.
Qed.

Lemma new_header_slots (vm_id : N) (start_time fd ki : Z) :
  Z.of_nat (length (keyframes (new_header vm_id start_time fd ki)))
  < 2 ^ 32.
Proof.
  unfold new_header. cbn [keyframes]. rewrite length_replicate.
  unfold keyframe_slots. case_match; [cbn; lia|].
  pose proof (Z.mod_pos_bound (i64_wrap (fd * 60) `quot` ki) (2 ^ 32)
                eq_refl).
  rewrite Z2Nat.id by lia. lia.
Qed.

(** What [Start] leaves of the header: the header it found, with the
    stop time when it closed a file, or a new header when it opened
    one. *)
Lemma Start_header (w : World) (rc : RecordingController) :
  (file_header_ (Start w rc) = file_header_ (fst (Stop w rc))
   ∧ next_keyframe_offset_ (Start w rc) = next_keyframe_offset_ rc
   ∧ IsRecording (Start w rc) = IsRecording (fst (Stop w rc)))
  ∨ (file_header_ (Start w rc) = file_header_ rc
     ∧ next_keyframe_offset_ (Start w rc) = next_keyframe_offset_ rc
     ∧ file_duration_ rc = 0)
  ∨ (∃ start_time,
       file_header_ (Start w rc)
       = new_header (vm_id_ rc) start_time (file_duration_ rc)
           (keyframe_interval_ rc)
       ∧ next_keyframe_offset_ (Start w rc) = O
       ∧ IsRecording (Start w rc) = true).
Proof.
  unfold Start.
  destruct (bool_decide (file_duration_ rc = 0)) eqn:Hd.
  { right. left. apply bool_decide_eq_true_1 in Hd. auto. }
  assert (Hstop : next_keyframe_offset_ (fst (Stop w rc))
                  = next_keyframe_offset_ rc
                  ∧ vm_id_ (fst (Stop w rc)) = vm_id_ rc
                  ∧ file_duration_ (fst (Stop w rc)) = file_duration_ rc
                  ∧ keyframe_interval_ (fst (Stop w rc))
                    = keyframe_interval_ rc
                  ∧ IsRecording (fst (Stop w rc)) = false).
  { split; [|split; [|split; [|split]]]; [| | | |apply Stop_closes];
      unfold Stop, cancel_stop_timer, cancel_keyframe_timer;
      repeat case_match; reflexivity. }
  destruct (Stop w rc) as [rc1 stopped]. cbn [fst] in *.
  destruct Hstop as (Hnext & Hvm & Hfd & Hki & Hclosed).
  destruct (negb (create_directories_ok w)); [left; auto|].
  destruct (bool_decide (date_time w = "")); [left; auto|].
  destruct (negb (open_ok w)).
  { left. cbn. auto. }
  right. right. exists (default (system_now w) stopped).
  cbn [file_header_ next_keyframe_offset_ set_file IsRecording is_open].
  rewrite Hvm, Hfd, Hki. auto.
Qed.

Lemma Start_keyframe_slots (w : World) (rc : RecordingController) :
  keyframe_slots_ok rc → keyframe_slots_ok (Start w rc).
Proof.
  intros Hok. pose proof (Stop_keyframe_slots w rc Hok) as Hstop.
  destruct (Start_header w rc)
    as [(Hh & Hn & _)|[(Hh & Hn & _)|(start_time & Hh & Hn & _)]].
  - unfold keyframe_slots_ok in *. rewrite Hh, Hn.
    destruct Hstop as (H1 & H2 & H3). destruct Hok as (H4 & _).
    split; [|auto].
    rewrite H4. revert H1. unfold Stop.
    destruct (negb (IsRecording rc)); cbn; [congruence|].
    destruct (cancel_stop_timer_header (cancel_keyframe_timer rc))
      as [-> _].
    destruct (cancel_keyframe_timer_header rc) as [-> _]. reflexivity.
  - exact (keyframe_slots_ok_same rc _ Hh Hn Hok).
  - unfold keyframe_slots_ok. rewrite Hh, Hn.
    split; [reflexivity|]. split; [cbn; lia|apply new_header_slots].
Qed.

Lemma Start_opened_keyframe_slots (w : World) (rc : RecordingController) :
  file_duration_ rc ≠ 0 →
  IsRecording (Start w rc) = true →
  keyframe_slots_ok (Start w rc)
  ∧ keyframesCount (file_header_ (Start w rc)) = O
  ∧ length (keyframes (file_header_ (Start w rc)))
    = Z.to_nat (keyframe_slots (file_duration_ rc) (keyframe_interval_ rc)).
Proof.
  intros Hduration Hopen.
  destruct (Start_header w rc)
    as [(_ & _ & Hrec)|[(_ & _ & Hzero)|(start_time & Hh & Hn & _)]].
  - rewrite Stop_closes in Hrec. congruence.
  - contradiction.
  - unfold keyframe_slots_ok. rewrite Hh, Hn.
    split; [|split; [reflexivity|apply length_replicate]].
    split; [reflexivity|]. split; [cbn; lia|apply new_header_slots].
Qed.

Lemma keyframe_timer_handler_keyframe_slots (error_code : bool)
    (tellp : nat) (w : World) (rc : RecordingController) :
  keyframe_slots_ok rc →
  keyframe_slots_ok (keyframe_timer_handler error_code tellp w rc).
Proof.
  intros Hok. unfold keyframe_timer_handler.
  destruct error_code; [exact Hok|].
  destruct (bool_decide _) eqn:Hend.
  - apply Start_keyframe_slots, Hok.
  - apply bool_decide_eq_false_1 in Hend.
    destruct Hok as (Hnext & Hcount & Hslots).
    unfold keyframe_slots_ok, StartKeyframeTimer.
    cbn [file_header_ next_keyframe_offset_ set_keyframe_timer].
    destruct (cancel_keyframe_timer_header
                (set_file (is_open rc)
                   {| vmId := vmId (file_header_ rc);
                      startTime := startTime (file_header_ rc);
                      stopTime := stopTime (file_header_ rc);
                      keyframes :=
                        <[next_keyframe_offset_ rc :=
                            {| fileOffset := tellp;
                               timestamp := system_now w |}]>
                          (keyframes (file_header_ rc));
                      keyframesCount :=
                        Z.to_nat
                          ((Z.of_nat (keyframesCount (file_header_ rc)) + 1)
                           mod 2 ^ 32) |}
                   (S (next_keyframe_offset_ rc)) (filename_ rc)
                   [HeaderWritten
                      {| vmId := vmId (file_header_ rc);
                         startTime := startTime (file_header_ rc);
                         stopTime := stopTime (file_header_ rc);
                         keyframes :=
                           <[next_keyframe_offset_ rc :=
                               {| fileOffset := tellp;
                                  timestamp := system_now w |}]>
                             (keyframes (file_header_ rc));
                         keyframesCount :=
                           Z.to_nat
                             ((Z.of_nat (keyframesCount (file_header_ rc))
                               + 1) mod 2 ^ 32) |};
                    OnKeyframeInRecording] rc)) as [-> ->].
    cbn [file_header_ next_keyframe_offset_ set_file keyframes
         keyframesCount].
    rewrite length_insert.
    rewrite Z.mod_small by lia.
    split; [lia|]. split; [lia|exact Hslots].
Qed.

Lemma controller_step_keyframe_slots (rc : RecordingController)
    (e : World * ControllerCall) :
  keyframe_slots_ok rc → keyframe_slots_ok (controller_step rc e).
Proof.
  intros Hok. destruct e as [w [fd ki| | | | |tellp]];
    cbn [controller_step].
  - unfold SetRecordingSettings. repeat case_match; try exact Hok.
    + apply Start_keyframe_slots. exact Hok.
    + destruct (UpdateKeyframeTimer_header w (set_durations fd ki rc))
        as [Hh Hn].
      exact (keyframe_slots_ok_same rc _ Hh Hn Hok).
  - apply Start_keyframe_slots, Hok.
  - apply Stop_keyframe_slots, Hok.
  - unfold stop_timer_expired. case_match; exact Hok.
  - unfold keyframe_timer_expired. case_match; exact Hok.
  - unfold run_completion.
    destruct (completions_ rc) as [|[error_code|error_code] rest];
      [exact Hok| |].
    + unfold stop_timer_handler. destruct error_code.
      * apply Stop_keyframe_slots. exact Hok.
      * apply Start_keyframe_slots. exact Hok.
    + apply keyframe_timer_handler_keyframe_slots. exact Hok.
Qed.

Lemma controller_run_keyframe_slots (es : list (World * ControllerCall))
    (rc : RecordingController) :
  keyframe_slots_ok rc → keyframe_slots_ok (controller_run es rc).
Proof.
  revert rc. induction es as [|e es IH]; intros rc Hok; [exact Hok|].
  apply IH, controller_step_keyframe_slots, Hok.
Qed.

(** X19. Keyframes stay within the header: once [Start] has opened a
    file, whatever follows (new settings, [Start], [Stop], timers that
    expire, handlers run by the io_context with or without error), the
    slot written next is the one behind the keyframes counted in the
    header and the count never exceeds the slots the header has, so the
    keyframe handler never writes outside the list and the 32-bit count
    never wraps. *)
Theorem keyframe_slots_invariant (w : World) (rc : RecordingController)
    (es : list (World * ControllerCall)) :
  file_duration_ rc ≠ 0 →
  IsRecording (Start w rc) = true →
  keyframe_slots_ok (controller_run es (Start w rc)).
Proof.
  intros Hduration Hopen.
  apply controller_run_keyframe_slots.
  apply Start_opened_keyframe_slots; assumption.
Qed.

Lemma keyframe_slots_invariant_witness :
  keyframe_slots_ok
    (controller_run
       [(world0, KeyframeTimerExpired); (world0, RunCompletion 10);
        (world0, CallSetRecordingSettings 1 20);
        (world1, RunCompletion 20); (world1, StopTimerExpired);
        (world1, RunCompletion 30)]
       (Start world0 idle_controller)).
Proof.
  apply (keyframe_slots_invariant world0 idle_controller).
  - vm_compute. discriminate.
  - vm_compute. reflexivity.
Defined.






(** ** Recording previews: the frame loop *)

Lemma next_instruction_consumed (rest : list RecordedMessage)
    (consumed : nat) (i : GuacServerInstruction) (n : nat) :
  next_instruction rest consumed = (Some i, n) →
  (consumed < n ≤ consumed + length rest)%nat.
Proof.
  revert consumed. induction rest as [|m rest IH]; intros consumed Hnext;
    [discriminate|].
  destruct m as [j| |]; cbn in Hnext.
  - injection Hnext as _ <-. cbn. lia.
  - apply IH in Hnext. cbn. lia.
  - discriminate.
Qed.

Lemma read_frames_fuel (fuel : nat) (time_interval current initial : Z)
    (r : RecordingFileStream) (screenshot : list GuacServerInstruction)
    (one_frame : bool) :
  (length (drop (position_ r) (body_ r)) < fuel)%nat →
  ∃ r' added,
    read_frames fuel time_interval current initial r screenshot one_frame
    = Some (r', screenshot ++ added,
            one_frame || negb (bool_decide (added = [])))
    ∧ body_ r' = body_ r
    ∧ (position_ r ≤ position_ r')%nat.
Proof.
  revert r screenshot one_frame.
  induction fuel as [|fuel IH]; intros r screenshot one_frame Hfuel; [lia|].
  cbn [read_frames]. unfold ReadGuacamoleInstruction.
  destruct (next_instruction (drop (position_ r) (body_ r)) 0)
    as [[i|] consumed] eqn:Hnext.
  - apply next_instruction_consumed in Hnext.
    set (r1 := set_stream _ _ _ r).
    assert (Hdrop : (length (drop (position_ r1) (body_ r1)) < fuel)%nat).
    { unfold r1. cbn. rewrite length_drop in *. lia. }
    destruct ((negb (bool_decide (time_interval = 0))
               && bool_decide (current_timestamp r1 < current))
              || bool_decide (initial = current_timestamp r1)).
    + destruct (IH r1 (screenshot ++ [i]) true Hdrop)
        as (r' & added & -> & Hbody & Hpos).
      exists r', (i :: added). rewrite orb_true_r.
      split; [|split].
      * rewrite <- (assoc_L (++)). reflexivity.
      * rewrite Hbody. reflexivity.
      * unfold r1 in Hpos. cbn in Hpos. lia.
    + exists r1, [i]. rewrite orb_true_r.
      split; [reflexivity|]. split; [reflexivity|]. unfold r1. cbn. lia.
  - eexists _, []. rewrite app_nil_r, orb_false_r.
    split; [reflexivity|]. split; [reflexivity|]. cbn. lia.
Qed.

(** X21. The frame loop of a preview always ends within the file: with
    the rounds the walk gives it (one more than the messages of the
    file) it returns, the instructions it feeds to the screenshot are
    appended to those already there, [one_frame] is set exactly when
    an instruction was read, and the stream never moves back. *)
Theorem read_frames_terminates (time_interval current initial : Z)
    (r : RecordingFileStream) (screenshot : list GuacServerInstruction) :
  ∃ r' added,
    read_frames (S (length (body_ r))) time_interval current initial r
      screenshot false
    = Some (r', screenshot ++ added, negb (bool_decide (added = [])))
    ∧ body_ r' = body_ r
    ∧ (position_ r ≤ position_ r')%nat.
Proof.
  apply (read_frames_fuel (S (length (body_ r))) time_interval current
           initial r screenshot false).
  rewrite length_drop. lia.
Qed.

Lemma SendRecordingPreviews_shape_witness :
  ∃ previews result,
    [RecordingPlaybackPreview 1000 3 [3%N];
     RecordingPlaybackPreview 1250 3 [5%N];
     RecordingPlaybackPreview 1500 3 [6%N];
     RecordingPlaybackPreview 1750 3 [8%N];
     RecordingPlaybackResult true]
    = previews ++ [RecordingPlaybackResult result]
    ∧ forallb is_preview previews = true.
Proof.
  apply (SendRecordingPreviews_shape 10 finished_playback stuck_request).
  vm_compute. reflexivity.
Defined.


(** ** Names across closures *)

Section Names.
Context `{Environment}.

Lemma sn_refl (srv : Server) : same_names srv srv.
Proof. split; [reflexivity|intros k; reflexivity]. Qed.

Lemma sn_trans (a b c : Server) :
  same_names a b → same_names b c → same_names a c.
Proof.
  intros [Hg1 Hu1] [Hg2 Hu2]. split; [congruence|].
  intros k. rewrite Hu2. apply Hu1.
Qed.

Lemma sn_with_socket (srv srv0 : Server) (s : sock) (f : Socket → Socket) :
  (∀ x, username_ (f x) = username_ x) →
  same_names srv srv0 →
  same_names srv (with_socket s f srv0).
Proof.
  intros Hf Hsn. eapply sn_trans; [exact Hsn|].
  split; [reflexivity|]. intros k.
  destruct (decide (s = k)) as [->|Hne].
  - rewrite the_socket_with_socket_eq. apply Hf.
  - rewrite the_socket_with_socket_ne by exact Hne. reflexivity.
Qed.

Lemma sn_same_fields (srv srv0 srv1 : Server) :
  sockets srv1 = sockets srv0 →
  guests_ srv1 = guests_ srv0 →
  same_names srv srv0 →
  same_names srv srv1.
Proof.
  intros Hs Hg [Hg0 Hu0]. split; [congruence|].
  intros k. unfold the_socket. rewrite Hs. apply Hu0.
Qed.

Lemma username_QueueMessage (m : ServerMessage) (s : Socket) :
  username_ (QueueMessage m s) = username_ s.
Proof.
  unfold QueueMessage, QueueMessage_task, SendMessage.
  cbn. destruct (sending_ s); reflexivity.
Qed.

Lemma sn_BroadcastMessage (m : ServerMessage) (ch : Channel)
    (srv srv0 : Server) :
  same_names srv srv0 →
  same_names srv (BroadcastMessage m ch srv0).
Proof.
  unfold BroadcastMessage. generalize (ch_users ch). intros users.
  revert srv0. induction users as [|u users IH]; intros srv0 Hsn;
    [exact Hsn|].
  simpl. apply IH. apply sn_with_socket; [|exact Hsn].
  intros x. apply username_QueueMessage.
Qed.

Lemma sn_put_channel (c : ChannelRef) (ch : Channel) (srv srv0 : Server) :
  same_names srv srv0 →
  same_names srv (put_channel c ch srv0).
Proof.
  intros Hsn. apply (sn_same_fields srv srv0); [| |exact Hsn];
    destruct c; reflexivity.
Qed.

Lemma sn_AddUser (c : ChannelRef) (ud : UserData) (s : sock)
    (srv srv0 : Server) :
  same_names srv srv0 →
  same_names srv (AddUser c ud s srv0).
Proof.
  intros Hsn. unfold AddUser. destruct (get_channel c srv0); [|exact Hsn].
  apply sn_BroadcastMessage, sn_put_channel, Hsn.
Qed.

Lemma sn_RemoveUser (c : ChannelRef) (s : sock) (srv srv0 : Server) :
  same_names srv srv0 →
  same_names srv (RemoveUser c s srv0).
Proof.
  intros Hsn. unfold RemoveUser.
  destruct (get_channel c srv0); [|exact Hsn].
  destruct (GetUserData s _); [|exact Hsn].
  apply sn_BroadcastMessage.
  destruct c.
  - apply sn_put_channel, Hsn.
  - eapply sn_same_fields; [| |apply sn_put_channel, Hsn]; reflexivity.
Qed.

Ltac same_names_server :=
  repeat
    first
      [ exact (sn_refl _)
      | assumption
      | apply sn_with_socket;
          [intros ?; first [apply username_QueueMessage|reflexivity]|]
      | apply sn_BroadcastMessage
      | apply sn_AddUser
      | apply sn_RemoveUser
      | apply sn_put_channel
      | (eapply sn_same_fields; [reflexivity|reflexivity|]) ].

Lemma names_weight_cons (t : Task) (l : list Task) :
  names_weight (t :: l)
  = match name_weight t, names_weight l with
    | Some a, Some b => Some (a + b)%nat
    | _, _ => None
    end.
Proof. reflexivity. Qed.

Lemma names_weight_app (l1 l2 : list Task) (w1 w2 : nat) :
  names_weight l1 = Some w1 →
  names_weight l2 = Some w2 →
  names_weight (l1 ++ l2) = Some (w1 + w2)%nat.
Proof.
  revert w1. induction l1 as [|t l1 IH]; intros w1 H1 H2.
  - injection H1 as <-. exact H2.
  - change ((t :: l1) ++ l2) with (t :: (l1 ++ l2)).
    rewrite names_weight_cons in H1 |- *.
    destruct (name_weight t) as [a|]; [|discriminate].
    destruct (names_weight l1) as [b|] eqn:Hl1; [|discriminate].
    injection H1 as <-. rewrite (IH b eq_refl H2). f_equal. lia.
Qed.

(** A neutral closure keeps the names, and the closures it dispatches
    are neutral and weigh less. *)
Lemma exec_neutral (t : Task) (w : nat) (srv : Server) :
  name_neutral t = Some w →
  same_names srv (fst (exec t srv))
  ∧ ∃ w', names_weight (snd (exec t srv)) = Some w'
          ∧ (w' < w)%nat
          ∧ ∀ g, foldl guests_effect g (snd (exec t srv)) = g.
Proof.
  intros Hneutral.
  destruct t; cbn in Hneutral; try discriminate Hneutral;
    injection Hneutral as <-;
    cbn [exec];
    unfold exec_ConnectVm, exec_ConnectVmSettings, exec_ConnectChannel,
      exec_LeaveVm, exec_UpdateUsernameVm, exec_UpdateUsername,
      exec_DisconnectIp, LeaveVmList;
    repeat case_match; simplify_eq; cbn [fst snd];
    (split; [same_names_server|]);
    (eexists; split; [reflexivity|]; split; [lia|reflexivity]).
Qed.

Lemma run_names (fuel : nat) (pending : list Task) (w : nat)
    (srv : Server) :
  names_weight pending = Some w →
  (w ≤ fuel)%nat →
  ∃ srv',
    run fuel pending srv = Some srv'
    ∧ guests_ srv' = foldl guests_effect (guests_ srv) pending
    ∧ same_usernames srv srv'.
Proof.
  revert pending w srv.
  induction fuel as [|fuel IH]; intros pending w srv Hw Hfuel.
  - destruct pending as [|t rest].
    + exists srv. split; [reflexivity|]. split; [reflexivity|].
      intros k. reflexivity.
    + exfalso. rewrite names_weight_cons in Hw.
      destruct (name_weight t) as [a|] eqn:Ht; [|discriminate].
      destruct (names_weight rest) as [b|]; [|discriminate].
      injection Hw as <-.
      assert (0 < a)%nat; [|lia].
      destruct t; cbn in Ht; try discriminate; injection Ht as <-; lia.
  - destruct pending as [|t rest].
    + exists srv. split; [reflexivity|]. split; [reflexivity|].
      intros k. reflexivity.
    + rewrite names_weight_cons in Hw.
      destruct (name_weight t) as [a|] eqn:Ht; [|discriminate].
      destruct (names_weight rest) as [b|] eqn:Hrest; [|discriminate].
      injection Hw as <-. rewrite run_cons.
      destruct (name_neutral t) as [a'|] eqn:Hneutral.
      * assert (a' = a) as ->
          by (destruct t; cbn in Ht, Hneutral; congruence).
        destruct (exec_neutral t a srv Hneutral)
          as ([Hg Hu] & w' & Hw' & Hlt & Hid).
        destruct (IH (rest ++ snd (exec t srv)) (b + w')%nat
                    (fst (exec t srv)))
          as (srv' & Hrun & Hg' & Hu').
        { apply names_weight_app; assumption. }
        { lia. }
        exists srv'. split; [exact Hrun|]. split.
        -- rewrite Hg', foldl_app, Hid, Hg. cbn [foldl].
           f_equal. destruct t; cbn in Hneutral; try discriminate;
             reflexivity.
        -- intros k. rewrite Hu'. apply Hu.
      * destruct t; cbn in Ht, Hneutral; try discriminate.
        injection Ht as <-. cbn [exec fst snd]. rewrite app_nil_r.
        destruct (IH rest b
                    (set_guests (delete (fold_case username) (guests_ srv))
                       (rng_draws srv) srv) Hrest)
          as (srv' & Hrun & Hg' & Hu'); [lia|].
        exists srv'. split; [exact Hrun|]. split; [exact Hg'|].
        intros k. rewrite Hu'. reflexivity.
Qed.


Lemma OnDisconnect_guests (self : sock) (srv : Server) :
  ∃ srv',
    run_entry 8 (OnDisconnect self) srv = Some srv'
    ∧ guests_ srv'
      = (if bool_decide (username_ (the_socket self srv) = "")
         then guests_ srv
         else delete (fold_case (username_ (the_socket self srv)))
                (guests_ srv)).
Proof.
  unfold run_entry, OnDisconnect.
  destruct (LeaveServerConfig self srv) as [srv1 t1] eqn:H1.
  destruct (LeaveVmList self srv1) as [srv2 t2] eqn:H2.
  cbn [fst snd].
  assert (Hfacts :
    guests_ srv2 = guests_ srv
    ∧ username_ (the_socket self srv2) = username_ (the_socket self srv)
    ∧ (t1 = [] ∨ t1 = [RemoveAdminVmListViewer self])
    ∧ (t2 = [] ∨ t2 = [RemoveVmListViewer self])).
  { unfold LeaveServerConfig, LeaveVmList in H1, H2.
    repeat case_match; simplify_eq;
      rewrite ?the_socket_with_socket_eq; cbn; auto. }
  destruct Hfacts as (Hg & Hu & Ht1 & Ht2).
  rewrite <- Hg, <- Hu. clear H1 H2 Hg Hu srv srv1.
  set (s := the_socket self srv2).
  remember
    ((if bool_decide (connected_vm_id_ s = 0%N) then []
      else [LeaveVm self (connected_vm_id_ s)])
     ++ (if is_in_global_chat_ s then [LeaveChannel self GlobalChannel]
         else [])
     ++ match ip_data_ s with
        | Some _ => [DisconnectIp self]
        | None => []
        end) as tail eqn:Htail.
  assert (Hviewers :
    ∃ srv3 fuel,
      run 8 (t1 ++ t2 ++ [DisconnectUsername self] ++ tail) srv2
      = run (S fuel) ([DisconnectUsername self] ++ tail) srv3
      ∧ (5 ≤ fuel)%nat
      ∧ guests_ srv3 = guests_ srv2
      ∧ the_socket self srv3 = s).
  { destruct Ht1 as [-> | ->], Ht2 as [-> | ->]; cbn [app];
      repeat (rewrite (run_cons _ (RemoveAdminVmListViewer self))
              || rewrite (run_cons _ (RemoveVmListViewer self));
              cbn [exec fst snd]; rewrite app_nil_r);
      eexists _, _; (split; [reflexivity|]); (split; [lia|]);
      split; reflexivity. }
  destruct Hviewers as (srv3 & fuel & -> & Hfuel & Hg3 & Hs3).
  rewrite <- Hg3. clear Hg3 Ht1 Ht2 t1 t2.
  cbn [app]. rewrite run_cons. cbn [exec].
  unfold exec_DisconnectUsername. rewrite Hs3. subst tail.
  destruct (bool_decide (username_ s = "")); cbn [fst snd];
    destruct (bool_decide (connected_vm_id_ s = 0%N)),
      (is_in_global_chat_ s), (ip_data_ s); cbn [app];
    match goal with
    | |- ∃ srv', run ?f ?pending ?srv0 = Some srv' ∧ _ =>
        assert (Hw : ∃ w, names_weight pending = Some w ∧ (w ≤ 5)%nat)
          by (eexists; split; [reflexivity|cbn; lia]);
        destruct Hw as (w & Hw & Hle);
        destruct (run_names f pending w srv0 Hw ltac:(lia))
          as (srv' & Hrun & Hg & _);
        exists srv'; split; [exact Hrun|];
        rewrite Hg; reflexivity
    end.
Qed.


(** X16. A disconnect, run to quiescence (eight closures at most),
    erases the guest-table entry under the socket's username, whoever
    holds it, and no other; a socket that never got a username erases
    nothing. *)
Theorem disconnect_erases_guest (self : sock) (srv : Server) :
  ∃ srv',
    run_entry 8 (OnDisconnect self) srv = Some srv'
    ∧ guests_ srv'
      = (if bool_decide (username_ (the_socket self srv) = "")
         then guests_ srv
         else delete (fold_case (username_ (the_socket self srv)))
                (guests_ srv)).
Proof. exact (OnDisconnect_guests self srv). Qed.

(** X23. A guest leaves the guest table as it found it: when a socket
    without a username asks to connect to a channel (the lobby, a VM,
    or a VM that does not exist), it is given a guest name of its own,
    and when it disconnects afterwards the guest table is again what it
    was before the request. *)
Theorem connect_disconnect_guests (self : sock) (channel_id : N) (now : Z)
    (srv : Server) :
  username_ (the_socket self srv) = "" →
  (guest_rng (rng_draws srv) < 2 ^ 32)%N →
  (N.of_nat (size (guests_ srv)) < 2 ^ 32)%N →
  ∃ srv1 srv2,
    run_entry 9 (HandleMessage self (CONNECT_TO_CHANNEL channel_id) now) srv
    = Some srv1
    ∧ guests_ srv !! fold_case (username_ (the_socket self srv1)) = None
    ∧ guests_ srv1 !! fold_case (username_ (the_socket self srv1))
      = Some self
    ∧ run_entry 8 (OnDisconnect self) srv1 = Some srv2
    ∧ guests_ srv2 = guests_ srv.
Proof.
  intros Hfresh Hnum Hsize. unfold run_entry, HandleMessage.
  rewrite run_cons. cbn [exec]. unfold exec_ConnectUsername.
  rewrite bool_decide_eq_true_2 by exact Hfresh. cbn [fst snd app].
  rewrite run_cons. cbn [exec]. unfold exec_GenerateUsername.
  destruct (free_guest_number_total _ _ Hnum Hsize) as [n Hn].
  rewrite Hn. pose proof (free_guest_number_free _ _ _ _ Hn) as Hfree.
  set (name := "guest" +:+ to_string n) in *.
  set (srv0 := set_guests _ _ srv).
  assert (Hs0 : the_socket self srv0 = the_socket self srv) by reflexivity.
  assert (Hstep :
    ∃ srv1 pending w,
      connect_to_channel self channel_id name srv0 = (srv1, pending)
      ∧ names_weight pending = Some w ∧ (w ≤ 6)%nat
      ∧ (∀ g, foldl guests_effect g pending = g)
      ∧ guests_ srv1 = guests_ srv0
      ∧ username_ (the_socket self srv1) = "").
  { unfold connect_to_channel. rewrite Hs0.
    destruct (bool_decide (channel_id = global_channel_id));
      [destruct (is_in_global_chat_ (the_socket self srv))|];
      eexists _, _, _;
      (split; [reflexivity|]); (split; [reflexivity|]);
      (split; [lia|]); (split; [reflexivity|]); (split; [reflexivity|]);
      rewrite ?the_socket_with_socket_eq, ?Hs0; exact Hfresh. }
  destruct Hstep as (srv1 & pending & w & -> & Hw & Hle & Hid & Hg1 & Hold).
  unfold SetUserData. cbn [fst snd app].
  rewrite run_cons. cbn [exec]. unfold exec_SetUserDataSwap.
  rewrite Hold. rewrite bool_decide_eq_true_2 by reflexivity.
  cbn [negb andb fst snd]. rewrite app_nil_r.
  set (srv2 := with_socket self (set_username name) srv1).
  destruct (run_names 6 pending w srv2 Hw Hle) as (srv3 & Hrun & Hg3 & Hu3).
  rewrite Hid in Hg3.
  assert (Hname : username_ (the_socket self srv3) = name).
  { rewrite Hu3. unfold srv2. rewrite the_socket_with_socket_eq.
    reflexivity. }
  assert (Hguests : guests_ srv3
                    = <[fold_case name := self]> (guests_ srv)).
  { rewrite Hg3. unfold srv2. cbn [guests_ with_socket set_sockets].
    rewrite Hg1. reflexivity. }
  destruct (OnDisconnect_guests self srv3) as (srv4 & Hrun4 & Hg4).
  exists srv3, srv4. rewrite Hname.
  split; [exact Hrun|]. split; [exact Hfree|].
  split; [rewrite Hguests; apply lookup_insert_eq|].
  split; [exact Hrun4|].
  rewrite Hg4, Hname, Hguests.
  rewrite bool_decide_eq_false_2 by (unfold name; simpl; discriminate).
  apply delete_insert_id. exact Hfree.
Qed.

(** X24. Logging in does not move the socket's guest entry, and the
    disconnect of a logged-in socket erases the entry under its
    registered name: after a successful [CreateSession] the guest table
    is unchanged and the socket carries the registered name; after its
    disconnect the table is the one before the login without the entry
    under the registered name, so the entry the socket made as a guest
    stays behind, and a guest holding the registered name loses its
    entry. *)
Theorem login_disconnect_guests (self : sock) (username : string)
    (db : DbSession) (srv : Server) :
  correct_username db ≠ "" →
  ∃ srv1 srv2,
    run 5 [CreateSession self username db] srv = Some srv1
    ∧ username_ (the_socket self srv1) = correct_username db
    ∧ guests_ srv1 = guests_ srv
    ∧ run_entry 8 (OnDisconnect self) srv1 = Some srv2
    ∧ guests_ srv2 = delete (fold_case (correct_username db)) (guests_ srv).
Proof.
  intros Hname. rewrite run_cons. cbn [exec]. unfold exec_CreateSession.
  rewrite bool_decide_eq_false_2 by exact Hname.
  unfold SetUserData. cbn [fst snd app].
  set (srv0 := with_socket self (QueueMessage _) _).
  assert (Hsn : same_names srv srv0).
  { unfold srv0. repeat case_match; unfold InvalidateSession;
      same_names_server. }
  destruct Hsn as [Hg0 Hu0].
  rewrite run_cons. cbn [exec]. unfold exec_SetUserDataSwap.
  set (srv1 := with_socket self (set_username (correct_username db)) srv0).
  set (ut := GetUserType _).
  assert (Hw : ∃ w, names_weight
                      (snd (if negb (bool_decide
                                       (username_ (the_socket self srv0) = ""))
                               && (negb (bool_decide
                                           (connected_vm_id_
                                              (the_socket self srv0) = 0%N))
                                   || is_in_global_chat_
                                        (the_socket self srv0))
                            then (srv1,
                                  (if bool_decide
                                        (connected_vm_id_
                                           (the_socket self srv0) = 0%N)
                                   then []
                                   else [UpdateUsernameVm self
                                           (connected_vm_id_
                                              (the_socket self srv0))
                                           (correct_username db) ut])
                                  ++ (if is_in_global_chat_
                                           (the_socket self srv0)
                                      then [UpdateUsername self GlobalChannel
                                              (correct_username db) ut]
                                      else []))
                            else (srv1, []))) = Some w
                 ∧ (w ≤ 3)%nat).
  { repeat case_match; cbn; eexists; (split; [reflexivity|lia]). }
  destruct Hw as (w & Hw & Hle).
  match type of Hw with
  | names_weight (snd ?e) = _ =>
      assert (Hfst : fst e = srv1) by (repeat case_match; reflexivity);
      assert (Hid : ∀ g, foldl guests_effect g (snd e) = g)
        by (intros g; repeat case_match; reflexivity);
      rewrite Hfst
  end.
  cbn [app].
  match type of Hw with
  | names_weight ?pending = _ =>
      destruct (run_names 3 pending w srv1 Hw Hle)
        as (srv2 & Hrun & Hg2 & Hu2)
  end.
  rewrite Hid in Hg2.
  assert (Hname2 : username_ (the_socket self srv2) = correct_username db).
  { rewrite Hu2. unfold srv1. rewrite the_socket_with_socket_eq.
    reflexivity. }
  assert (Hguests : guests_ srv2 = guests_ srv).
  { rewrite Hg2. unfold srv1. cbn [guests_ with_socket set_sockets].
    exact Hg0. }
  destruct (OnDisconnect_guests self srv2) as (srv3 & Hrun3 & Hg3).
  exists srv2, srv3.
  split; [exact Hrun|]. split; [exact Hname2|]. split; [exact Hguests|].
  split; [exact Hrun3|].
  rewrite Hg3, Hname2, Hguests.
  rewrite bool_decide_eq_false_2 by exact Hname. reflexivity.
Qed.

End Names.

Lemma connect_disconnect_guests_witness :
  ∃ srv1 srv2,
    run_entry 9 (HandleMessage 13%nat (CONNECT_TO_CHANNEL 0) 1000)
      (accept 13 13 lobby) = Some srv1
    ∧ guests_ (accept 13 13 lobby)
      !! fold_case (username_ (the_socket 13%nat srv1)) = None
    ∧ guests_ srv1 !! fold_case (username_ (the_socket 13%nat srv1))
      = Some 13%nat
    ∧ run_entry 8 (OnDisconnect 13%nat) srv1 = Some srv2
    ∧ guests_ srv2 = guests_ (accept 13 13 lobby).
Proof.
  apply (connect_disconnect_guests 13%nat 0 1000 (accept 13 13 lobby)).
  - vm_compute. reflexivity.
  - vm_compute. reflexivity.
  - vm_compute. reflexivity.
Defined.

Lemma login_disconnect_guests_witness :
  ∃ srv1 srv2,
    run 5 [CreateSession 1%nat "alice" alice_session] lobby = Some srv1
    ∧ username_ (the_socket 1%nat srv1) = correct_username alice_session
    ∧ guests_ srv1 = guests_ lobby
    ∧ run_entry 8 (OnDisconnect 1%nat) srv1 = Some srv2
    ∧ guests_ srv2
      = delete (fold_case (correct_username alice_session)) (guests_ lobby).
Proof.
  apply (login_disconnect_guests 1%nat "alice" alice_session lobby).
  vm_compute. discriminate.
Defined.
